(** * FlipDish MCP server: session store, backend gateway and tool executor

    A shallow embedding of [src/state.ts] (the Session Store),
    [src/flipdish-client.ts] (the Backend Gateway), of the MCP server (tool
    registry, widget resources, tool executor and call handler) and of the
    tool calls of the three widgets, with the properties of the
    specification, and further properties of the code, proved about them.

    The code is TypeScript, so at run time it is JavaScript: the values that
    flow through it (tool arguments, backend replies, the cached state) are
    JSON data of any shape.  The embedding keeps them dynamic ([JS.value])
    and writes out what the program does with each shape, including the
    [TypeError]s of property reads on [null].

    Effects are explicit.  A computation is a function from the world (the
    module variable [state], the cache file, the requests sent so far) to an
    outcome, returned or thrown, and the world it leaves.  The backend is a
    parameter: any function from the requests received so far and the request
    at hand to a reply, so a statement about every backend is a statement
    about every run.  One tool call runs to its end before the next one
    starts, as the server handles them; what the program writes to the
    console is left out. *)

From Stdlib Require Import String Ascii ZArith List Bool Lia DecimalString.
Import ListNotations.
Local Open Scope string_scope.
Set Warnings "-register-all".

(* ===================================================================== *)
(** ** JavaScript values and the operators the program applies to them *)
(* ===================================================================== *)

Module JS.

(** Numbers are modelled by the integers: ids, quantities, lengths and HTTP
    statuses are integers; NaN, the infinities and fractions are outside the
    model.  An object is the list of its own properties in insertion order,
    each key held once. *)
Inductive value : Type :=
| VUndef
| VNull
| VBool (b : bool)
| VNum (n : Z)
| VStr (s : string)
| VArr (items : list value)
| VObj (fields : list (string * value)).

Definition string_of_Z (n : Z) : string := NilZero.string_of_int (Z.to_int n).

(** ToBoolean: what [!v], [v ? a : b], [v || d] and [v && d] test. *)
Definition truthy (v : value) : bool :=
  match v with
  | VUndef | VNull => false
  | VBool b => b
  | VNum n => negb (n =? 0)%Z
  | VStr s => negb (s =? "")
  | VArr _ | VObj _ => true
  end.

(** [a || b] *)
Definition or_ (a b : value) : value := if truthy a then a else b.

(** [a ?? b] and the test of [a?.k] *)
Definition nullish (v : value) : bool :=
  match v with VUndef | VNull => true | _ => false end.

(** A destructuring default, [const { k = d } = o]: only [undefined] takes
    the default. *)
Definition default_ (a d : value) : value :=
  match a with VUndef => d | _ => a end.

Fixpoint lookup_opt (k : string) (fs : list (string * value)) : option value :=
  match fs with
  | [] => None
  | (k', v) :: r => if k =? k' then Some v else lookup_opt k r
  end.

Definition lookup (k : string) (fs : list (string * value)) : value :=
  match lookup_opt k fs with Some v => v | None => VUndef end.

(** [v.k] on a value that is neither [undefined] nor [null], for the keys the
    program reads: data keys and [length].  No data key is inherited from a
    prototype, so anything but an own property (or the length of an array or
    string) reads as [undefined].  The length of a string is counted in the
    characters of the Rocq string. *)
Definition prop (v : value) (k : string) : value :=
  match v with
  | VObj fs => lookup k fs
  | VArr l => if k =? "length" then VNum (Z.of_nat (List.length l)) else VUndef
  | VStr s => if k =? "length" then VNum (Z.of_nat (String.length s)) else VUndef
  | _ => VUndef
  end.

(** ToString, as template literals, [new Error(v)] and [Array.prototype.join]
    apply it.  [join] prints [undefined] and [null] elements as nothing.  A
    number is printed as the decimal digits of the integer, which is what
    JavaScript prints for the safe integers ([safe] below): an HTTP status is
    one, and an id of the backend need not be. *)
Fixpoint ToString (v : value) : string :=
  match v with
  | VUndef => "undefined"
  | VNull => "null"
  | VBool true => "true"
  | VBool false => "false"
  | VNum n => string_of_Z n
  | VStr s => s
  | VArr l =>
      let fix elems (l : list value) : list string :=
        match l with
        | [] => []
        | x :: r => match x with VUndef | VNull => "" | _ => ToString x end :: elems r
        end in
      String.concat "," (elems l)
  | VObj _ => "[object Object]"
  end.

Definition join_elem (x : value) : string :=
  match x with VUndef | VNull => "" | _ => ToString x end.

(** [l.join(sep)] *)
Definition join (sep : string) (l : list value) : string :=
  String.concat sep (map join_elem l).

(** [v === n] for a number [n] *)
Definition is_num (n : Z) (v : value) : bool :=
  match v with VNum m => (m =? n)%Z | _ => false end.

(** [l.includes(n)] for a number [n] (SameValueZero is [===] away from NaN) *)
Definition arr_includes (l : list value) (n : Z) : bool := existsb (is_num n) l.

(** [hay.includes(needle)] on strings *)
Fixpoint str_includes (hay needle : string) : bool :=
  if prefix needle hay then true
  else match hay with
       | EmptyString => false
       | String _ rest => str_includes rest needle
       end.

(** [n.toFixed(2)] of an integer *)
Definition toFixed2 (n : Z) : string := string_of_Z n ++ ".00".

(** [JSON.parse(JSON.stringify(v))] for [v] other than [undefined]: what a
    reader of the serialised text gets back.  [undefined] properties are
    dropped, [undefined] array elements become [null]. *)
Fixpoint jsonify (v : value) : value :=
  match v with
  | VArr l =>
      VArr ((fix elems (l : list value) : list value :=
               match l with
               | [] => []
               | x :: r => match x with VUndef => VNull | _ => jsonify x end :: elems r
               end) l)
  | VObj fs =>
      VObj ((fix props (fs : list (string * value)) : list (string * value) :=
               match fs with
               | [] => []
               | (k, x) :: r =>
                   match x with VUndef => props r | _ => (k, jsonify x) :: props r end
               end) fs)
  | _ => v
  end.

(** JSON data: a value with no [undefined] in it. *)
Fixpoint is_json (v : value) : bool :=
  match v with
  | VUndef => false
  | VArr l =>
      (fix all (l : list value) : bool :=
         match l with [] => true | x :: r => is_json x && all r end) l
  | VObj fs =>
      (fix all (fs : list (string * value)) : bool :=
         match fs with [] => true | (_, x) :: r => is_json x && all r end) fs
  | _ => true
  end.

(** A thrown JavaScript error: its constructor's name and its message. *)
Record exn : Type := mkExn { exn_name : string; message : string }.

Definition Error (m : string) : exn := mkExn "Error" m.
Definition TypeError (m : string) : exn := mkExn "TypeError" m.

(** What [JSON.parse] makes of a text.  The text of the cache file and of an
    HTTP body is represented by this result: a JSON document, or the
    SyntaxError that [JSON.parse] throws on it. *)
Inductive parsed : Type :=
| Json (v : value)
| Malformed (e : exn).

End JS.
Import JS.

(* ===================================================================== *)
(** ** The argument schemas ([zod]) *)
(* ===================================================================== *)

Module Zod.

Inductive ztype : Type :=
| ZString
| ZNumber
| ZArray (t : ztype)
| ZOptional (t : ztype).

Record ZodIssue : Type :=
  mkIssue { path : list value; expected : string; received : string }.

Definition parsedType (v : value) : string :=
  match v with
  | VUndef => "undefined"
  | VNull => "null"
  | VBool _ => "boolean"
  | VNum _ => "number"
  | VStr _ => "string"
  | VArr _ => "array"
  | VObj _ => "object"
  end.

Fixpoint check (t : ztype) (p : list value) (v : value) : list ZodIssue :=
  match t with
  | ZString => match v with VStr _ => [] | _ => [mkIssue p "string" (parsedType v)] end
  | ZNumber => match v with VNum _ => [] | _ => [mkIssue p "number" (parsedType v)] end
  | ZArray t' =>
      match v with
      | VArr l =>
          (fix elems (i : Z) (l : list value) : list ZodIssue :=
             match l with
             | [] => []
             | x :: r => (check t' (p ++ [VNum i]) x ++ elems (i + 1)%Z r)%list
             end) 0%Z l
      | _ => [mkIssue p "array" (parsedType v)]
      end
  | ZOptional t' => match v with VUndef => [] | _ => check t' p v end
  end.

(** [z.object({ k1: t1, ... })] *)
Definition zobject : Type := list (string * ztype).

(** [schema.safeParse(args)]: the issues, or the object of the schema's keys
    (unknown keys are stripped). *)
Definition safeParse (sch : zobject) (args : value) : list ZodIssue + value :=
  match args with
  | VObj fs =>
      match flat_map (fun kt => check (snd kt) [VStr (fst kt)] (lookup (fst kt) fs)) sch with
      | [] => inr (VObj (map (fun kt => (fst kt, lookup (fst kt) fs)) sch))
      | issues => inl issues
      end
  | _ => inl [mkIssue [] "object" (parsedType args)]
  end.

End Zod.
Import Zod.

(* ===================================================================== *)
(** ** The world the program runs in, and the monad of its effects *)
(* ===================================================================== *)

(** [src/state.ts], [interface SessionState].  The fields are typed there
    ([string | null], [any[]]); at run time they hold whatever was assigned,
    so they are values here.  The record is the view of the [state] object
    that the program has: the four properties it reads and assigns.  A cache
    file may bring in further properties; the object carries them along and
    [saveState] writes them back, and no code reads them.  They are not
    modelled, so a statement about the file is one about these four
    properties of it, the ones a start reads. *)
Record SessionState : Type := mkState {
  chatId : value;
  authToken : value;
  phoneNumber : value;
  searchResults : value
}.

(** The cache file [.session_cache.json]. *)
Inductive file : Type :=
| Absent                        (* existsSync is false *)
| Unreadable (e : exn)          (* readFileSync throws *)
| Holds (content : parsed).     (* the text, as JSON.parse reads it *)

(** One [fetch] of [callApi]: the POST it sends. *)
Record request : Type := mkRequest {
  url : string;
  authorization : option string;    (* the Authorization header, when set *)
  action : string;                  (* body.action *)
  args : list value                 (* body.args, as serialised *)
}.

Record response : Type := mkResponse {
  status : Z;
  text : string;                    (* response.text() *)
  json : parsed                     (* response.json() *)
}.

Inductive reply : Type :=
| Rejects (e : exn)                 (* fetch rejects: no response *)
| Responds (r : response).

(** The mutable world: the module variable [state] of [state.ts], the cache
    file, whether the file can be written, and the requests sent so far. *)
Record world : Type := mkWorld {
  state : SessionState;
  cache_file : file;
  writable : bool;
  requests : list request
}.

Definition set_state (s : SessionState) (w : world) : world :=
  mkWorld s (cache_file w) (writable w) (requests w).

Definition set_cache_file (f : file) (w : world) : world :=
  mkWorld (state w) f (writable w) (requests w).

Definition add_request (r : request) (w : world) : world :=
  mkWorld (state w) (cache_file w) (writable w) (requests w ++ [r])%list.

(** A computation returns or throws, and leaves a world either way: what a
    function did before it threw stays done. *)
Inductive outcome (A : Type) : Type :=
| Returns (a : A)
| Throws (e : exn).
Arguments Returns {A} a.
Arguments Throws {A} e.

Definition M (A : Type) : Type := world -> outcome A * world.

Definition ret {A} (a : A) : M A := fun w => (Returns a, w).

Definition throw {A} (e : exn) : M A := fun w => (Throws e, w).

Definition bind {A B} (m : M A) (k : A -> M B) : M B :=
  fun w =>
    match m w with
    | (Returns a, w') => k a w'
    | (Throws e, w') => (Throws e, w')
    end.

(** [try { m } catch (error) { h error }] *)
Definition try_catch {A} (m : M A) (h : exn -> M A) : M A :=
  fun w =>
    match m w with
    | (Returns a, w') => (Returns a, w')
    | (Throws e, w') => h e w'
    end.

Declare Scope js_scope.
Delimit Scope js_scope with js.
Notation "x <- m ;; k" := (bind m (fun x => k))
  (at level 61, m at next level, right associativity) : js_scope.
Notation "m ;; k" := (bind m (fun _ => k))
  (at level 61, right associativity) : js_scope.
Local Open Scope js_scope.

(** [o.k]: a TypeError on [undefined] and [null] (V8's message). *)
Definition read (o : value) (k : string) : M value :=
  match o with
  | VUndef | VNull =>
      throw (TypeError ("Cannot read properties of " ++ ToString o
                        ++ " (reading '" ++ k ++ "')"))
  | _ => ret (prop o k)
  end.

(* ===================================================================== *)
(** ** [src/state.ts]: the Session Store *)
(* ===================================================================== *)

Module SessionStore.

(** [let state: SessionState = { chatId: null, ... , searchResults: [] }] *)
Definition default_state : SessionState := mkState VNull VNull VNull (VArr []).

(** One field of [{ ...state, ...cached }]: an own property of [cached]
    replaces the field.  An array or a string spreads index keys only, and
    [null], a number or a boolean spread nothing. *)
Definition spread_field (k : string) (cached old : value) : value :=
  match cached with
  | VObj fs => match lookup_opt k fs with Some v => v | None => old end
  | _ => old
  end.

(** [{ ...state, ...cached }], at the four properties of the record. *)
Definition merge (s : SessionState) (cached : value) : SessionState :=
  mkState (spread_field "chatId" cached (chatId s))
          (spread_field "authToken" cached (authToken s))
          (spread_field "phoneNumber" cached (phoneNumber s))
          (spread_field "searchResults" cached (searchResults s)).

(** The body of the load-time [try]: [if (existsSync(CACHE_FILE)) { cached =
    JSON.parse(readFileSync(CACHE_FILE)); state = { ...state, ...cached } }]. *)
Definition load_cache (f : file) (s : SessionState) : outcome SessionState :=
  match f with
  | Absent => Returns s
  | Unreadable e => Throws e
  | Holds (Malformed e) => Throws e
  | Holds (Json cached) => Returns (merge s cached)
  end.

(** The load-time block with its [catch], which logs and goes on: the value
    of [state] once the module is loaded. *)
Definition startup (f : file) : outcome SessionState :=
  match load_cache f default_state with
  | Returns s => Returns s
  | Throws _ => Returns default_state
  end.

Definition load (f : file) : SessionState :=
  match startup f with
  | Returns s => s
  | Throws _ => default_state
  end.

(** [JSON.stringify(state, null, 2)], as [JSON.parse] reads it back, at the
    four properties of the record. *)
Definition snapshot (s : SessionState) : value :=
  jsonify (VObj [("chatId", chatId s); ("authToken", authToken s);
                 ("phoneNumber", phoneNumber s); ("searchResults", searchResults s)]).

(** [saveState]: a failed write is logged and swallowed. *)
Definition saveState : M unit :=
  fun w =>
    (Returns tt,
     if writable w then set_cache_file (Holds (Json (snapshot (state w)))) w else w).

Definition getChatId : M value := fun w => (Returns (chatId (state w)), w).

Definition setChatId (c : value) : M unit :=
  (fun w => (Returns tt,
             set_state (mkState c (authToken (state w)) (phoneNumber (state w))
                                (searchResults (state w))) w)) ;;
  saveState.

Definition getAuthToken : M value := fun w => (Returns (authToken (state w)), w).

Definition setAuthToken (token phone : value) : M unit :=
  (fun w => (Returns tt,
             set_state (mkState (chatId (state w)) token phone
                                (searchResults (state w))) w)) ;;
  saveState.

Definition clearAuth : M unit :=
  (fun w => (Returns tt,
             set_state (mkState (chatId (state w)) VNull VNull
                                (searchResults (state w))) w)) ;;
  saveState.

Definition getPhoneNumber : M value := fun w => (Returns (phoneNumber (state w)), w).

Definition getSearchResults : M value :=
  fun w => (Returns (searchResults (state w)), w).

Definition setSearchResults (results : value) : M unit :=
  (fun w => (Returns tt,
             set_state (mkState (chatId (state w)) (authToken (state w))
                                (phoneNumber (state w)) results) w)) ;;
  saveState.

(** [!!state.authToken] *)
Definition isAuthenticated (s : SessionState) : bool := truthy (authToken s).

(** A process start: the module is loaded over the cache file [f]. *)
Definition boot (f : file) (can_write : bool) : world :=
  mkWorld (load f) f can_write [].

End SessionStore.
Import SessionStore.

(* ===================================================================== *)
(** ** What the program is given: configuration, backend, runtime *)
(* ===================================================================== *)

(** [interface FlipDishConfig], as [setConfig] receives it from the process
    environment (a missing variable is [undefined]). *)
Record FlipDishConfig : Type := mkConfig {
  appId : value;
  storeId : value;
  bearerToken : value;
  serverUrl : value
}.

(** The backend is any function from the requests received so far and the
    request at hand to a reply.  [zodMessage] is the text zod gives a
    [ZodError], and [numeric_positive s] tells whether the number a string
    converts to is greater than zero: both belong to the libraries and the
    runtime, not to this repository. *)
Record env : Type := mkEnv {
  config : FlipDishConfig;
  env_FLIPDISH_SERVER_URL : value;          (* process.env.FLIPDISH_SERVER_URL *)
  backend : list request -> request -> reply;
  zodMessage : list ZodIssue -> string;
  numeric_positive : string -> bool
}.

(* ===================================================================== *)
(** ** [src/flipdish-client.ts]: the Backend Gateway *)
(* ===================================================================== *)

Module Flipdish.
Section Client.
Variable E : env.

Definition FLIPDISH_SERVER_URL : value :=
  or_ (env_FLIPDISH_SERVER_URL E) (VStr "https://flip-dish-wrapper.vercel.app").

(** [response.ok] *)
Definition ok (r : response) : bool := ((200 <=? status r) && (status r <=? 299))%Z.

(** The arguments as [JSON.stringify] puts them in the body. *)
Definition wire (l : list value) : list value :=
  match jsonify (VArr l) with VArr l' => l' | _ => [] end.

(** The POST that [callApi(action, args, auth)] sends. *)
Definition request_of (act : string) (arguments : list value) (auth : value) : request :=
  let u := ToString (or_ (serverUrl (config E)) FLIPDISH_SERVER_URL) ++ "/api" in
  let authToken := or_ auth (bearerToken (config E)) in
  let header :=
    if truthy authToken then Some ("Bearer " ++ ToString authToken) else None in
  mkRequest u header act (wire arguments).

(** What [callApi] makes of the reply: [fetch] rejecting, a response that is
    not [ok], a body that [response.json()] cannot parse, or the JSON. *)
Definition settle (rep : reply) : outcome value :=
  match rep with
  | Rejects e => Throws e
  | Responds r =>
      if ok r then
        match json r with
        | Json v => Returns v
        | Malformed e => Throws e
        end
      else Throws (Error ("API Error (" ++ string_of_Z (status r) ++ "): " ++ text r))
  end.

Definition callApi (act : string) (arguments : list value) (auth : value) : M value :=
  fun w =>
    let req := request_of act arguments auth in
    (settle (backend E (requests w) req), add_request req w).

Definition createSession (token : value) : M value :=
  callApi "createSession"
          [appId (config E); storeId (config E); or_ token VNull; bearerToken (config E)]
          VUndef.

(** [Array.isArray(result) ? result : (result.items || [])] *)
Definition searchMenu (chat query token : value) : M value :=
  result <- callApi "searchMenu" [chat; query] token ;;
  match result with
  | VArr _ => ret result
  | _ => items <- read result "items" ;; ret (or_ items (VArr []))
  end.

Definition getBasket (chat token : value) : M value :=
  callApi "getBasket" [chat] token.

Definition updateBasket (chat updates token : value) : M value :=
  callApi "updateBasket" [chat; updates] token.

Definition clearBasket (chat token : value) : M value :=
  callApi "clearBasket" [chat; or_ token VNull] VUndef.

Definition submitOrder (chat token paymentAccountId : value) : M value :=
  callApi "submitOrder"
          [chat; token; or_ paymentAccountId VNull; appId (config E); bearerToken (config E)]
          VUndef.

Definition sendOTP (phone : value) : M value :=
  callApi "sendOTP" [phone] VUndef.

Definition verifyOTP (phone code chat : value) : M value :=
  callApi "verifyOTP" [phone; code; or_ chat VNull; appId (config E)] VUndef.

Definition getRestaurantStatus : M value :=
  callApi "getRestaurantStatus" [storeId (config E)] VUndef.

Definition getPaymentAccounts (token : value) : M value :=
  callApi "getPaymentAccounts" [token; appId (config E)] VUndef.

End Client.
End Flipdish.

(* ===================================================================== *)
(** ** The MCP server: tool executor and call handler *)
(* ===================================================================== *)

Module Server.

Definition WIDGET_URI : string := "ui://widgets/menu-carousel".
Definition LOGIN_WIDGET_URI : string := "ui://widgets/login".
Definition BASKET_WIDGET_URI : string := "ui://widgets/basket".

(** The error text of the backend that tells a stale session id. *)
Definition SESSION_MARKER : string := "Call context not found".

Definition searchMenuSchema : zobject := [("query", ZString)].
Definition addToBasketSchema : zobject :=
  [("menuItemId", ZNumber); ("quantity", ZOptional ZNumber);
   ("menuItemOptionSetItems", ZOptional (ZArray ZNumber))].
Definition removeFromBasketSchema : zobject :=
  [("menuItemId", ZNumber); ("quantity", ZOptional ZNumber)].
Definition submitOrderSchema : zobject := [("paymentAccountId", ZOptional ZNumber)].
Definition sendOtpSchema : zobject := [("phoneNumber", ZString)].
Definition verifyOtpSchema : zobject := [("phoneNumber", ZString); ("code", ZString)].

(** [content: [{ type: "text", text }]] *)
Definition text_content (t : value) : value :=
  VArr [VObj [("type", VStr "text"); ("text", t)]].

(** [a === b].  Objects and arrays compare by identity; the operands the
    program compares (an argument against a field of a backend item) are
    never the same object. *)
Definition strict_eq (a b : value) : bool :=
  match a, b with
  | VUndef, VUndef => true
  | VNull, VNull => true
  | VBool x, VBool y => Bool.eqb x y
  | VNum x, VNum y => (x =? y)%Z
  | VStr x, VStr y => (x =? y)
  | _, _ => false
  end.

(** [l.map(item => item.k)] *)
Fixpoint map_read (k : string) (l : list value) : M (list value) :=
  match l with
  | [] => ret []
  | item :: r => v <- read item k ;; vs <- map_read k r ;; ret (v :: vs)
  end.

(** [l.find(item => item.menuItemId === id)] *)
Fixpoint find_item (id : value) (l : list value) : M value :=
  match l with
  | [] => ret VUndef
  | item :: r =>
      v <- read item "menuItemId" ;;
      if strict_eq v id then ret item else find_item id r
  end.

(** The authentication prompt of [submit_order]. *)
Definition authResponse : value :=
  VObj [("content", text_content (VStr "Please authenticate to continue."));
        ("_meta",
         VObj [("openai/outputTemplate", VStr LOGIN_WIDGET_URI);
               ("openai/toolInvocation/invoking", VStr "Authentication required...");
               ("openai/toolInvocation/invoked", VStr "Please login to continue");
               ("openai/widgetAccessible", VBool true)]);
        ("structuredContent",
         VObj [("error", VStr "authentication_required");
               ("message",
                VStr "Authentication widget opened. Please log in using the form.")])].

Definition euro : string :=
  String (ascii_of_nat 226) (String (ascii_of_nat 130) (String (ascii_of_nat 172) "")).

(** The result the call handler makes of a caught error. *)
Definition error_result (error : exn) : value :=
  VObj [("content", text_content (VStr ("Error: " ++ message error)));
        ("isError", VBool true)].

Section Executor.
Variable E : env.

(** [v > 0]: ToNumber of [v], compared with zero. *)
Definition gt0 (v : value) : bool :=
  match v with
  | VNum n => (0 <? n)%Z
  | VBool b => b
  | VStr s => numeric_positive E s
  | VArr _ => numeric_positive E (ToString v)
  | VUndef | VNull | VObj _ => false
  end.

(** [schema.parse(args)] *)
Definition parse (sch : zobject) (args : value) : M value :=
  match safeParse sch args with
  | inr v => ret v
  | inl issues => throw (mkExn "ZodError" (zodMessage E issues))
  end.

Definition ensureSession : M value :=
  chat <- getChatId ;;
  if negb (truthy chat) then
    result <- Flipdish.createSession E VUndef ;;
    chat' <- read result "chatId" ;;
    setChatId chat' ;;
    ret chat'
  else ret chat.

Definition search_menu (chat token args : value) : M value :=
  p <- parse searchMenuSchema args ;;
  items <- Flipdish.searchMenu E chat (prop p "query") (or_ token VUndef) ;;
  setSearchResults items ;;
  let n := ToString (prop items "length") in
  ret (VObj [("content", text_content (VStr ("Found " ++ n ++ " menu items")));
             ("structuredContent", VObj [("items", items)]);
             ("_meta",
              VObj [("openai/outputTemplate", VStr WIDGET_URI);
                    ("openai/toolInvocation/invoking", VStr "Searching menu...");
                    ("openai/toolInvocation/invoked", VStr ("Found " ++ n ++ " items"))])]).

(** The membership test of [add_to_basket] against the last search. *)
Definition validate_against_search (menuItemId : value) : M unit :=
  results <- getSearchResults ;;
  len <- read results "length" ;;
  if gt0 len then
    match results with
    | VArr l =>
        validIds <- map_read "menuItemId" l ;;
        if negb (existsb (strict_eq menuItemId) validIds) then
          throw (Error ("Invalid menuItemId. Valid IDs: " ++ join ", " validIds))
        else ret tt
    | _ => throw (TypeError "searchResults.map is not a function")
    end
  else ret tt.

Definition add_to_basket (chat token args : value) : M value :=
  p <- parse addToBasketSchema args ;;
  let menuItemId := prop p "menuItemId" in
  let quantity := default_ (prop p "quantity") (VNum 1) in
  let menuItemOptionSetItems := prop p "menuItemOptionSetItems" in
  validate_against_search menuItemId ;;
  Flipdish.updateBasket E chat
    (VObj [("addMenuItems",
            VArr [VObj [("menuItemId", menuItemId); ("quantity", quantity);
                        ("menuItemOptionSetItems", menuItemOptionSetItems)]])])
    (or_ token VUndef) ;;
  basket <- Flipdish.getBasket E chat (or_ token VUndef) ;;
  lines <- read basket "basketMenuItems" ;;
  addedItem <- match lines with
               | VUndef | VNull => ret VUndef
               | VArr l => find_item menuItemId l
               | _ => throw (TypeError "basket.basketMenuItems?.find is not a function")
               end ;;
  let itemName := if truthy addedItem then prop addedItem "name" else VStr "item" in
  ret (VObj [("content",
              text_content (VStr ("Added " ++ ToString quantity ++ "x "
                                  ++ ToString itemName ++ " to basket")));
             ("structuredContent",
              VObj [("basket", basket); ("action", VStr "add");
                    ("menuItemId", menuItemId); ("quantity", quantity);
                    ("itemName", itemName)])]).

Definition view_basket (chat token : value) : M value :=
  basket <- Flipdish.getBasket E chat (or_ token VUndef) ;;
  lines <- read basket "basketMenuItems" ;;
  let items := or_ lines (VArr []) in
  let total := or_ (prop basket "totalPrice") (VNum 0) in
  let n := ToString (prop items "length") in
  match total with
  | VNum t =>
      ret (VObj [("content",
                  text_content (VStr ("Basket contains " ++ n ++ " items (" ++ euro
                                      ++ toFixed2 t ++ ")")));
                 ("structuredContent", VObj [("basket", basket)]);
                 ("_meta",
                  VObj [("openai/outputTemplate", VStr BASKET_WIDGET_URI);
                        ("openai/toolInvocation/invoking", VStr "Loading basket...");
                        ("openai/toolInvocation/invoked", VStr (n ++ " items in basket"))])])
  | _ => throw (TypeError "total.toFixed is not a function")
  end.

Definition remove_from_basket (chat token args : value) : M value :=
  p <- parse removeFromBasketSchema args ;;
  let menuItemId := prop p "menuItemId" in
  let quantity := default_ (prop p "quantity") (VNum 1) in
  Flipdish.updateBasket E chat
    (VObj [("removeMenuItems",
            VArr [VObj [("menuItemId", menuItemId); ("quantity", quantity)]])])
    (or_ token VUndef) ;;
  basket <- Flipdish.getBasket E chat (or_ token VUndef) ;;
  ret (VObj [("content",
              text_content (VStr ("Removed " ++ ToString quantity ++ "x item from basket")));
             ("structuredContent", VObj [("basket", basket); ("action", VStr "remove")]);
             ("_meta", VObj [("openai/outputTemplate", VStr BASKET_WIDGET_URI)])]).

Definition clear_basket (chat token : value) : M value :=
  Flipdish.clearBasket E chat (or_ token VUndef) ;;
  ret (VObj [("content", text_content (VStr "Basket cleared"));
             ("structuredContent",
              VObj [("basket",
                     VObj [("basketMenuItems", VArr []); ("totalPrice", VNum 0)])])]).

Definition submit_order (chat token args : value) : M value :=
  if negb (truthy token) then ret authResponse
  else
    p <- parse submitOrderSchema args ;;
    result <- Flipdish.submitOrder E chat token (prop p "paymentAccountId") ;;
    success <- read result "success" ;;
    if negb (truthy success) then
      throw (Error (ToString (or_ (prop result "error") (VStr "Order submission failed"))))
    else
      ret (VObj [("content",
                  text_content
                    (or_ (prop result "leadTimePrompt")
                         (VStr ("Order placed! Order ID: " ++ ToString (prop result "orderId")))));
                 ("structuredContent",
                  VObj [("success", VBool true); ("orderId", prop result "orderId");
                        ("leadTimePrompt", prop result "leadTimePrompt")])]).

Definition send_otp (args : value) : M value :=
  p <- parse sendOtpSchema args ;;
  let phone := prop p "phoneNumber" in
  result <- Flipdish.sendOTP E phone ;;
  success <- read result "success" ;;
  if negb (truthy success) then
    throw (Error (ToString (or_ (prop result "error") (VStr "Failed to send OTP"))))
  else
    ret (VObj [("content", text_content (VStr ("OTP sent to " ++ ToString phone)));
               ("_meta", VObj [("openai/outputTemplate", VStr LOGIN_WIDGET_URI)])]).

Definition verify_otp (chat args : value) : M value :=
  p <- parse verifyOtpSchema args ;;
  let phone := prop p "phoneNumber" in
  let code := prop p "code" in
  result <- Flipdish.verifyOTP E phone code chat ;;
  success <- read result "success" ;;
  if negb (truthy success) || negb (truthy (prop result "token")) then
    throw (Error (ToString (or_ (prop result "error") (VStr "OTP verification failed"))))
  else
    setAuthToken (prop result "token") phone ;;
    ret (VObj [("content", text_content (VStr "Authentication successful!"));
               ("structuredContent",
                VObj [("authenticated", VBool true); ("phoneNumber", phone)]);
               ("_meta", VObj [("openai/outputTemplate", VStr LOGIN_WIDGET_URI)])]).

(** The [switch (name)] of [executeToolInternal]. *)
Definition dispatch (name : string) (chat token args : value) : M value :=
  if name =? "search_menu" then search_menu chat token args
  else if name =? "add_to_basket" then add_to_basket chat token args
  else if name =? "view_basket" then view_basket chat token
  else if name =? "remove_from_basket" then remove_from_basket chat token args
  else if name =? "clear_basket" then clear_basket chat token
  else if name =? "submit_order" then submit_order chat token args
  else if name =? "send_otp" then send_otp args
  else if name =? "verify_otp" then verify_otp chat args
  else throw (Error ("Unknown tool: " ++ name)).

Definition executeToolInternal (name : string) (args : value) : M value :=
  chat <- ensureSession ;;
  token <- getAuthToken ;;
  dispatch name chat token args.

(** [error.message && error.message.includes("Call context not found")] *)
Definition session_expired (error : exn) : bool :=
  negb (message error =? "") && str_includes (message error) SESSION_MARKER.

Definition executeTool (name : string) (args : value) : M value :=
  try_catch (executeToolInternal name args)
    (fun error =>
       if session_expired error then
         setChatId (VStr "") ;;
         executeToolInternal name args
       else throw error).

(** The handler of [CallToolRequestSchema], on [request.params.name] and
    [request.params.arguments]. *)
Definition callTool (name : string) (arguments : value) : M value :=
  try_catch (executeTool name (if nullish arguments then VObj [] else arguments))
    (fun error => ret (error_result error)).

End Executor.
End Server.
Import Server.

(* ===================================================================== *)
(** ** Concrete backends and runs, used to exercise the theorems *)
(* ===================================================================== *)

Module Scenario.

Definition item (id : Z) (n : string) : value :=
  VObj [("menuItemId", VNum id); ("name", VStr n)].

Definition ok_json (v : value) : reply := Responds (mkResponse 200 "" (Json v)).

Definition unavailable : reply :=
  Responds (mkResponse 503 "Service Unavailable"
                       (Malformed (mkExn "SyntaxError" "Unexpected token S in JSON"))).

Definition expired : reply :=
  Responds (mkResponse 400 "Call context not found"
                       (Malformed (mkExn "SyntaxError" "Unexpected token C in JSON"))).

Definition sent (act : string) (hist : list request) : bool :=
  existsb (fun q => action q =? act) hist.

(** A backend in good health. *)
Definition shop (hist : list request) (r : request) : reply :=
  if action r =? "createSession" then ok_json (VObj [("chatId", VStr "chat-1")])
  else if action r =? "searchMenu" then ok_json (VArr [item 1 "Margherita"; item 2 "Funghi"; item 3 "Diavola"])
  else if action r =? "getBasket" then
    ok_json (VObj [("basketMenuItems", VArr [item 1 "Margherita"]); ("totalPrice", VNum 9)])
  else if action r =? "verifyOTP" then
    ok_json (VObj [("success", VBool true); ("token", VStr "token-1")])
  else ok_json (VObj [("success", VBool true)]).

(** A backend that is down. *)
Definition down (hist : list request) (r : request) : reply := unavailable.

(** A backend that answers searches with the wrapped wire shape. *)
Definition wrapped (hist : list request) (r : request) : reply :=
  if action r =? "searchMenu" then
    ok_json (VObj [("items", VArr [item 1 "Margherita"; item 2 "Funghi"])])
  else shop hist r.

(** A backend that loses the session at the first basket read and is down
    from then on. *)
Definition outage (hist : list request) (r : request) : reply :=
  if sent "getBasket" hist then unavailable
  else if action r =? "getBasket" then expired
  else shop hist r.

(** A backend whose first session has expired: it hands out [chat-1], then
    [chat-2], and knows only the second. *)
Definition renewing (hist : list request) (r : request) : reply :=
  if action r =? "createSession" then
    ok_json (VObj [("chatId", VStr (if sent "createSession" hist then "chat-2" else "chat-1"))])
  else match args r with
       | VStr "chat-2" :: _ => shop hist r
       | _ => expired
       end.

(** A backend that knows no session at all. *)
Definition forgetful (hist : list request) (r : request) : reply :=
  if action r =? "createSession" then shop hist r else expired.

(** A backend that refuses every order and every code. *)
Definition refusing (hist : list request) (r : request) : reply :=
  if action r =? "submitOrder" then
    ok_json (VObj [("success", VBool false); ("error", VStr "Restaurant closed")])
  else if action r =? "verifyOTP" then ok_json (VObj [("success", VBool true)])
  else shop hist r.

(** The process environment of the runs; the texts of zod and the numeric
    reading of strings play no part in them. *)
Definition env_of (b : list request -> request -> reply) : env :=
  mkEnv (mkConfig (VStr "app-1") (VNum 7) VUndef
                  (VStr "https://flip-dish-wrapper.vercel.app"))
        VUndef b (fun _ => "Invalid input") (fun _ => false).

(** A session state as the interface types it. *)
Definition ordering : SessionState :=
  mkState (VStr "chat-1") (VStr "token-1") (VStr "+353861234567")
          (VArr [item 1 "Margherita"; item 2 "Funghi"]).

(** A fresh process with no cache file. *)
Definition fresh : world := boot Absent true.

Definition after {A} (m : M A) (w : world) : world := snd (m w).

Definition pizza : value := VObj [("query", VStr "pizza")].

(** The arguments [{ menuItemId: 4 }]. *)
Definition four : value := VObj [("menuItemId", VNum 4)].

(** After a search for pizza at the healthy backend: session [chat-1], and
    the items 1, 2 and 3 in the cache. *)
Definition searched : world :=
  after (callTool (env_of shop) "search_menu" pizza) fresh.

(** After a search and then a basket read during which the backend lost the
    session and went down: the cache holds the items 1, 2 and 3, and the
    session id has been cleared by the failed retry. *)
Definition stranded : world :=
  after (callTool (env_of outage) "view_basket" VUndef)
        (after (callTool (env_of outage) "search_menu" pizza) fresh).

End Scenario.

(* ===================================================================== *)
(** ** The vocabulary of the statements *)
(* ===================================================================== *)

(** *** Session states and the snapshot *)

(** A session state that holds JSON data: strings, [null], arrays of items,
    anything with no [undefined] in it.  The states of [interface
    SessionState] are of this kind, and so is every state made of tool
    arguments and parsed backend replies. *)
Definition json_state (s : SessionState) : bool :=
  is_json (chatId s) && is_json (authToken s) && is_json (phoneNumber s)
  && is_json (searchResults s).

(** The cache file after [saveState]. *)
Definition saved (w : world) : file :=
  if writable w then Holds (Json (snapshot (state w))) else cache_file w.

(** The properties of an object as [JSON.stringify] keeps them. *)
Fixpoint json_props (fs : list (string * value)) : list (string * value) :=
  match fs with
  | [] => []
  | (k, x) :: r =>
      match x with VUndef => json_props r | _ => (k, jsonify x) :: json_props r end
  end.

(** *** What a computation leaves true of the world *)

(** [preserves P m]: whatever [m] does and however it ends, a world that
    satisfied [P] still does. *)
Definition preserves {A} (P : world -> Prop) (m : M A) : Prop :=
  forall w, P w -> P (snd (m w)).

(** [extends allowed base w]: the requests of [w] are those of [base]
    followed by requests whose actions are all [allowed]. *)
Definition extends (allowed : string -> bool) (base : list request) (w : world) : Prop :=
  exists l, requests w = (base ++ l)%list
            /\ forallb (fun q => allowed (action q)) l = true.

(** The fields of the Session Store other than the session id are those of
    [s]. *)
Definition rest_of_store (s : SessionState) (w : world) : Prop :=
  authToken (state w) = authToken s
  /\ phoneNumber (state w) = phoneNumber s
  /\ searchResults (state w) = searchResults s.

(** The cache is the array [l], and the requests since [base] are none of
    them basket updates. *)
Definition rejecting (l : list value) (base : list request) (w : world) : Prop :=
  extends (fun a => negb (a =? "updateBasket")) base w
  /\ searchResults (state w) = VArr l.

(** Two worlds that differ at most in the search cache (and in the cache
    file, which holds a copy of it). *)
Definition same_but_cache (w w' : world) : Prop :=
  chatId (state w) = chatId (state w')
  /\ authToken (state w) = authToken (state w')
  /\ phoneNumber (state w) = phoneNumber (state w')
  /\ requests w = requests w'.

(** [blind m]: run in two such worlds, [m] ends the same way and leaves two
    such worlds: how it ends, what it sends and what it leaves of the session
    do not depend on the search cache. *)
Definition blind {A} (m : M A) : Prop :=
  forall w w', same_but_cache w w' ->
               fst (m w) = fst (m w') /\ same_but_cache (snd (m w)) (snd (m w')).

(** *** The requests of the executor *)

(** The request by which [ensureSession] asks for a guest session. *)
Definition guest_session_request (E : env) : request :=
  Flipdish.request_of E "createSession"
    [appId (config E); storeId (config E); VNull; bearerToken (config E)] VUndef.

(** The request by which [verify_otp] has the code checked. *)
Definition verify_request (E : env) (chat p : value) : request :=
  Flipdish.request_of E "verifyOTP"
    [prop p "phoneNumber"; prop p "code"; or_ chat VNull; appId (config E)] VUndef.

(** The request by which [submit_order] places the order. *)
Definition submit_request (E : env) (chat token p : value) : request :=
  Flipdish.request_of E "submitOrder"
    [chat; token; or_ (prop p "paymentAccountId") VNull; appId (config E);
     bearerToken (config E)] VUndef.

(** The request by which [add_to_basket] adds the item. *)
Definition addition_request (E : env) (chat token p : value) : request :=
  Flipdish.request_of E "updateBasket"
    [chat;
     VObj [("addMenuItems",
            VArr [VObj [("menuItemId", prop p "menuItemId");
                        ("quantity", default_ (prop p "quantity") (VNum 1));
                        ("menuItemOptionSetItems", prop p "menuItemOptionSetItems")]])]]
    (or_ token VUndef).

(** The request by which [remove_from_basket] removes the item. *)
Definition removal_request (E : env) (chat token p : value) : request :=
  Flipdish.request_of E "updateBasket"
    [chat;
     VObj [("removeMenuItems",
            VArr [VObj [("menuItemId", prop p "menuItemId");
                        ("quantity", default_ (prop p "quantity") (VNum 1))]])]]
    (or_ token VUndef).

(** *** Results and errors of the tools *)

(** The names of the [switch] of [executeToolInternal]. *)
Definition tool_names : list string :=
  ["search_menu"; "add_to_basket"; "view_basket"; "remove_from_basket";
   "clear_basket"; "submit_order"; "send_otp"; "verify_otp"].

Definition known (name : string) : bool := existsb (String.eqb name) tool_names.

(** The result of the [clear_basket] case. *)
Definition cleared : value :=
  VObj [("content", text_content (VStr "Basket cleared"));
        ("structuredContent",
         VObj [("basket", VObj [("basketMenuItems", VArr []); ("totalPrice", VNum 0)])])].

(** The result of a successful [verify_otp]. *)
Definition signed_in (phone : value) : value :=
  VObj [("content", text_content (VStr "Authentication successful!"));
        ("structuredContent", VObj [("authenticated", VBool true); ("phoneNumber", phone)]);
        ("_meta", VObj [("openai/outputTemplate", VStr LOGIN_WIDGET_URI)])].

(** The ids of the cached items, [searchResults.map(item => item.menuItemId)],
    when every cached item has properties to read. *)
Fixpoint item_ids (l : list value) : option (list value) :=
  match l with
  | [] => Some []
  | item :: r =>
      if nullish item then None
      else match item_ids r with
           | Some ids => Some (prop item "menuItemId" :: ids)
           | None => None
           end
  end.

(** A string with no occurrence of the character [c]. *)
Fixpoint free_of (c : ascii) (s : string) : bool :=
  match s with
  | EmptyString => true
  | String a r => negb (Ascii.eqb a c) && free_of c r
  end.

(** A number, as [MenuItem] types [menuItemId]. *)
Definition numeric (v : value) : bool :=
  match v with VNum _ => true | _ => false end.

(** The validation error of [add_to_basket]. *)
Definition invalid_id (validIds : list value) : exn :=
  Error ("Invalid menuItemId. Valid IDs: " ++ join ", " validIds).

(** *** Authentication *)

(** The token and the phone number are both set or both unset. *)
Definition auth_atomic (s : SessionState) : Prop :=
  nullish (authToken s) = nullish (phoneNumber s).

(** The invariant: atomic in memory, and atomic in what a restart would
    load. *)
Definition auth_invariant (w : world) : Prop :=
  auth_atomic (state w) /\ auth_atomic (load (cache_file w)).

(** The worlds a process can be in: started with no cache file, then any
    sequence of Session Store operations ([setAuthToken] with a token and a
    phone number, strings as it types them), tool calls and restarts over the
    file as it stands. *)
Inductive reachable (E : env) : world -> Prop :=
| reach_boot : forall can_write, reachable E (boot Absent can_write)
| reach_restart : forall w can_write,
    reachable E w -> reachable E (boot (cache_file w) can_write)
| reach_setChatId : forall w c,
    reachable E w -> reachable E (snd (setChatId c w))
| reach_setAuthToken : forall w token phone,
    reachable E w -> reachable E (snd (setAuthToken (VStr token) (VStr phone) w))
| reach_clearAuth : forall w,
    reachable E w -> reachable E (snd (clearAuth w))
| reach_setSearchResults : forall w results,
    reachable E w -> reachable E (snd (setSearchResults results w))
| reach_callTool : forall w name arguments,
    reachable E w -> reachable E (snd (callTool E name arguments w)).

(* ===================================================================== *)
(** ** The MCP server: tool registry and widget resources *)
(* ===================================================================== *)

Module Registry.

Definition WIDGET_META : value :=
  VObj [("openai/outputTemplate", VStr WIDGET_URI);
        ("openai/widgetAccessible", VBool true);
        ("openai/allowToolCall", VBool true)].

Definition LOGIN_META : value :=
  VObj [("openai/outputTemplate", VStr LOGIN_WIDGET_URI);
        ("openai/widgetAccessible", VBool true);
        ("openai/allowToolCall", VBool true)].

Definition BASKET_META : value :=
  VObj [("openai/outputTemplate", VStr BASKET_WIDGET_URI);
        ("openai/widgetAccessible", VBool true);
        ("openai/allowToolCall", VBool true)].

(** [const tools: Tool[]] *)
Definition tools : list value :=
  [VObj [("name", VStr "search_menu");
         ("description", VStr "Search the FlipDish menu for food items");
         ("inputSchema",
          VObj [("type", VStr "object");
                ("properties",
                 VObj [("query",
                        VObj [("type", VStr "string");
                              ("description",
                               VStr "Search query (e.g., 'burger', 'pizza')")])]);
                ("required", VArr [VStr "query"])]);
         ("_meta", WIDGET_META)];
   VObj [("name", VStr "add_to_basket");
         ("description", VStr "Add a menu item to the basket");
         ("inputSchema",
          VObj [("type", VStr "object");
                ("properties",
                 VObj [("menuItemId",
                        VObj [("type", VStr "number");
                              ("description", VStr "The menu item ID from search results")]);
                       ("quantity",
                        VObj [("type", VStr "number");
                              ("description", VStr "Quantity to add (default: 1)")]);
                       ("menuItemOptionSetItems",
                        VObj [("type", VStr "array");
                              ("items", VObj [("type", VStr "number")]);
                              ("description",
                               VStr "List of selected option IDs (optional)")])]);
                ("required", VArr [VStr "menuItemId"])])];
   VObj [("name", VStr "view_basket");
         ("description", VStr "View the current basket contents");
         ("inputSchema", VObj [("type", VStr "object"); ("properties", VObj [])]);
         ("_meta", BASKET_META)];
   VObj [("name", VStr "remove_from_basket");
         ("description", VStr "Remove an item from the basket");
         ("inputSchema",
          VObj [("type", VStr "object");
                ("properties",
                 VObj [("menuItemId",
                        VObj [("type", VStr "number");
                              ("description", VStr "The menu item ID to remove")]);
                       ("quantity",
                        VObj [("type", VStr "number");
                              ("description", VStr "Quantity to remove (default: 1)")])]);
                ("required", VArr [VStr "menuItemId"])]);
         ("_meta", BASKET_META)];
   VObj [("name", VStr "clear_basket");
         ("description", VStr "Clear all items from the basket");
         ("inputSchema", VObj [("type", VStr "object"); ("properties", VObj [])]);
         ("_meta", BASKET_META)];
   VObj [("name", VStr "submit_order");
         ("description", VStr "Submit the order (requires authentication)");
         ("inputSchema",
          VObj [("type", VStr "object");
                ("properties",
                 VObj [("paymentAccountId",
                        VObj [("type", VStr "number");
                              ("description", VStr "Payment account ID (optional)")])])])];
   VObj [("name", VStr "send_otp");
         ("description",
          VStr "Send OTP to phone number for authentication (widget use only)");
         ("inputSchema",
          VObj [("type", VStr "object");
                ("properties",
                 VObj [("phoneNumber",
                        VObj [("type", VStr "string");
                              ("description", VStr "Phone number to send OTP to")])]);
                ("required", VArr [VStr "phoneNumber"])]);
         ("_meta", LOGIN_META)];
   VObj [("name", VStr "verify_otp");
         ("description", VStr "Verify OTP code for authentication (widget use only)");
         ("inputSchema",
          VObj [("type", VStr "object");
                ("properties",
                 VObj [("phoneNumber",
                        VObj [("type", VStr "string");
                              ("description", VStr "Phone number used for OTP")]);
                       ("code",
                        VObj [("type", VStr "string");
                              ("description", VStr "OTP code received")])]);
                ("required", VArr [VStr "phoneNumber"; VStr "code"])]);
         ("_meta", LOGIN_META)]].

(** [const resources: Resource[]] of [createFlipDishServer]. *)
Definition resources : list value :=
  [VObj [("uri", VStr WIDGET_URI);
         ("name", VStr "Menu Carousel Widget");
         ("description", VStr "Interactive menu carousel widget markup");
         ("mimeType", VStr "text/html+skybridge");
         ("_meta", WIDGET_META)];
   VObj [("uri", VStr LOGIN_WIDGET_URI);
         ("name", VStr "Login Widget");
         ("description", VStr "User authentication widget");
         ("mimeType", VStr "text/html+skybridge");
         ("_meta", LOGIN_META)];
   VObj [("uri", VStr BASKET_WIDGET_URI);
         ("name", VStr "Basket Widget");
         ("description", VStr "Shopping basket widget with checkout");
         ("mimeType", VStr "text/html+skybridge");
         ("_meta", BASKET_META)]].

(** The widget markup that [loadBuiltWidget] read when the module was
    loaded. *)
Record assets : Type := mkAssets {
  MENU_CAROUSEL_HTML : string;
  LOGIN_HTML : string;
  BASKET_HTML : string
}.

(** The handler of [ListToolsRequestSchema]. *)
Definition listTools : value := VObj [("tools", VArr tools)].

(** The handler of [ListResourcesRequestSchema]. *)
Definition listResources : value := VObj [("resources", VArr resources)].

Definition served (uri html : string) (meta : value) : value :=
  VObj [("contents",
         VArr [VObj [("uri", VStr uri);
                     ("mimeType", VStr "text/html+skybridge");
                     ("text", VStr html);
                     ("_meta", meta)]])].

(** The handler of [ReadResourceRequestSchema], on [request.params.uri]. *)
Definition readResource (A : assets) (uri : string) : outcome value :=
  if uri =? WIDGET_URI then Returns (served WIDGET_URI (MENU_CAROUSEL_HTML A) WIDGET_META)
  else if uri =? LOGIN_WIDGET_URI then Returns (served LOGIN_WIDGET_URI (LOGIN_HTML A) LOGIN_META)
  else if uri =? BASKET_WIDGET_URI then
    Returns (served BASKET_WIDGET_URI (BASKET_HTML A) BASKET_META)
  else Throws (Error ("Unknown resource: " ++ uri)).

End Registry.

(* ===================================================================== *)
(** ** The widgets that call the tools *)
(* ===================================================================== *)

(** A call of [window.openai.callTool(name, args)] by a widget. *)
Record tool_call : Type := mkCall { call_name : string; call_args : value }.

(** [src/widgets/login/Login.tsx]: what the component computes from its
    inputs, and the tool calls it makes.  The clock of [setTimeout] and the
    rendering are left out; [host] tells whether [window.openai.callTool] is
    a function. *)
Module Login.

Definition is_digit (c : ascii) : bool :=
  (48 <=? nat_of_ascii c)%nat && (nat_of_ascii c <=? 57)%nat.

(** [s.replace(/\D/g, '')].  A character of the JavaScript string that is no
    digit is one or more bytes here, none of them a digit, so the result is
    the same string of digits. *)
Fixpoint strip_non_digits (s : string) : string :=
  match s with
  | EmptyString => EmptyString
  | String c r => if is_digit c then String c (strip_non_digits r) else strip_non_digits r
  end.

(** [e.target.value.replace(/\D/g, '').slice(0, 4)] *)
Definition otp_value (raw : string) : string :=
  substring 0 4 (strip_non_digits raw).

(** The [onChange] of the code input: the new [otpCode], and the call made
    once four digits are entered. *)
Definition otp_change (host : bool) (phoneNumber raw : string) : string * option tool_call :=
  let value := otp_value raw in
  (value,
   if (String.length value =? 4)%nat then
     if host then
       Some (mkCall "verify_otp"
                    (VObj [("phoneNumber", VStr phoneNumber); ("code", VStr value)]))
     else None
   else None).

(** The call made once [verify_otp] has resolved. *)
Definition order : tool_call := mkCall "submit_order" (VObj []).

(** [handleSendOtp]: nothing happens on an empty number. *)
Definition handleSendOtp (host : bool) (phoneNumber : string) : option tool_call :=
  if (phoneNumber =? "") then None
  else if host then Some (mkCall "send_otp" (VObj [("phoneNumber", VStr phoneNumber)]))
  else None.

End Login.

(** The menu carousel widget: the choice of options of a card.  Option ids
    are numbers, as [OptionItem] types them. *)
Module Menu.

(** [current.includes(optionId)] *)
Definition includes (current : list Z) (optionId : Z) : bool :=
  existsb (Z.eqb optionId) current.

(** The selection of the current option set after [handleOptionToggle]:
    [[optionId]] in a single-select set, and otherwise
    [isSelected ? current.filter(id => id !== optionId) : [...current, optionId]]. *)
Definition toggle (isSingleSelect : bool) (current : list Z) (optionId : Z) : list Z :=
  if isSingleSelect then [optionId]
  else if includes current optionId
       then filter (fun id => negb (id =? optionId)%Z) current
       else (current ++ [optionId])%list.

(** [Object.values(finalOptions).forEach(ids => allSelectedIds.push(...ids))]:
    the selections of the option sets, one after the other.  [finalOptions]
    is the record by option set, in the order [Object.values] lists it; the
    ids in it are the [menuItemOptionSetItemId]s of the search result, as the
    backend gave them. *)
Definition allSelectedIds (finalOptions : list (string * list value)) : list value :=
  concat (map snd finalOptions).

(** [submitOrder(finalOptions)] of a card: the call that adds its item, with
    [item.menuItemId] as the search result has it. *)
Definition submitOrder (host : bool) (menuItemId : value)
    (finalOptions : list (string * list value)) : option tool_call :=
  if host then
    Some (mkCall "add_to_basket"
                 (VObj [("menuItemId", menuItemId);
                        ("quantity", VNum 1);
                        ("menuItemOptionSetItems", VArr (allSelectedIds finalOptions))]))
  else None.

End Menu.

(** [src/widgets/basket/Basket.tsx]: the calls of the basket widget, and
    what it tells the user once [submit_order] has resolved. *)
Module Basket.

(** [handleRemoveItem(item.menuItemId)]: the id is the one of the basket
    line, as the backend gave it. *)
Definition handleRemoveItem (host : bool) (menuItemId : value) : option tool_call :=
  if host then
    Some (mkCall "remove_from_basket"
                 (VObj [("menuItemId", menuItemId); ("quantity", VNum 1)]))
  else None.

(** The call of [handleBuy]. *)
Definition buy : tool_call := mkCall "submit_order" (VObj []).

(** The [message] that [handleBuy] leaves when the call resolves with
    [result]: it was set to the empty string before the call. *)
Definition handleBuy (result : value) : string :=
  if truthy (prop (prop result "structuredContent") "success")
  then "Order placed successfully!"
  else if strict_eq (prop (prop result "structuredContent") "error")
                    (VStr "authentication_required")
       then "Please login to complete your order"
       else "".

End Basket.

(* ===================================================================== *)
(** ** More vocabulary: results, request counts, the cache file *)
(* ===================================================================== *)

(** The entry of the tool registry with the given name, [undefined] when
    there is none. *)
Definition registered (name : string) : value :=
  match find (fun t => strict_eq (prop t "name") (VStr name)) Registry.tools with
  | Some t => t
  | None => VUndef
  end.

(** The UI-surface directive of a result or of a registry entry:
    [r._meta?.["openai/outputTemplate"]]. *)
Definition template (r : value) : value :=
  prop (prop r "_meta") "openai/outputTemplate".

(** No directive, or one of the given URIs. *)
Definition template_among (uris : list string) (r : value) : bool :=
  match template r with
  | VUndef => true
  | VStr u => existsb (String.eqb u) uris
  | _ => false
  end.

(** [yields Q m]: whatever [m] returns satisfies [Q]. *)
Definition yields {A} (Q : A -> Prop) (m : M A) : Prop :=
  forall w a, fst (m w) = Returns a -> Q a.

(** [sends_at_most n m]: [m] sends at most [n] requests, however it ends. *)
Definition sends_at_most (n : nat) {A} (m : M A) : Prop :=
  forall w, exists l, requests (snd (m w)) = (requests w ++ l)%list
                      /\ (List.length l <= n)%nat.

(** Two worlds with the same state and the same requests: they differ at
    most in the cache file and in whether it can be written. *)
Definition same_store (w w' : world) : Prop :=
  state w = state w' /\ requests w = requests w'.

(** [oblivious m]: run in two such worlds, [m] ends the same way and leaves
    two such worlds. *)
Definition oblivious {A} (m : M A) : Prop :=
  forall w w', same_store w w' ->
               fst (m w) = fst (m w') /\ same_store (snd (m w)) (snd (m w')).

(** What became of the cache file since [w0]: it and the state are as they
    were, or it holds the snapshot of the state (when it can be written),
    or it is as it was (when it cannot). *)
Definition kept (w0 w : world) : Prop :=
  writable w = writable w0
  /\ ((state w = state w0 /\ cache_file w = cache_file w0)
      \/ (if writable w0 then cache_file w = Holds (Json (snapshot (state w)))
          else cache_file w = cache_file w0)).

(** A backend that loses the session at the first basket read and has
    recovered at the next request. *)
Definition lapsing (hist : list request) (r : request) : reply :=
  if (action r =? "getBasket") && negb (Scenario.sent "getBasket" hist)
  then Scenario.expired
  else Scenario.shop hist r.

(** The markup of the three widgets in the runs. *)
Definition pages : Registry.assets :=
  Registry.mkAssets "<div id=menu-carousel-root>" "<div id=login-root>"
                    "<div id=basket-root>".

(** The cache after a search, given how the search ended: the items of the
    result when it returns, what the cache was when it throws. *)
Definition cache_after_search (w : world) (x : outcome value * world) : Prop :=
  match x with
  | (Returns r, w') =>
      prop r "isError" = VUndef
      /\ searchResults (state w') = prop (prop r "structuredContent") "items"
  | (Throws _, w') => searchResults (state w') = searchResults (state w)
  end.

(** The backend actions a tool may ask for, the session request apart. *)
Definition actions_of (name : string) : list string :=
  if name =? "search_menu" then ["searchMenu"]
  else if name =? "add_to_basket" then ["updateBasket"; "getBasket"]
  else if name =? "view_basket" then ["getBasket"]
  else if name =? "remove_from_basket" then ["updateBasket"; "getBasket"]
  else if name =? "clear_basket" then ["clearBasket"]
  else if name =? "submit_order" then ["submitOrder"]
  else if name =? "send_otp" then ["sendOTP"]
  else if name =? "verify_otp" then ["verifyOTP"]
  else [].

(** [may_send name a]: [a] is the session request or an action of the tool. *)
Definition may_send (name : string) (a : string) : bool :=
  (a =? "createSession") || existsb (String.eqb a) (actions_of name).

(** A result as the host reads it: one block of text. *)
Definition one_text_block (r : value) : Prop :=
  exists t, prop r "content" = VArr [VObj [("type", VStr "text"); ("text", t)]].

(** The directive of a result of the tool [name] agrees with the registry:
    there is none, or it is the one the registry gives for the tool, or it is
    the login widget of the prompt of [submit_order]. *)
Definition template_agrees (name : string) (r : value) : Prop :=
  template r = VUndef
  \/ template r = template (registered name)
  \/ (name = "submit_order" /\ template r = VStr LOGIN_WIDGET_URI).

(** The URIs of the listed resources. *)
Definition listed_uris : list value :=
  map (fun r => prop r "uri") Registry.resources.

(** A field of the state as a restart restores it from the snapshot: what
    [JSON.stringify] kept of it, or the default [d] where it kept nothing. *)
Definition restored_field (x d : value) : value :=
  match x with VUndef => d | _ => jsonify x end.

(** The cache file is in step with the state: a restart now restores what a
    restart after a save would. *)
Definition in_step (w : world) : Prop :=
  load (cache_file w) = load (Holds (Json (snapshot (state w)))).

(** A string of decimal digits. *)
Fixpoint all_digits (s : string) : bool :=
  match s with
  | EmptyString => true
  | String c r => Login.is_digit c && all_digits r
  end.

(** The schema that the [switch] of [executeToolInternal] parses the
    arguments of a tool with; [view_basket] and [clear_basket] parse none. *)
Definition schema_of (name : string) : option zobject :=
  if name =? "search_menu" then Some searchMenuSchema
  else if name =? "add_to_basket" then Some addToBasketSchema
  else if name =? "remove_from_basket" then Some removeFromBasketSchema
  else if name =? "submit_order" then Some submitOrderSchema
  else if name =? "send_otp" then Some sendOtpSchema
  else if name =? "verify_otp" then Some verifyOtpSchema
  else None.

(** The tool calls that the three widgets make. *)
Inductive widget_call : tool_call -> Prop :=
| login_send : forall host phoneNumber c,
    Login.handleSendOtp host phoneNumber = Some c -> widget_call c
| login_verify : forall host phoneNumber raw c,
    snd (Login.otp_change host phoneNumber raw) = Some c -> widget_call c
| login_order : widget_call Login.order
| menu_add : forall host menuItemId finalOptions c,
    Menu.submitOrder host menuItemId finalOptions = Some c -> widget_call c
| basket_remove : forall host menuItemId c,
    Basket.handleRemoveItem host menuItemId = Some c -> widget_call c
| basket_buy : widget_call Basket.buy.

(** The JSON type name of what a zod type accepts. *)
Fixpoint json_type (t : ztype) : string :=
  match t with
  | ZString => "string"
  | ZNumber => "number"
  | ZArray _ => "array"
  | ZOptional t' => json_type t'
  end.

Definition optional (t : ztype) : bool :=
  match t with ZOptional _ => true | _ => false end.

Fixpoint same_names (a b : list string) : bool :=
  match a, b with
  | [], [] => true
  | x :: a', y :: b' => (x =? y) && same_names a' b'
  | _, _ => false
  end.

(** The input schema that a registry entry advertises agrees with a zod
    schema: the same argument names in the same order, each with the JSON
    type of its zod type, and [required] lists the arguments that are not
    optional (no [required] lists none). *)
Definition advertises (tool : value) (sch : zobject) : bool :=
  let input := prop tool "inputSchema" in
  let properties := match prop input "properties" with VObj fs => fs | _ => [] end in
  let required := match prop input "required" with VArr l => map ToString l | _ => [] end in
  same_names (map fst properties) (map fst sch)
  && forallb (fun kt => strict_eq (prop (lookup (fst kt) properties) "type")
                                  (VStr (json_type (snd kt)))) sch
  && same_names required (map fst (filter (fun kt => negb (optional (snd kt))) sch)).

(** The backend reports no success to any order: every 2xx JSON answer to a
    [submitOrder] request has a falsy [success]. *)
Definition refuses_orders (E : env) : Prop :=
  forall hist q r result,
    action q = "submitOrder" -> backend E hist q = Responds r ->
    Flipdish.ok r = true -> json r = Json result ->
    truthy (prop result "success") = false.

(** Values whose numbers JavaScript prints as the decimal digits of the
    integer: the safe integers, up to 2^53 - 1 in magnitude.  (A larger number
    is printed with the shortest digits that identify the double, and from
    10^21 on in exponent notation.)  An array prints its elements; any other
    value prints no number. *)
Fixpoint safe (v : value) : bool :=
  match v with
  | VNum n => (Z.abs n <=? 9007199254740991)%Z
  | VArr l =>
      (fix all (l : list value) : bool :=
         match l with [] => true | x :: r => safe x && all r end) l
  | _ => true
  end.

(** The validation error of [add_to_basket], told by what it is and how its
    message starts. *)
Definition validation_error (e : exn) : bool :=
  (exn_name e =? "Error") && prefix "Invalid menuItemId. Valid IDs: " (message e).

(** The state that a start over the snapshot of [s] restores. *)
Definition restored (s : SessionState) : SessionState :=
  mkState (restored_field (chatId s) VNull) (restored_field (authToken s) VNull)
          (restored_field (phoneNumber s) VNull)
          (restored_field (searchResults s) (VArr [])).

(** A backend that answers every request, the one for a session too, with
    [{ success: true }]. *)
Definition agreeable (hist : list request) (r : request) : reply :=
  Scenario.ok_json (VObj [("success", VBool true)]).

(** A backend that answers the first session request with 400 "Call
    context not found" and is in good health afterwards. *)
Definition hesitant (hist : list request) (r : request) : reply :=
  if (action r =? "createSession") && negb (Scenario.sent "createSession" hist)
  then Scenario.expired
  else Scenario.shop hist r.

(** A backend that answers the first order with [success: false] and the
    error "Call context not found", and is in good health otherwise. *)
Definition wavering (hist : list request) (r : request) : reply :=
  if (action r =? "submitOrder") && negb (Scenario.sent "submitOrder" hist)
  then Scenario.ok_json (VObj [("success", VBool false);
                               ("error", VStr "Call context not found")])
  else Scenario.shop hist r.

(** A backend whose menu has a hole: the search answers [[null, item 1]]. *)
Definition holey (hist : list request) (r : request) : reply :=
  if action r =? "searchMenu" then
    Scenario.ok_json (VArr [VNull; Scenario.item 1 "Margherita"])
  else Scenario.shop hist r.

(** The ids that a card or the basket sends are numbers.  [add_to_basket]
    and [remove_from_basket] are called with the [menuItemId], and the option
    ids, of backend data; the calls of the other tools carry no id. *)
Definition ids_are_numbers (c : tool_call) : bool :=
  if (call_name c =? "add_to_basket") || (call_name c =? "remove_from_basket") then
    numeric (prop (call_args c) "menuItemId")
    && match prop (call_args c) "menuItemOptionSetItems" with
       | VArr l => forallb numeric l
       | _ => true
       end
  else true.

(** A run started in [w2] that is [ensureSession] and then the outcome [o],
    as the end [x] of a call: [o] in the world [ensureSession] leaves when it
    returns, and the error of [ensureSession] when it throws. *)
Definition ends_after_session (E : env) (o : outcome value) (w2 : world)
    (x : outcome value * world) : Prop :=
  (forall chat w3, ensureSession E w2 = (Returns chat, w3) -> x = (o, w3))
  /\ (forall e2 w3, ensureSession E w2 = (Throws e2, w3) -> x = (Throws e2, w3)).

(** The end [x] of a call started in [w] whose runs are [ensureSession] and
    then the outcome [o], case by case.  A first run that ends with a result,
    or with an error whose message has no session-expiry marker, is the end
    of the call.  A first run that ends with an error that has the marker (of
    [ensureSession], or [o] itself) is followed by the one re-run, started
    with the session id cleared, and the call ends as the re-run does. *)
Definition call_after_session (E : env) (o : outcome value) (w : world)
    (x : outcome value * world) : Prop :=
  (forall chat w1, ensureSession E w = (Returns chat, w1) ->
     match o with
     | Returns r => x = (Returns r, w1)
     | Throws e =>
         if str_includes (message e) SESSION_MARKER
         then ends_after_session E o (snd (setChatId (VStr "") w1)) x
         else x = (Throws e, w1)
     end)
  /\ (forall e w1, ensureSession E w = (Throws e, w1) ->
        if str_includes (message e) SESSION_MARKER
        then ends_after_session E o (snd (setChatId (VStr "") w1)) x
        else x = (Throws e, w1)).

(* ===================================================================== *)
(** ** Basic facts about values and the monad *)
(* ===================================================================== *)

Section ValueInduction.
Variable P : value -> Prop.
Hypothesis HUndef : P VUndef.
Hypothesis HNull : P VNull.
Hypothesis HBool : forall b, P (VBool b).
Hypothesis HNum : forall n, P (VNum n).
Hypothesis HStr : forall s, P (VStr s).
Hypothesis HArr : forall l, Forall P l -> P (VArr l).
Hypothesis HObj : forall fs, Forall (fun kv => P (snd kv)) fs -> P (VObj fs).

Fixpoint value_nested_ind (v : value) : P v :=
  match v with
  | VUndef => HUndef
  | VNull => HNull
  | VBool b => HBool b
  | VNum n => HNum n
  | VStr s => HStr s
  | VArr l =>
      HArr l ((fix go (l : list value) : Forall P l :=
                 match l with
                 | [] => Forall_nil P
                 | x :: r => Forall_cons x (value_nested_ind x) (go r)
                 end) l)
  | VObj fs =>
      HObj fs ((fix go (fs : list (string * value)) : Forall (fun kv => P (snd kv)) fs :=
                  match fs with
                  | [] => Forall_nil _
                  | kv :: r => Forall_cons kv (value_nested_ind (snd kv)) (go r)
                  end) fs)
  end.
End ValueInduction.

(** Serialising and reading back JSON data gives the same data. *)
Lemma jsonify_json (v : value) : is_json v = true -> jsonify v = v.
Proof.
  induction v using value_nested_ind; simpl; intros Hj; try reflexivity.
  - f_equal. induction H as [| x r Hx _ IH]; [reflexivity |].
    apply andb_true_iff in Hj. destruct Hj as [Hjx Hjr].
    rewrite (IH Hjr). rewrite (Hx Hjx). destruct x; try reflexivity. discriminate.
  - f_equal. induction H as [| [k x] r Hx _ IH]; [reflexivity |].
    apply andb_true_iff in Hj. destruct Hj as [Hjx Hjr]. simpl in Hx.
    rewrite (IH Hjr). rewrite (Hx Hjx). destruct x; try reflexivity. discriminate.
Qed.

Lemma truthy_not_nullish (v : value) : truthy v = true -> nullish v = false.
Proof. destruct v; simpl; intros H; try reflexivity; discriminate. Qed.

(** A string that contains the marker is not empty. *)
Lemma session_expired_includes (e : exn) :
  session_expired e = str_includes (message e) SESSION_MARKER.
Proof.
  unfold session_expired. destruct (message e) as [| c m]; reflexivity.
Qed.

Lemma bind_returns {A B} (m : M A) (k : A -> M B) (w w' : world) (a : A) :
  m w = (Returns a, w') -> bind m k w = k a w'.
Proof. intros H. unfold bind. rewrite H. reflexivity. Qed.

Lemma bind_throws {A B} (m : M A) (k : A -> M B) (w w' : world) (e : exn) :
  m w = (Throws e, w') -> bind m k w = (Throws e, w').
Proof. intros H. unfold bind. rewrite H. reflexivity. Qed.

Lemma bind_assoc {A B C} (m : M A) (k : A -> M B) (h : B -> M C) (w : world) :
  bind (bind m k) h w = bind m (fun a => bind (k a) h) w.
Proof. unfold bind. destruct (m w) as [[a | e] w']; reflexivity. Qed.

(* ===================================================================== *)
(** ** The call handler: errors become results (C5) *)
(* ===================================================================== *)

(** C5.  Whatever tool execution throws (a validation error of zod, an error
    of the backend, the unknown-tool error, a TypeError on backend data), the
    call handler catches it and returns a result with [isError] set whose text
    carries the error's message; a result of the executor is passed on; the
    handler itself always returns. *)
Theorem callTool_never_throws (E : env) (name : string) (arguments : value) (w : world) :
  let args := if nullish arguments then VObj [] else arguments in
  (exists r, fst (callTool E name arguments w) = Returns r)
  /\ snd (callTool E name arguments w) = snd (executeTool E name args w)
  /\ (forall r, fst (executeTool E name args w) = Returns r ->
        fst (callTool E name arguments w) = Returns r)
  /\ (forall e, fst (executeTool E name args w) = Throws e ->
        fst (callTool E name arguments w) = Returns (error_result e)
        /\ prop (error_result e) "isError" = VBool true
        /\ prop (error_result e) "content"
           = VArr [VObj [("type", VStr "text"); ("text", VStr ("Error: " ++ message e))]]).
Proof.
  intros args. unfold callTool, try_catch. fold args.
  destruct (executeTool E name args w) as [[r | e] w']; simpl.
  - split; [eauto |]. split; [reflexivity |]. split.
    + intros r' Hr. exact Hr.
    + intros e He. discriminate He.
  - split; [eauto |]. split; [reflexivity |]. split.
    + intros r Hr. discriminate Hr.
    + intros e' He. injection He as <-. repeat split.
Qed.

(** An unknown tool, asked of a healthy backend, comes back as an error
    result. *)
Lemma callTool_never_throws_witness :
  fst (callTool (Scenario.env_of Scenario.shop) "order_pizza" VUndef Scenario.fresh)
  = Returns (error_result (Error "Unknown tool: order_pizza")).
Proof.
  apply (callTool_never_throws (Scenario.env_of Scenario.shop) "order_pizza" VUndef
                               Scenario.fresh).
  reflexivity.
Defined.

(* ===================================================================== *)
(** ** The durable snapshot (C6) *)
(* ===================================================================== *)

Lemma json_props_cons (k : string) (x : value) (r : list (string * value)) :
  is_json x = true -> json_props ((k, x) :: r) = (k, x) :: json_props r.
Proof.
  intros H. pose proof (jsonify_json x H) as Hx.
  destruct x; try discriminate H; cbn [json_props]; rewrite Hx; reflexivity.
Qed.

Lemma load_snapshot (s : SessionState) :
  json_state s = true -> startup (Holds (Json (snapshot s))) = Returns s.
Proof.
  destruct s as [c t p r]. unfold json_state. simpl.
  intros H. repeat (apply andb_true_iff in H; destruct H as [H ?]).
  unfold snapshot. change (jsonify (VObj ?fs)) with (VObj (json_props fs)).
  cbn [chatId authToken phoneNumber searchResults].
  rewrite !json_props_cons by assumption. reflexivity.
Qed.

Lemma jsonify_obj (fs : list (string * value)) : jsonify (VObj fs) = VObj (json_props fs).
Proof. reflexivity. Qed.

Lemma lookup_json_props_cons (k k' : string) (x : value) (r : list (string * value)) :
  lookup_opt k (json_props ((k', x) :: r))
  = if k =? k'
    then match x with
         | VUndef => lookup_opt k (json_props r)
         | _ => Some (jsonify x)
         end
    else lookup_opt k (json_props r).
Proof. destruct x; simpl; destruct (k =? k'); reflexivity. Qed.

Lemma restored_json (x d : value) : is_json x = true -> restored_field x d = x.
Proof.
  intros H. unfold restored_field. rewrite (jsonify_json x H).
  destruct x; try reflexivity. discriminate.
Qed.

(** What a start over the snapshot of [s] gives, field by field. *)
Lemma load_snapshot_fields (s : SessionState) :
  load (Holds (Json (snapshot s)))
  = mkState (restored_field (chatId s) VNull) (restored_field (authToken s) VNull)
            (restored_field (phoneNumber s) VNull)
            (restored_field (searchResults s) (VArr [])).
Proof.
  unfold load, startup, load_cache, merge, snapshot. rewrite jsonify_obj.
  unfold spread_field. cbn [chatId authToken phoneNumber searchResults default_state].
  repeat rewrite lookup_json_props_cons. simpl.
  f_equal.
  - destruct (chatId s); reflexivity.
  - destruct (authToken s); reflexivity.
  - destruct (phoneNumber s); reflexivity.
  - destruct (searchResults s); reflexivity.
Qed.

Lemma startup_snapshot (s : SessionState) :
  startup (Holds (Json (snapshot s))) = Returns (restored s).
Proof.
  pose proof (load_snapshot_fields s) as H. unfold load in H.
  destruct (startup (Holds (Json (snapshot s)))) as [s' | e] eqn:Hs.
  - rewrite H. reflexivity.
  - unfold startup in Hs. destruct (load_cache _ _); discriminate Hs.
Qed.

(** C6, as amended.  Writing the snapshot of a state and starting over the
    written file restores, field by field, what [JSON.stringify] kept: a
    field that holds JSON data (a string, [null], an array of items) comes
    back as it was, so a state of such fields comes back identical; a field
    that is [undefined] is not written and comes back as its default ([null],
    and [[]] for the search cache); [undefined] inside a field comes back as
    [JSON.stringify] writes it.  Over a file that is absent, unreadable or not
    parsable as JSON, the start gives the empty default state.  A file that
    parses is merged over the defaults as it is: a content that is no object
    leaves the defaults, and of an object the four session keys are taken
    unchecked.  The start never throws. *)
Theorem snapshot_round_trip :
  (forall w, writable w = true -> json_state (state w) = true ->
     startup (cache_file (snd (saveState w))) = Returns (state w))
  /\ (forall w, writable w = true ->
        startup (cache_file (snd (saveState w))) = Returns (restored (state w)))
  /\ (forall x d, is_json x = true -> restored_field x d = x)
  /\ (forall d, restored_field VUndef d = d)
  /\ startup Absent = Returns default_state
  /\ (forall e, startup (Holds (Malformed e)) = Returns default_state)
  /\ (forall e, startup (Unreadable e) = Returns default_state)
  /\ (forall v, startup (Holds (Json v)) = Returns (merge default_state v))
  /\ (forall v, (forall fs, v <> VObj fs) ->
        startup (Holds (Json v)) = Returns default_state)
  /\ (forall f, exists s, startup f = Returns s).
Proof.
  split.
  { intros w Hw Ht. unfold saveState. simpl. rewrite Hw. simpl.
    apply load_snapshot. assumption. }
  split.
  { intros w Hw. unfold saveState. simpl. rewrite Hw. simpl.
    pose proof (load_snapshot_fields (state w)) as H. unfold load in H.
    destruct (startup (Holds (Json (snapshot (state w))))) as [s | e] eqn:Hs.
    - rewrite H. reflexivity.
    - unfold startup in Hs. destruct (load_cache _ _); discriminate Hs. }
  split; [intros x d; apply restored_json |].
  split; [intros d; reflexivity |].
  split; [reflexivity |].
  split; [intros e; reflexivity |].
  split; [intros e; reflexivity |].
  split; [intros v; reflexivity |].
  split.
  { intros v Hv. destruct v; try reflexivity. contradiction (Hv fields eq_refl). }
  intros f. unfold startup. destruct (load_cache f default_state); eauto.
Qed.

Lemma snapshot_round_trip_witness :
  startup (cache_file (snd (saveState (mkWorld Scenario.ordering Absent true []))))
  = Returns Scenario.ordering.
Proof.
  apply (proj1 snapshot_round_trip (mkWorld Scenario.ordering Absent true []));
    reflexivity.
Defined.

(** C6 as stated fails, twice.  A session state need not hold JSON data: a
    run whose session reply has no [chatId] leaves the session id
    [undefined], the snapshot of that state has no [chatId], and the start
    over it gives [null], another state.  And a file that parses but has
    another shape is not replaced by the defaults: over
    [{ "searchResults": null }] the start gives a search cache of [null]. *)
Lemma snapshot_round_trip_counterexample :
  let w := snd (executeToolInternal (Scenario.env_of agreeable) "view_basket" (VObj [])
                  Scenario.fresh) in
  writable w = true
  /\ chatId (state w) = VUndef
  /\ startup (cache_file (snd (saveState w)))
     = Returns (mkState VNull VNull VNull (VArr []))
  /\ startup (cache_file (snd (saveState w))) <> Returns (state w)
  /\ startup (Holds (Json (VObj [("searchResults", VNull)])))
     = Returns (mkState VNull VNull VNull VNull)
  /\ startup (Holds (Json (VObj [("searchResults", VNull)]))) <> Returns default_state.
Proof.
  cbv zeta. split; [reflexivity |]. split; [reflexivity |]. split; [reflexivity |].
  split; [intros H; discriminate H |]. split; [reflexivity |].
  intros H. discriminate H.
Qed.

(* ===================================================================== *)
(** ** The gateway's menu search: both wire shapes (C8) *)
(* ===================================================================== *)

(** C8.  When the backend answers a menu search with a 2xx JSON body,
    [searchMenu] returns (it does not throw) in both wire shapes and gives the
    same sequence for both: a bare array is returned as it is, an object whose
    [items] holds the array gives that array, and an object with no [items]
    gives the empty array. *)
Theorem searchMenu_normalises (E : env) (chat query token : value) (w : world)
    (r : response) :
  let req := Flipdish.request_of E "searchMenu" [chat; query] token in
  backend E (requests w) req = Responds r ->
  Flipdish.ok r = true ->
  (forall items, json r = Json (VArr items) ->
     Flipdish.searchMenu E chat query token w = (Returns (VArr items), add_request req w))
  /\ (forall fs items, json r = Json (VObj fs) -> lookup "items" fs = VArr items ->
        Flipdish.searchMenu E chat query token w = (Returns (VArr items), add_request req w))
  /\ (forall fs, json r = Json (VObj fs) -> lookup_opt "items" fs = None ->
        Flipdish.searchMenu E chat query token w = (Returns (VArr []), add_request req w)).
Proof.
  intros req Hb Hok.
  assert (Hcall : forall v, json r = Json v ->
            Flipdish.callApi E "searchMenu" [chat; query] token w
            = (Returns v, add_request req w)).
  { intros v Hv. unfold Flipdish.callApi. fold req. rewrite Hb. simpl.
    rewrite Hok, Hv. reflexivity. }
  unfold Flipdish.searchMenu. repeat split.
  - intros items Hj. rewrite (bind_returns _ _ _ _ _ (Hcall _ Hj)). reflexivity.
  - intros fs items Hj Hi. rewrite (bind_returns _ _ _ _ _ (Hcall _ Hj)).
    unfold read, bind, ret, prop. rewrite Hi. reflexivity.
  - intros fs Hj Hi. rewrite (bind_returns _ _ _ _ _ (Hcall _ Hj)).
    unfold read, bind, ret, prop, lookup. rewrite Hi. reflexivity.
Qed.

(** The bare and the wrapped shape of one menu, read by [searchMenu]. *)
Lemma searchMenu_normalises_witness :
  fst (Flipdish.searchMenu (Scenario.env_of Scenario.shop)
         (VStr "chat-1") (VStr "pizza") VUndef Scenario.fresh)
  = Returns (VArr [Scenario.item 1 "Margherita"; Scenario.item 2 "Funghi";
                   Scenario.item 3 "Diavola"])
  /\ fst (Flipdish.searchMenu (Scenario.env_of Scenario.wrapped)
            (VStr "chat-1") (VStr "pizza") VUndef Scenario.fresh)
     = Returns (VArr [Scenario.item 1 "Margherita"; Scenario.item 2 "Funghi"]).
Proof.
  split.
  - rewrite (proj1 (searchMenu_normalises (Scenario.env_of Scenario.shop)
                      (VStr "chat-1") (VStr "pizza") VUndef Scenario.fresh
                      _ eq_refl eq_refl) _ eq_refl).
    reflexivity.
  - rewrite (proj1 (proj2 (searchMenu_normalises (Scenario.env_of Scenario.wrapped)
                      (VStr "chat-1") (VStr "pizza") VUndef Scenario.fresh
                      _ eq_refl eq_refl)) _ _ eq_refl eq_refl).
    reflexivity.
Defined.

(* ===================================================================== *)
(** ** Frame rules: what a computation leaves true of the world *)
(* ===================================================================== *)

Lemma preserves_ret {A} (P : world -> Prop) (a : A) : preserves P (ret a).
Proof. intros w H. exact H. Qed.

Lemma preserves_throw {A} (P : world -> Prop) (e : exn) : preserves P (@throw A e).
Proof. intros w H. exact H. Qed.

Lemma preserves_bind {A B} (P : world -> Prop) (m : M A) (k : A -> M B) :
  preserves P m -> (forall a, preserves P (k a)) -> preserves P (bind m k).
Proof.
  intros Hm Hk w H. unfold bind. specialize (Hm w H).
  destruct (m w) as [[a | e] w']; simpl in *; [apply Hk; assumption | assumption].
Qed.

Lemma preserves_bind_ret {A B} (P : world -> Prop) (a : A) (k : A -> M B) :
  preserves P (k a) -> preserves P (bind (ret a) k).
Proof. intros H w Hw. exact (H w Hw). Qed.

Lemma preserves_try_catch {A} (P : world -> Prop) (m : M A) (h : exn -> M A) :
  preserves P m -> (forall e, preserves P (h e)) -> preserves P (try_catch m h).
Proof.
  intros Hm Hh w H. unfold try_catch. specialize (Hm w H).
  destruct (m w) as [[a | e] w']; simpl in *; [assumption | apply Hh; assumption].
Qed.

Lemma preserves_read (P : world -> Prop) (o : value) (k : string) :
  preserves P (read o k).
Proof. intros w H. destruct o; exact H. Qed.

Lemma preserves_parse (E : env) (P : world -> Prop) (sch : zobject) (args : value) :
  preserves P (parse E sch args).
Proof. intros w H. unfold parse. destruct (safeParse sch args); exact H. Qed.

Lemma preserves_map_read (P : world -> Prop) (k : string) (l : list value) :
  preserves P (map_read k l).
Proof.
  induction l as [| x r IH]; simpl.
  - apply preserves_ret.
  - apply preserves_bind; [apply preserves_read | intros v].
    apply preserves_bind; [exact IH | intros vs; apply preserves_ret].
Qed.

Lemma preserves_find_item (P : world -> Prop) (id : value) (l : list value) :
  preserves P (find_item id l).
Proof.
  induction l as [| x r IH]; simpl.
  - apply preserves_ret.
  - apply preserves_bind; [apply preserves_read | intros v].
    destruct (strict_eq v id); [apply preserves_ret | exact IH].
Qed.

Lemma preserves_getChatId (P : world -> Prop) : preserves P getChatId.
Proof. intros w H. exact H. Qed.

Lemma preserves_getAuthToken (P : world -> Prop) : preserves P getAuthToken.
Proof. intros w H. exact H. Qed.

Lemma preserves_getSearchResults (P : world -> Prop) : preserves P getSearchResults.
Proof. intros w H. exact H. Qed.

Create HintDb frame.
#[export] Hint Resolve preserves_ret preserves_throw preserves_read preserves_parse
  preserves_map_read preserves_find_item preserves_getChatId preserves_getAuthToken
  preserves_getSearchResults : frame.

(** One step of a frame proof: split a sequence, or a test on a value. *)
Ltac frame_step :=
  match goal with
  | |- preserves _ (let _ := _ in _) => cbv zeta
  | |- preserves _ (bind _ _) => apply preserves_bind; [| intro]
  | |- preserves _ (if ?b then _ else _) => destruct b
  | |- preserves _ (match ?x with _ => _ end) => destruct x
  | |- preserves _ _ => solve [auto with frame]
  end.
Ltac frame := repeat frame_step.

Section Frame.
Variable E : env.
Variable P : world -> Prop.

(** The actions of the requests that [P] tolerates. *)
Variable allowed : string -> bool.
Hypothesis P_request :
  forall q w, allowed (action q) = true -> P w -> P (add_request q w).
Hypothesis P_chat : forall c, preserves P (setChatId c).
Hypothesis P_search : forall v, preserves P (setSearchResults v).

Lemma callApi_frame (act : string) (arguments : list value) (auth : value) :
  allowed act = true -> preserves P (Flipdish.callApi E act arguments auth).
Proof. intros Ha w H. unfold Flipdish.callApi. simpl. apply P_request; assumption. Qed.

#[local] Hint Resolve callApi_frame P_chat P_search : frame.

Lemma ensureSession_frame :
  allowed "createSession" = true -> preserves P (ensureSession E).
Proof. intros Ha. unfold ensureSession, Flipdish.createSession. frame. Qed.

Lemma search_menu_frame (chat token args : value) :
  allowed "searchMenu" = true -> preserves P (search_menu E chat token args).
Proof. intros Ha. unfold search_menu, Flipdish.searchMenu. frame. Qed.

Lemma validate_against_search_frame (id : value) :
  preserves P (validate_against_search E id).
Proof. unfold validate_against_search. frame. Qed.

#[local] Hint Resolve validate_against_search_frame : frame.

Lemma add_to_basket_frame (chat token args : value) :
  allowed "updateBasket" = true -> allowed "getBasket" = true ->
  preserves P (add_to_basket E chat token args).
Proof.
  intros Hu Hg. unfold add_to_basket, Flipdish.updateBasket, Flipdish.getBasket. frame.
Qed.

Lemma view_basket_frame (chat token : value) :
  allowed "getBasket" = true -> preserves P (view_basket E chat token).
Proof. intros Hg. unfold view_basket, Flipdish.getBasket. frame. Qed.

Lemma remove_from_basket_frame (chat token args : value) :
  allowed "updateBasket" = true -> allowed "getBasket" = true ->
  preserves P (remove_from_basket E chat token args).
Proof.
  intros Hu Hg. unfold remove_from_basket, Flipdish.updateBasket, Flipdish.getBasket.
  frame.
Qed.

Lemma clear_basket_frame (chat token : value) :
  allowed "clearBasket" = true -> preserves P (clear_basket E chat token).
Proof. intros Hc. unfold clear_basket, Flipdish.clearBasket. frame. Qed.

Lemma submit_order_frame (chat token args : value) :
  allowed "submitOrder" = true -> preserves P (submit_order E chat token args).
Proof. intros Hs. unfold submit_order, Flipdish.submitOrder. frame. Qed.

Lemma send_otp_frame (args : value) :
  allowed "sendOTP" = true -> preserves P (send_otp E args).
Proof. intros Hs. unfold send_otp, Flipdish.sendOTP. frame. Qed.

(** The retry wrapper adds one [setChatId] and one more run. *)
Lemma executeTool_frame (name : string) (args : value) :
  preserves P (executeToolInternal E name args) ->
  preserves P (executeTool E name args).
Proof.
  intros Hi. unfold executeTool. apply preserves_try_catch; [exact Hi | intros e].
  frame.
Qed.

Lemma callTool_frame (name : string) (arguments : value) :
  (forall args, preserves P (executeToolInternal E name args)) ->
  preserves P (callTool E name arguments).
Proof.
  intros Hi. unfold callTool. apply preserves_try_catch.
  - apply executeTool_frame, Hi.
  - intros e. apply preserves_ret.
Qed.

End Frame.

(* ===================================================================== *)
(** ** The setters of the Session Store *)
(* ===================================================================== *)

Lemma setChatId_spec (c : value) (w : world) :
  setChatId c w
  = (Returns tt,
     let s := mkState c (authToken (state w)) (phoneNumber (state w))
                      (searchResults (state w)) in
     mkWorld s (saved (set_state s w)) (writable w) (requests w)).
Proof.
  unfold setChatId, bind, saveState, saved, set_cache_file, set_state. simpl.
  destruct (writable w); reflexivity.
Qed.

Lemma setSearchResults_spec (v : value) (w : world) :
  setSearchResults v w
  = (Returns tt,
     let s := mkState (chatId (state w)) (authToken (state w)) (phoneNumber (state w)) v in
     mkWorld s (saved (set_state s w)) (writable w) (requests w)).
Proof.
  unfold setSearchResults, bind, saveState, saved, set_cache_file, set_state. simpl.
  destruct (writable w); reflexivity.
Qed.

Lemma setAuthToken_spec (t p : value) (w : world) :
  setAuthToken t p w
  = (Returns tt,
     let s := mkState (chatId (state w)) t p (searchResults (state w)) in
     mkWorld s (saved (set_state s w)) (writable w) (requests w)).
Proof.
  unfold setAuthToken, bind, saveState, saved, set_cache_file, set_state. simpl.
  destruct (writable w); reflexivity.
Qed.

Lemma clearAuth_spec (w : world) :
  clearAuth w
  = (Returns tt,
     let s := mkState (chatId (state w)) VNull VNull (searchResults (state w)) in
     mkWorld s (saved (set_state s w)) (writable w) (requests w)).
Proof.
  unfold clearAuth, bind, saveState, saved, set_cache_file, set_state. simpl.
  destruct (writable w); reflexivity.
Qed.

(* ===================================================================== *)
(** ** Session-expiry recovery (C2) *)
(* ===================================================================== *)

(** The retry wrapper, by cases on the first run. *)
Lemma executeTool_unfold (E : env) (name : string) (args : value) (w : world) :
  executeTool E name args w
  = match executeToolInternal E name args w with
    | (Returns r, w1) => (Returns r, w1)
    | (Throws e, w1) =>
        if str_includes (message e) SESSION_MARKER
        then executeToolInternal E name args (snd (setChatId (VStr "") w1))
        else (Throws e, w1)
    end.
Proof.
  unfold executeTool, try_catch.
  destruct (executeToolInternal E name args w) as [[r | e] w1]; [reflexivity |].
  rewrite session_expired_includes.
  destruct (str_includes (message e) SESSION_MARKER); [| reflexivity].
  unfold bind at 1. rewrite setChatId_spec. reflexivity.
Qed.

Lemma read_world (o : value) (k : string) (w : world) : snd (read o k w) = w.
Proof. destruct o; reflexivity. Qed.

Lemma read_defined (o : value) (k : string) (w : world) :
  nullish o = false -> read o k w = (Returns (prop o k), w).
Proof. destruct o; simpl; intros H; try discriminate; reflexivity. Qed.

Lemma read_throws (o : value) (k : string) (w : world) :
  nullish o = true -> exists e, read o k w = (Throws e, w).
Proof. destruct o; simpl; intros H; try discriminate; eexists; reflexivity. Qed.

Lemma safeParse_phone (args p : value) :
  safeParse verifyOtpSchema args = inr p -> exists s, prop p "phoneNumber" = VStr s.
Proof.
  unfold safeParse, verifyOtpSchema. destruct args; try discriminate. simpl.
  destruct (lookup "phoneNumber" fields); destruct (lookup "code" fields);
    simpl; intros H; try discriminate; injection H as <-; eexists; reflexivity.
Qed.

(** Frame rules for the whole dispatch, for a [P] that tolerates every
    request, and a sign-in with a token and a phone number. *)
Section FrameAll.
Variable E : env.
Variable P : world -> Prop.
Hypothesis P_request : forall q w, P w -> P (add_request q w).
Hypothesis P_chat : forall c, preserves P (setChatId c).
Hypothesis P_search : forall v, preserves P (setSearchResults v).
Hypothesis P_auth :
  forall t p, truthy t = true -> (exists s, p = VStr s) -> preserves P (setAuthToken t p).

Lemma P_request_every :
  forall q w, (fun _ : string => true) (action q) = true -> P w -> P (add_request q w).
Proof. intros q w _. apply P_request. Qed.

Lemma verify_otp_frame (chat args : value) : preserves P (verify_otp E chat args).
Proof.
  unfold verify_otp, parse.
  destruct (safeParse verifyOtpSchema args) as [issues | p] eqn:Hp;
    [apply preserves_throw |].
  destruct (safeParse_phone _ _ Hp) as [s Hs].
  apply preserves_bind_ret. cbv zeta. rewrite Hs.
  apply preserves_bind; [| intros result].
  { apply (callApi_frame E P (fun _ => true) P_request_every). reflexivity. }
  apply preserves_bind; [apply preserves_read | intros success].
  destruct (negb (truthy success) || negb (truthy (prop result "token"))) eqn:Hc;
    [apply preserves_throw |].
  apply orb_false_iff in Hc. destruct Hc as [_ Ht]. apply negb_false_iff in Ht.
  apply preserves_bind; [| intros _; apply preserves_ret].
  apply P_auth; [exact Ht | eauto].
Qed.

Lemma dispatch_frame (name : string) (chat token args : value) :
  preserves P (dispatch E name chat token args).
Proof.
  unfold dispatch.
  repeat match goal with
         | |- preserves _ (if ?b then _ else _) => destruct b
         end.
  - apply (search_menu_frame E P (fun _ => true) P_request_every P_search); reflexivity.
  - apply (add_to_basket_frame E P (fun _ => true) P_request_every); reflexivity.
  - apply (view_basket_frame E P (fun _ => true) P_request_every); reflexivity.
  - apply (remove_from_basket_frame E P (fun _ => true) P_request_every); reflexivity.
  - apply (clear_basket_frame E P (fun _ => true) P_request_every); reflexivity.
  - apply (submit_order_frame E P (fun _ => true) P_request_every); reflexivity.
  - apply (send_otp_frame E P (fun _ => true) P_request_every); reflexivity.
  - apply verify_otp_frame.
  - apply preserves_throw.
Qed.

Lemma executeToolInternal_frame (name : string) (args : value) :
  preserves P (executeToolInternal E name args).
Proof.
  unfold executeToolInternal.
  apply preserves_bind; [| intros chat].
  { apply (ensureSession_frame E P (fun _ => true) P_request_every P_chat). reflexivity. }
  apply preserves_bind; [apply preserves_getAuthToken | intros token].
  apply dispatch_frame.
Qed.

Lemma executeTool_frame_all (name : string) (args : value) :
  preserves P (executeTool E name args).
Proof.
  apply (executeTool_frame E P P_chat). apply executeToolInternal_frame.
Qed.

Lemma callTool_frame_all (name : string) (arguments : value) :
  preserves P (callTool E name arguments).
Proof.
  apply (callTool_frame E P P_chat). intros args. apply executeToolInternal_frame.
Qed.

End FrameAll.

(* ===================================================================== *)
(** ** The requests a call sends *)
(* ===================================================================== *)

Lemma extends_refl (allowed : string -> bool) (w : world) :
  extends allowed (requests w) w.
Proof. exists []. split; [symmetry; apply app_nil_r | reflexivity]. Qed.

Lemma extends_request (allowed : string -> bool) (base : list request) :
  forall q w, allowed (action q) = true ->
              extends allowed base w -> extends allowed base (add_request q w).
Proof.
  intros q w Ha [l [Hl Hf]]. exists (l ++ [q])%list. split.
  - simpl. rewrite Hl. symmetry. apply app_assoc.
  - rewrite forallb_app, Hf. simpl. rewrite Ha. reflexivity.
Qed.

Lemma extends_setChatId (allowed : string -> bool) (base : list request) :
  forall c, preserves (extends allowed base) (setChatId c).
Proof. intros c w H. rewrite setChatId_spec. exact H. Qed.

Lemma extends_setSearchResults (allowed : string -> bool) (base : list request) :
  forall v, preserves (extends allowed base) (setSearchResults v).
Proof. intros v w H. rewrite setSearchResults_spec. exact H. Qed.

Lemma extends_setAuthToken (allowed : string -> bool) (base : list request) :
  forall t p, preserves (extends allowed base) (setAuthToken t p).
Proof. intros t p w H. rewrite setAuthToken_spec. exact H. Qed.

Lemma extends_trans (allowed : string -> bool) (b1 : list request) (w1 w2 : world) :
  extends allowed b1 w1 -> extends allowed (requests w1) w2 -> extends allowed b1 w2.
Proof.
  intros [l1 [H1 F1]] [l2 [H2 F2]]. exists (l1 ++ l2)%list. split.
  - rewrite H2, H1. symmetry. apply app_assoc.
  - rewrite forallb_app, F1, F2. reflexivity.
Qed.

Lemma setChatId_returns (c : value) (w : world) :
  setChatId c w = (Returns tt, snd (setChatId c w)).
Proof. rewrite setChatId_spec. reflexivity. Qed.

Lemma requests_setChatId (c : value) (w : world) :
  requests (snd (setChatId c w)) = requests w.
Proof. rewrite setChatId_spec. reflexivity. Qed.

Lemma createSession_spec (E : env) (w : world) :
  Flipdish.createSession E VUndef w
  = (Flipdish.settle (backend E (requests w) (guest_session_request E)),
     add_request (guest_session_request E) w).
Proof. reflexivity. Qed.

Lemma ensureSession_stored (E : env) (w : world) :
  truthy (chatId (state w)) = true ->
  ensureSession E w = (Returns (chatId (state w)), w).
Proof.
  intros Hc. unfold ensureSession, bind, getChatId. rewrite Hc. reflexivity.
Qed.

Lemma ensureSession_create (E : env) (w : world) :
  truthy (chatId (state w)) = false ->
  ensureSession E w
  = (result <- Flipdish.createSession E VUndef ;;
     chat <- read result "chatId" ;;
     setChatId chat ;;
     ret chat) w.
Proof.
  intros Hc. unfold ensureSession, bind at 1, getChatId. rewrite Hc. reflexivity.
Qed.

(** Every request of a dispatch comes after those already sent. *)
Lemma dispatch_extends (E : env) (name : string) (chat token args : value) (w : world) :
  exists l, requests (snd (dispatch E name chat token args w)) = (requests w ++ l)%list.
Proof.
  destruct (dispatch_frame E (extends (fun _ => true) (requests w))
              (fun q w' => extends_request _ _ q w' eq_refl)
              (extends_setSearchResults _ _)
              (fun t p _ _ => extends_setAuthToken _ _ t p)
              name chat token args w (extends_refl _ _)) as [l [Hl _]].
  exists l. exact Hl.
Qed.

(** With no session id stored, a run is: create a guest session, store its
    id, and dispatch with that id; its first request asks for the session. *)
Lemma executeToolInternal_creates (E : env) (name : string) (args : value) (w : world) :
  truthy (chatId (state w)) = false ->
  executeToolInternal E name args w
  = (result <- Flipdish.createSession E VUndef ;;
     chat <- read result "chatId" ;;
     setChatId chat ;;
     token <- getAuthToken ;;
     dispatch E name chat token args) w
  /\ exists l, requests (snd (executeToolInternal E name args w))
               = (requests w ++ guest_session_request E :: l)%list.
Proof.
  intros Hc. unfold executeToolInternal.
  pose proof (ensureSession_create E w Hc) as He.
  destruct (Flipdish.createSession E VUndef w) as [[result | e] w1] eqn:Hcs.
  - assert (Hw1 : requests w1 = (requests w ++ [guest_session_request E])%list).
    { rewrite createSession_spec in Hcs. injection Hcs as _ <-. reflexivity. }
    rewrite (bind_returns _ _ _ _ _ Hcs) in He.
    rewrite (bind_returns _ _ _ _ _ Hcs).
    pose proof (read_world result "chatId" w1) as Hrw.
    destruct (read result "chatId" w1) as [[chat | e] w2] eqn:Hr; simpl in Hrw; subst w2.
    + rewrite (bind_returns _ _ _ _ _ Hr) in He.
      rewrite (bind_returns _ _ _ _ _ Hr).
      rewrite (bind_returns _ _ _ _ _ (setChatId_returns chat w1)) in He.
      rewrite (bind_returns _ _ _ _ _ (setChatId_returns chat w1)).
      unfold ret in He. rewrite (bind_returns _ _ _ _ _ He).
      split; [reflexivity |].
      unfold bind, getAuthToken.
      destruct (dispatch_extends E name chat (authToken (state (snd (setChatId chat w1))))
                  args (snd (setChatId chat w1))) as [l Hl].
      rewrite Hl, requests_setChatId, Hw1, <- app_assoc. simpl. eauto.
    + rewrite (bind_throws _ _ _ _ _ Hr) in He.
      rewrite (bind_throws _ _ _ _ _ Hr).
      rewrite (bind_throws _ _ _ _ _ He).
      split; [reflexivity |]. simpl. exists []. exact Hw1.
  - rewrite (bind_throws _ _ _ _ _ Hcs) in He.
    rewrite (bind_throws _ _ _ _ _ Hcs).
    rewrite (bind_throws _ _ _ _ _ He).
    split; [reflexivity |]. simpl. exists [].
    rewrite createSession_spec in Hcs. injection Hcs as _ <-. reflexivity.
Qed.

(** C2.  A run of the dispatch that returns is the result.  A run that throws
    an error whose message does not contain "Call context not found" is
    rethrown as it is.  A run that throws an error whose message contains it
    clears the stored session id (and nothing else of the state) and runs the
    dispatch once more from [ensureSession]: that run first asks the backend
    for a guest session and dispatches with the id it gets, and whatever it
    returns or throws is the outcome of the call, also when it throws the
    marker again. *)
Theorem executeTool_retries_once (E : env) (name : string) (args : value) (w : world) :
  (forall r w1, executeToolInternal E name args w = (Returns r, w1) ->
     executeTool E name args w = (Returns r, w1))
  /\ (forall e w1, executeToolInternal E name args w = (Throws e, w1) ->
        str_includes (message e) SESSION_MARKER = false ->
        executeTool E name args w = (Throws e, w1))
  /\ (forall e w1, executeToolInternal E name args w = (Throws e, w1) ->
        str_includes (message e) SESSION_MARKER = true ->
        let w2 := snd (setChatId (VStr "") w1) in
        state w2 = mkState (VStr "") (authToken (state w1)) (phoneNumber (state w1))
                           (searchResults (state w1))
        /\ requests w2 = requests w1
        /\ executeTool E name args w = executeToolInternal E name args w2
        /\ executeToolInternal E name args w2
           = (result <- Flipdish.createSession E VUndef ;;
              chat <- read result "chatId" ;;
              setChatId chat ;;
              token <- getAuthToken ;;
              dispatch E name chat token args) w2
        /\ (exists l, requests (snd (executeTool E name args w))
                      = (requests w1 ++ guest_session_request E :: l)%list)
        /\ (forall e2 w3, executeToolInternal E name args w2 = (Throws e2, w3) ->
              executeTool E name args w = (Throws e2, w3))).
Proof.
  split; [| split].
  - intros r w1 H. rewrite executeTool_unfold, H. reflexivity.
  - intros e w1 H Hm. rewrite executeTool_unfold, H, Hm. reflexivity.
  - intros e w1 H Hm w2.
    assert (Hs : state w2 = mkState (VStr "") (authToken (state w1))
                                    (phoneNumber (state w1)) (searchResults (state w1))).
    { unfold w2. rewrite setChatId_spec. reflexivity. }
    assert (Hq : requests w2 = requests w1) by apply requests_setChatId.
    assert (Hx : executeTool E name args w = executeToolInternal E name args w2).
    { rewrite executeTool_unfold, H, Hm. reflexivity. }
    assert (Hc : truthy (chatId (state w2)) = false) by (rewrite Hs; reflexivity).
    destruct (executeToolInternal_creates E name args w2 Hc) as [Hrun [l Hl]].
    split; [exact Hs |]. split; [exact Hq |]. split; [exact Hx |].
    split; [exact Hrun |]. split.
    + exists l. rewrite Hx, Hl, Hq. reflexivity.
    + intros e2 w3 H2. rewrite Hx. exact H2.
Qed.

(** A stale session: the basket read fails with the marker, the session is
    renewed and the read succeeds under [chat-2].  A backend that knows no
    session: the retry fails with the marker again, and that is final. *)
Lemma executeTool_retries_once_witness :
  (fst (executeTool (Scenario.env_of Scenario.renewing) "view_basket" (VObj [])
          Scenario.fresh)
   = fst (executeToolInternal (Scenario.env_of Scenario.renewing) "view_basket" (VObj [])
            (snd (setChatId (VStr "")
                    (snd (executeToolInternal (Scenario.env_of Scenario.renewing)
                            "view_basket" (VObj []) Scenario.fresh)))))
   /\ chatId (state (snd (executeTool (Scenario.env_of Scenario.renewing) "view_basket"
                            (VObj []) Scenario.fresh))) = VStr "chat-2")
  /\ fst (executeTool (Scenario.env_of Scenario.forgetful) "view_basket" (VObj [])
            Scenario.fresh)
     = Throws (Error "API Error (400): Call context not found").
Proof.
  split.
  - destruct (proj2 (proj2 (executeTool_retries_once
                              (Scenario.env_of Scenario.renewing) "view_basket" (VObj [])
                              Scenario.fresh))
                (Error "API Error (400): Call context not found")
                (snd (executeToolInternal (Scenario.env_of Scenario.renewing)
                        "view_basket" (VObj []) Scenario.fresh))
                eq_refl eq_refl) as (_ & _ & Hx & _).
    rewrite Hx. split; reflexivity.
  - destruct (proj2 (proj2 (executeTool_retries_once
                              (Scenario.env_of Scenario.forgetful) "view_basket" (VObj [])
                              Scenario.fresh))
                (Error "API Error (400): Call context not found")
                (snd (executeToolInternal (Scenario.env_of Scenario.forgetful)
                        "view_basket" (VObj []) Scenario.fresh))
                eq_refl eq_refl) as (_ & _ & _ & _ & _ & Hfinal).
    rewrite (Hfinal (Error "API Error (400): Call context not found") _ eq_refl).
    reflexivity.
Defined.

(* ===================================================================== *)
(** ** Clearing the basket (C7) *)
(* ===================================================================== *)

Lemma executeTool_returns (E : env) (name : string) (args : value) (w : world) (r : value) :
  fst (executeTool E name args w) = Returns r ->
  exists w', fst (executeToolInternal E name args w') = Returns r.
Proof.
  rewrite executeTool_unfold.
  destruct (executeToolInternal E name args w) as [[r' | e] w1] eqn:H.
  - intros Hr. exists w. rewrite H. exact Hr.
  - destruct (str_includes (message e) SESSION_MARKER).
    + intros Hr. eexists. exact Hr.
    + discriminate.
Qed.

Lemma clear_basket_returns (E : env) (args : value) (w : world) (r : value) :
  fst (executeToolInternal E "clear_basket" args w) = Returns r -> r = cleared.
Proof.
  unfold executeToolInternal, bind.
  destruct (ensureSession E w) as [[chat | e] w1]; [| discriminate].
  unfold getAuthToken.
  change (dispatch E "clear_basket" chat (authToken (state w1)) args)
    with (clear_basket E chat (authToken (state w1))).
  unfold clear_basket, bind.
  destruct (Flipdish.clearBasket E chat (or_ (authToken (state w1)) VUndef) w1)
    as [[x | e] w2]; simpl; intros H; [| discriminate].
  injection H as <-. reflexivity.
Qed.

(** C7.  A [clear_basket] call that returns gives the fixed result whose
    basket has an empty item list and a total of zero, whatever the backend
    answered; and no request of the call, returning or not, is a basket read
    ([getBasket]). *)
Theorem clear_basket_empty_shape (E : env) (args : value) (w : world) :
  (forall r, fst (executeTool E "clear_basket" args w) = Returns r ->
     r = cleared
     /\ prop (prop (prop r "structuredContent") "basket") "basketMenuItems" = VArr []
     /\ prop (prop (prop r "structuredContent") "basket") "totalPrice" = VNum 0)
  /\ extends (fun a => negb (a =? "getBasket")) (requests w)
             (snd (executeTool E "clear_basket" args w)).
Proof.
  split.
  - intros r Hr. destruct (executeTool_returns _ _ _ _ _ Hr) as [w' Hw'].
    apply clear_basket_returns in Hw'. subst r. repeat split.
  - apply (executeTool_frame E (extends (fun a => negb (a =? "getBasket")) (requests w))
             (extends_setChatId _ _)); [| apply extends_refl].
    unfold executeToolInternal.
    apply preserves_bind; [| intros chat].
    { apply (ensureSession_frame E _ _ (extends_request _ _) (extends_setChatId _ _)).
      reflexivity. }
    apply preserves_bind; [apply preserves_getAuthToken | intros token].
    change (dispatch E "clear_basket" chat token args) with (clear_basket E chat token).
    apply (clear_basket_frame E _ _ (extends_request _ _)). reflexivity.
Qed.

(** A basket cleared at a healthy backend: a session request and the clear,
    and the empty basket as result. *)
Lemma clear_basket_empty_shape_witness :
  prop (prop (prop cleared "structuredContent") "basket") "totalPrice" = VNum 0
  /\ fst (executeTool (Scenario.env_of Scenario.shop) "clear_basket" (VObj [])
            Scenario.fresh)
     = Returns cleared
  /\ map action (requests (snd (executeTool (Scenario.env_of Scenario.shop) "clear_basket"
                                  (VObj []) Scenario.fresh)))
     = ["createSession"; "clearBasket"].
Proof.
  split; [| split; reflexivity].
  apply (proj1 (clear_basket_empty_shape (Scenario.env_of Scenario.shop) (VObj [])
                  Scenario.fresh) cleared eq_refl).
Defined.

(* ===================================================================== *)
(** ** [ensureSession] runs first (C10) *)
(* ===================================================================== *)

Lemma dispatch_unknown (E : env) (name : string) (chat token args : value) :
  known name = false ->
  dispatch E name chat token args = throw (Error ("Unknown tool: " ++ name)).
Proof.
  unfold known, tool_names. simpl. intros H.
  repeat (apply orb_false_iff in H; destruct H as [? H]).
  unfold dispatch.
  repeat match goal with
         | Hn : (name =? ?s) = false |- _ => rewrite Hn; clear Hn
         end.
  reflexivity.
Qed.

Lemma executeToolInternal_dispatches (E : env) (name : string) (args : value)
    (w w1 : world) (chat : value) :
  ensureSession E w = (Returns chat, w1) ->
  executeToolInternal E name args w = dispatch E name chat (authToken (state w1)) args w1.
Proof.
  intros H. unfold executeToolInternal. rewrite (bind_returns _ _ _ _ _ H). reflexivity.
Qed.

Lemma executeToolInternal_no_session (E : env) (name : string) (args : value)
    (w w1 : world) (e : exn) :
  ensureSession E w = (Throws e, w1) ->
  executeToolInternal E name args w = (Throws e, w1).
Proof. intros H. unfold executeToolInternal. apply bind_throws. exact H. Qed.

Lemma rest_of_store_request (s : SessionState) :
  forall q w, rest_of_store s w -> rest_of_store s (add_request q w).
Proof. intros q w H. exact H. Qed.

Lemma rest_of_store_setChatId (s : SessionState) :
  forall c, preserves (rest_of_store s) (setChatId c).
Proof. intros c w H. rewrite setChatId_spec. exact H. Qed.

(** What [ensureSession] does when it has to create the session and the
    backend answers with a JSON body [result]. *)
Lemma ensureSession_created (E : env) (w : world) (r : response) (result : value) :
  truthy (chatId (state w)) = false ->
  backend E (requests w) (guest_session_request E) = Responds r ->
  Flipdish.ok r = true ->
  json r = Json result ->
  nullish result = false ->
  ensureSession E w
  = (Returns (prop result "chatId"),
     snd (setChatId (prop result "chatId") (add_request (guest_session_request E) w))).
Proof.
  intros Hc Hb Hok Hj Hn. rewrite (ensureSession_create E w Hc).
  assert (Hcs : Flipdish.createSession E VUndef w
                = (Returns result, add_request (guest_session_request E) w)).
  { rewrite createSession_spec, Hb. simpl. rewrite Hok, Hj. reflexivity. }
  rewrite (bind_returns _ _ _ _ _ Hcs).
  rewrite (bind_returns _ _ _ _ _ (read_defined _ _ _ Hn)).
  rewrite (bind_returns _ _ _ _ _ (setChatId_returns _ _)). reflexivity.
Qed.

(** C10.  Whatever the tool name and the arguments, the call starts with
    [ensureSession]: if that throws, the call throws the same error in the same
    world, before any look at the arguments; if it returns, the dispatch runs
    in the world it left.  For a name outside the tool set, with no session id
    stored and a backend that creates the guest session, the call stores the
    new id (in the state and, when the file can be written, in the snapshot)
    and then throws "Unknown tool"; and however such a call ends, the token,
    the phone number and the search cache are left as they were. *)
Theorem ensureSession_runs_first (E : env) (name : string) (args : value) (w : world) :
  (forall e w1, ensureSession E w = (Throws e, w1) ->
     executeToolInternal E name args w = (Throws e, w1))
  /\ (forall chat w1, ensureSession E w = (Returns chat, w1) ->
        executeToolInternal E name args w
        = dispatch E name chat (authToken (state w1)) args w1)
  /\ (known name = false ->
      rest_of_store (state w) (snd (executeTool E name args w))
      /\ forall r result,
           truthy (chatId (state w)) = false ->
           backend E (requests w) (guest_session_request E) = Responds r ->
           Flipdish.ok r = true ->
           json r = Json result ->
           nullish result = false ->
           let w' := snd (setChatId (prop result "chatId")
                                    (add_request (guest_session_request E) w)) in
           executeToolInternal E name args w
           = (Throws (Error ("Unknown tool: " ++ name)), w')
           /\ (str_includes ("Unknown tool: " ++ name) SESSION_MARKER = false ->
               executeTool E name args w = (Throws (Error ("Unknown tool: " ++ name)), w'))
           /\ chatId (state w') = prop result "chatId"
           /\ cache_file w' = (if writable w then Holds (Json (snapshot (state w')))
                               else cache_file w)
           /\ requests w' = (requests w ++ [guest_session_request E])%list).
Proof.
  split; [| split].
  - intros e w1 H. apply executeToolInternal_no_session. exact H.
  - intros chat w1 H. apply executeToolInternal_dispatches. exact H.
  - intros Hk. split.
    + apply (executeTool_frame E (rest_of_store (state w)) (rest_of_store_setChatId _));
        [| repeat split].
      unfold executeToolInternal.
      apply preserves_bind; [| intros chat].
      { apply (ensureSession_frame E _ (fun _ => true)
                 (fun q w' _ => rest_of_store_request _ q w')
                 (rest_of_store_setChatId _)).
        reflexivity. }
      apply preserves_bind; [apply preserves_getAuthToken | intros token].
      rewrite (dispatch_unknown E name chat token args Hk). apply preserves_throw.
    + intros r result Hc Hb Hok Hj Hn w'.
      pose proof (ensureSession_created E w r result Hc Hb Hok Hj Hn) as He.
      fold w' in He.
      assert (Hi : executeToolInternal E name args w
                   = (Throws (Error ("Unknown tool: " ++ name)), w')).
      { rewrite (executeToolInternal_dispatches E name args w w' _ He).
        rewrite (dispatch_unknown E name _ _ args Hk). reflexivity. }
      split; [exact Hi |]. split.
      { intros Hm. rewrite executeTool_unfold, Hi.
        change (message (Error ("Unknown tool: " ++ name))) with ("Unknown tool: " ++ name).
        rewrite Hm. reflexivity. }
      unfold w'. rewrite setChatId_spec. simpl. unfold saved. simpl.
      repeat split.
Qed.

(** A first call with a name that is no tool, at a healthy backend: the
    session [chat-1] is stored, the call fails, nothing else changed. *)
Lemma ensureSession_runs_first_witness :
  fst (executeTool (Scenario.env_of Scenario.shop) "order_pizza" (VObj []) Scenario.fresh)
  = Throws (Error "Unknown tool: order_pizza")
  /\ state (snd (executeTool (Scenario.env_of Scenario.shop) "order_pizza" (VObj [])
                   Scenario.fresh))
     = mkState (VStr "chat-1") VNull VNull (VArr [])
  /\ chatId (state Scenario.fresh) = VNull.
Proof.
  destruct (proj2 (proj2 (ensureSession_runs_first (Scenario.env_of Scenario.shop)
                            "order_pizza" (VObj []) Scenario.fresh)) eq_refl)
    as [_ H].
  destruct (H _ (VObj [("chatId", VStr "chat-1")]) eq_refl eq_refl eq_refl eq_refl eq_refl)
    as (_ & Hx & _).
  rewrite (Hx eq_refl). repeat split.
Defined.

(* ===================================================================== *)
(** ** Authentication is atomic (C4) *)
(* ===================================================================== *)

Lemma nullish_jsonify (v : value) : nullish (jsonify v) = nullish v.
Proof. destruct v; reflexivity. Qed.

(** A start over the snapshot of [s] gives a token and a phone number that
    are set exactly when they are in [s]. *)
Lemma load_snapshot_nullish (s : SessionState) :
  nullish (authToken (load (Holds (Json (snapshot s))))) = nullish (authToken s)
  /\ nullish (phoneNumber (load (Holds (Json (snapshot s))))) = nullish (phoneNumber s).
Proof.
  unfold load, startup, load_cache, merge, snapshot. rewrite jsonify_obj.
  unfold spread_field. cbn [authToken phoneNumber default_state].
  repeat rewrite lookup_json_props_cons. simpl.
  split.
  - destruct (authToken s); reflexivity.
  - destruct (phoneNumber s); reflexivity.
Qed.

Lemma load_snapshot_atomic (s : SessionState) :
  auth_atomic s -> auth_atomic (load (Holds (Json (snapshot s)))).
Proof.
  unfold auth_atomic. intros H.
  destruct (load_snapshot_nullish s) as [Ht Hp]. rewrite Ht, Hp. exact H.
Qed.

Lemma auth_invariant_saved (s : SessionState) (w : world) :
  auth_atomic s -> auth_atomic (load (cache_file w)) ->
  auth_atomic (load (saved (set_state s w))).
Proof.
  intros Hs Hf. unfold saved. simpl. destruct (writable w).
  - apply load_snapshot_atomic. exact Hs.
  - exact Hf.
Qed.

Lemma auth_invariant_request :
  forall q w, auth_invariant w -> auth_invariant (add_request q w).
Proof. intros q w H. exact H. Qed.

Lemma auth_invariant_setChatId : forall c, preserves auth_invariant (setChatId c).
Proof.
  intros c w [Hs Hf]. rewrite setChatId_spec. split; simpl.
  - exact Hs.
  - apply auth_invariant_saved; assumption.
Qed.

Lemma auth_invariant_setSearchResults :
  forall v, preserves auth_invariant (setSearchResults v).
Proof.
  intros v w [Hs Hf]. rewrite setSearchResults_spec. split; simpl.
  - exact Hs.
  - apply auth_invariant_saved; assumption.
Qed.

Lemma auth_invariant_setAuthToken :
  forall t p, truthy t = true -> (exists s, p = VStr s) ->
              preserves auth_invariant (setAuthToken t p).
Proof.
  intros t p Ht [s ->] w [Hs Hf]. rewrite setAuthToken_spec.
  assert (Ha : auth_atomic (mkState (chatId (state w)) t (VStr s) (searchResults (state w)))).
  { unfold auth_atomic. simpl. apply truthy_not_nullish. exact Ht. }
  split; simpl; [exact Ha | apply auth_invariant_saved; assumption].
Qed.

Lemma auth_invariant_clearAuth : preserves auth_invariant clearAuth.
Proof.
  intros w [Hs Hf]. rewrite clearAuth_spec.
  split; simpl; [reflexivity | apply auth_invariant_saved; [reflexivity | assumption]].
Qed.

Lemma reachable_invariant (E : env) (w : world) : reachable E w -> auth_invariant w.
Proof.
  induction 1 as [cw | w cw _ IH | w c _ IH | w t p _ IH | w _ IH | w v _ IH
                  | w name arguments _ IH].
  - split; reflexivity.
  - destruct IH as [_ Hf]. split; exact Hf.
  - apply auth_invariant_setChatId. exact IH.
  - destruct IH as [Hs Hf]. rewrite setAuthToken_spec.
    split; simpl; [reflexivity | apply auth_invariant_saved; [reflexivity | assumption]].
  - apply auth_invariant_clearAuth. exact IH.
  - apply auth_invariant_setSearchResults. exact IH.
  - apply (callTool_frame_all E auth_invariant auth_invariant_request
             auth_invariant_setChatId auth_invariant_setSearchResults
             auth_invariant_setAuthToken).
    exact IH.
Qed.

Lemma callApi_spec (E : env) (act : string) (arguments : list value) (auth : value)
    (w : world) :
  Flipdish.callApi E act arguments auth w
  = (Flipdish.settle (backend E (requests w) (Flipdish.request_of E act arguments auth)),
     add_request (Flipdish.request_of E act arguments auth) w).
Proof. reflexivity. Qed.

Lemma settle_json (r : response) (v : value) :
  Flipdish.ok r = true -> json r = Json v -> Flipdish.settle (Responds r) = Returns v.
Proof. intros Hok Hj. simpl. rewrite Hok, Hj. reflexivity. Qed.

Lemma parse_ok (E : env) (sch : zobject) (args p : value) (w : world) :
  safeParse sch args = inr p -> parse E sch args w = (Returns p, w).
Proof. intros H. unfold parse. rewrite H. reflexivity. Qed.

(** A [verify_otp] that throws has changed nothing of the state. *)
Lemma verify_otp_throws_state (E : env) (chat args : value) (w : world) (e : exn) :
  fst (verify_otp E chat args w) = Throws e ->
  state (snd (verify_otp E chat args w)) = state w.
Proof.
  destruct (verify_otp E chat args w) as [o w'] eqn:HX. simpl. intros ->.
  unfold verify_otp, parse in HX.
  destruct (safeParse verifyOtpSchema args) as [issues | p].
  { inversion HX. reflexivity. }
  unfold bind at 1, ret at 1 in HX. cbv zeta in HX.
  unfold bind at 1 in HX. unfold Flipdish.verifyOTP in HX. rewrite callApi_spec in HX.
  destruct (Flipdish.settle _) as [result | e'].
  2: { inversion HX. reflexivity. }
  unfold bind at 1 in HX.
  match type of HX with
  | context [read result "success" ?w0] =>
      pose proof (read_world result "success" w0) as Hrw;
      destruct (read result "success" w0) as [[success | e'] w2]; simpl in Hrw; subst w2
  end.
  2: { inversion HX. reflexivity. }
  destruct (negb (truthy success) || negb (truthy (prop result "token"))).
  { inversion HX. reflexivity. }
  unfold bind in HX. rewrite setAuthToken_spec in HX. discriminate HX.
Qed.

Lemma ensureSession_rest (E : env) (w : world) :
  rest_of_store (state w) (snd (ensureSession E w)).
Proof.
  apply (ensureSession_frame E _ (fun _ => true)
           (fun q w' _ => rest_of_store_request _ q w') (rest_of_store_setChatId _));
    [reflexivity | repeat split].
Qed.

Lemma verify_otp_run_throws (E : env) (args : value) (w : world) (e : exn) :
  fst (executeToolInternal E "verify_otp" args w) = Throws e ->
  rest_of_store (state w) (snd (executeToolInternal E "verify_otp" args w)).
Proof.
  pose proof (ensureSession_rest E w) as Hens.
  destruct (ensureSession E w) as [[chat | e'] w1] eqn:He; simpl in Hens.
  - rewrite (executeToolInternal_dispatches _ _ _ _ _ _ He).
    change (dispatch E "verify_otp" chat (authToken (state w1)) args)
      with (verify_otp E chat args).
    intros Ht. unfold rest_of_store. rewrite (verify_otp_throws_state _ _ _ _ _ Ht).
    exact Hens.
  - rewrite (executeToolInternal_no_session _ _ _ _ _ _ He). intros _. exact Hens.
Qed.

(** C4.  In every world a process reaches from a start without cache file, by
    the operations of the Session Store, tool calls and restarts, the token
    and the phone number are both set or both unset.  A [verify_otp] call that
    throws leaves both as they were; and when the backend's answer is
    unsuccessful or has no token, the dispatch throws with both as they were,
    so [isAuthenticated] is what it was.  With a
    successful answer that carries a token, the token and the verified phone
    number are written by one [setAuthToken], and [isAuthenticated] is true.
    [clearAuth] unsets both. *)
Theorem auth_is_atomic (E : env) :
  (forall w, reachable E w -> auth_atomic (state w))
  /\ (forall args w e,
        fst (executeTool E "verify_otp" args w) = Throws e ->
        let w' := snd (executeTool E "verify_otp" args w) in
        authToken (state w') = authToken (state w)
        /\ phoneNumber (state w') = phoneNumber (state w)
        /\ isAuthenticated (state w') = isAuthenticated (state w))
  /\ (forall args w chat w1 p r result,
        ensureSession E w = (Returns chat, w1) ->
        safeParse verifyOtpSchema args = inr p ->
        backend E (requests w1) (verify_request E chat p) = Responds r ->
        Flipdish.ok r = true ->
        json r = Json result ->
        (truthy (prop result "success") = false \/ truthy (prop result "token") = false ->
         let w' := add_request (verify_request E chat p) w1 in
         (exists e, executeToolInternal E "verify_otp" args w = (Throws e, w'))
         /\ authToken (state w') = authToken (state w)
         /\ phoneNumber (state w') = phoneNumber (state w)
         /\ isAuthenticated (state w') = isAuthenticated (state w))
        /\ (truthy (prop result "success") = true ->
            truthy (prop result "token") = true ->
            let w' := snd (setAuthToken (prop result "token") (prop p "phoneNumber")
                             (add_request (verify_request E chat p) w1)) in
            executeTool E "verify_otp" args w
            = (Returns (signed_in (prop p "phoneNumber")), w')
            /\ authToken (state w') = prop result "token"
            /\ phoneNumber (state w') = prop p "phoneNumber"
            /\ isAuthenticated (state w') = true))
  /\ (forall w, authToken (state (snd (clearAuth w))) = VNull
                /\ phoneNumber (state (snd (clearAuth w))) = VNull).
Proof.
  split; [| split; [| split]].
  - intros w H. apply (reachable_invariant E w H).
  - intros args w e Ht w'.
    assert (Hr : rest_of_store (state w) w').
    { unfold w'. revert Ht. rewrite executeTool_unfold.
      pose proof (verify_otp_run_throws E args w) as H1.
      destruct (executeToolInternal E "verify_otp" args w) as [[r | e1] w1].
      - discriminate.
      - specialize (H1 e1 eq_refl). cbn [snd] in H1.
        destruct (str_includes (message e1) SESSION_MARKER); [| intros _; exact H1].
        intros H2. apply verify_otp_run_throws in H2.
        assert (Hw2 : rest_of_store (state w1) (snd (setChatId (VStr "") w1))).
        { rewrite setChatId_spec. repeat split. }
        destruct H2 as (Ha & Hb & Hc). destruct H1 as (Ha1 & Hb1 & Hc1).
        destruct Hw2 as (Ha2 & Hb2 & Hc2).
        repeat split; congruence. }
    destruct Hr as (Ha & Hb & _). unfold isAuthenticated. rewrite Ha, Hb. repeat split.
  - intros args w chat w1 p r result He Hp Hb Hok Hj.
    assert (Hrun : executeToolInternal E "verify_otp" args w = verify_otp E chat args w1).
    { rewrite (executeToolInternal_dispatches _ _ _ _ _ _ He). reflexivity. }
    assert (Hcall : Flipdish.verifyOTP E (prop p "phoneNumber") (prop p "code") chat w1
                    = (Returns result, add_request (verify_request E chat p) w1)).
    { unfold Flipdish.verifyOTP. rewrite callApi_spec. fold (verify_request E chat p).
      rewrite Hb, (settle_json _ _ Hok Hj). reflexivity. }
    assert (Hv : verify_otp E chat args w1
                 = (result' <- ret result ;;
                    success <- read result' "success" ;;
                    if negb (truthy success) || negb (truthy (prop result' "token")) then
                      throw (Error (ToString (or_ (prop result' "error")
                                                  (VStr "OTP verification failed"))))
                    else
                      setAuthToken (prop result' "token") (prop p "phoneNumber") ;;
                      ret (signed_in (prop p "phoneNumber")))
                   (add_request (verify_request E chat p) w1)).
    { unfold verify_otp. rewrite (bind_returns _ _ _ _ _ (parse_ok E _ _ _ _ Hp)).
      cbv zeta. rewrite (bind_returns _ _ _ _ _ Hcall). reflexivity. }
    split.
    + intros Hfail w'.
      pose proof (ensureSession_rest E w) as Hrest. rewrite He in Hrest.
      destruct Hrest as (Ha & Hb' & _). simpl in Ha, Hb'.
      split; [| unfold isAuthenticated; simpl; rewrite Ha, Hb'; repeat split].
      unfold w'. rewrite Hrun, Hv. unfold bind at 1, ret at 1.
      destruct (nullish result) eqn:Hn.
      * destruct (read_throws result "success"
                    (add_request (verify_request E chat p) w1) Hn) as [e Hre].
        exists e. apply bind_throws. exact Hre.
      * rewrite (bind_returns _ _ _ _ _ (read_defined _ _ _ Hn)).
        assert (Hc : negb (truthy (prop result "success"))
                     || negb (truthy (prop result "token")) = true).
        { destruct Hfail as [-> | ->]; [reflexivity | apply orb_true_r]. }
        rewrite Hc. eexists. reflexivity.
    + intros Hs Ht w'.
      assert (Hn : nullish result = false).
      { destruct result; simpl in Hs; try discriminate; reflexivity. }
      assert (Hi : executeToolInternal E "verify_otp" args w
                   = (Returns (signed_in (prop p "phoneNumber")), w')).
      { rewrite Hrun, Hv. unfold bind at 1, ret at 1.
        rewrite (bind_returns _ _ _ _ _ (read_defined _ _ _ Hn)).
        rewrite Hs, Ht. cbn [negb orb]. unfold bind.
        rewrite setAuthToken_spec. unfold w'. rewrite setAuthToken_spec. reflexivity. }
      split.
      { rewrite executeTool_unfold, Hi. reflexivity. }
      unfold w'. rewrite setAuthToken_spec. simpl. unfold isAuthenticated. simpl.
      repeat split. exact Ht.
  - intros w. rewrite clearAuth_spec. split; reflexivity.
Qed.

(** A sign-in at a healthy backend, and a code check that comes back without
    a token. *)
Lemma auth_is_atomic_witness :
  auth_atomic (state (snd (callTool (Scenario.env_of Scenario.shop) "verify_otp"
                             (VObj [("phoneNumber", VStr "+353861234567");
                                    ("code", VStr "1234")])
                             Scenario.fresh)))
  /\ fst (executeTool (Scenario.env_of Scenario.shop) "verify_otp"
            (VObj [("phoneNumber", VStr "+353861234567"); ("code", VStr "1234")])
            Scenario.fresh)
     = Returns (signed_in (VStr "+353861234567"))
  /\ isAuthenticated
       (state (snd (executeTool (Scenario.env_of Scenario.refusing) "verify_otp"
                      (VObj [("phoneNumber", VStr "+353861234567"); ("code", VStr "1234")])
                      Scenario.fresh)))
     = false.
Proof.
  split; [| split].
  - apply (proj1 (auth_is_atomic (Scenario.env_of Scenario.shop))).
    apply reach_callTool. apply (reach_boot _ true).
  - destruct (proj1 (proj2 (proj2 (auth_is_atomic (Scenario.env_of Scenario.shop))))
                (VObj [("phoneNumber", VStr "+353861234567"); ("code", VStr "1234")])
                Scenario.fresh (VStr "chat-1") _
                (VObj [("phoneNumber", VStr "+353861234567"); ("code", VStr "1234")])
                _ (VObj [("success", VBool true); ("token", VStr "token-1")])
                eq_refl eq_refl eq_refl eq_refl eq_refl) as [_ Hok].
    destruct (Hok eq_refl eq_refl) as [Hrun _]. rewrite Hrun. reflexivity.
  - destruct (proj1 (proj2 (auth_is_atomic (Scenario.env_of Scenario.refusing)))
                (VObj [("phoneNumber", VStr "+353861234567"); ("code", VStr "1234")])
                Scenario.fresh (Error "OTP verification failed") eq_refl)
      as (_ & _ & Hauth).
    rewrite Hauth. reflexivity.
Defined.

(* ===================================================================== *)
(** ** A call and its session *)
(* ===================================================================== *)

(** [ensureSession] throws only while it creates a session: no id was
    stored, the session request has been sent, nothing else has changed. *)
Lemma ensureSession_throws (E : env) (w w1 : world) (e : exn) :
  ensureSession E w = (Throws e, w1) ->
  truthy (chatId (state w)) = false /\ w1 = add_request (guest_session_request E) w.
Proof.
  intros H. destruct (truthy (chatId (state w))) eqn:Ht.
  - rewrite (ensureSession_stored E w Ht) in H. discriminate H.
  - split; [reflexivity |].
    rewrite (ensureSession_create E w Ht) in H. unfold bind in H.
    rewrite createSession_spec in H.
    destruct (Flipdish.settle _) as [result | e0].
    + pose proof (read_world result "chatId"
                    (add_request (guest_session_request E) w)) as Hr.
      destruct (read result "chatId" _) as [[c | e1] w2]; simpl in Hr; subst w2.
      * rewrite setChatId_spec in H. discriminate H.
      * injection H as _ <-. reflexivity.
    + injection H as _ <-. reflexivity.
Qed.

(** A call whose first run finds no session. *)
Lemma executeTool_no_session (E : env) (name : string) (args : value) (w w1 : world)
    (e : exn) :
  ensureSession E w = (Throws e, w1) ->
  executeTool E name args w
  = if str_includes (message e) SESSION_MARKER
    then executeToolInternal E name args (snd (setChatId (VStr "") w1))
    else (Throws e, w1).
Proof.
  intros H. rewrite executeTool_unfold, (executeToolInternal_no_session _ _ _ _ _ _ H).
  reflexivity.
Qed.

(** Every request of a run comes after those already sent. *)
Lemma executeToolInternal_extends (E : env) (name : string) (args : value) (w : world) :
  exists l, requests (snd (executeToolInternal E name args w)) = (requests w ++ l)%list.
Proof.
  destruct (executeToolInternal_frame E (extends (fun _ => true) (requests w))
              (fun q w' => extends_request _ _ q w' eq_refl)
              (extends_setChatId _ _)
              (extends_setSearchResults _ _)
              (fun t p _ _ => extends_setAuthToken _ _ t p)
              name args w (extends_refl _ _)) as [l [Hl _]].
  exists l. exact Hl.
Qed.

(** A run that sends [q] first, seen from the call: the requests of the
    re-run, if there is one, come after. *)
Lemma executeTool_first_request (E : env) (name : string) (args : value) (w : world)
    (base : list request) (q : request) :
  (exists l, requests (snd (executeToolInternal E name args w)) = (base ++ q :: l)%list) ->
  exists l, requests (snd (executeTool E name args w)) = (base ++ q :: l)%list.
Proof.
  intros [l Hl]. rewrite executeTool_unfold.
  destruct (executeToolInternal E name args w) as [[r | e] w1]; simpl in Hl.
  - exists l. exact Hl.
  - destruct (str_includes (message e) SESSION_MARKER); [| exists l; exact Hl].
    destruct (executeToolInternal_extends E name args (snd (setChatId (VStr "") w1)))
      as [l' Hl'].
    exists (l ++ l')%list. rewrite Hl', requests_setChatId, Hl.
    rewrite <- app_assoc. reflexivity.
Qed.

(** Calls whose runs are [ensureSession] and then a fixed outcome [o], while
    the world satisfies [I]: the prompt of [submit_order] while no token is
    held, the refusal of [add_to_basket] while the id is not in the cache. *)
Section AfterSession.
Variable E : env.
Variable name : string.
Variable args : value.
Variable I : world -> Prop.
Variable o : outcome value.
Hypothesis I_request : forall q w, I w -> I (add_request q w).
Hypothesis I_chat : forall c, preserves I (setChatId c).
Hypothesis run :
  forall w, I w ->
    executeToolInternal E name args w
    = match ensureSession E w with
      | (Returns _, w1) => (o, w1)
      | (Throws e, w1) => (Throws e, w1)
      end.

Lemma rerun_after_session (w2 : world) :
  I w2 -> ends_after_session E o w2 (executeToolInternal E name args w2).
Proof.
  intros H2. rewrite (run w2 H2). split; intros ? w3 He; rewrite He; reflexivity.
Qed.

Lemma executeTool_after_session (w : world) :
  I w -> call_after_session E o w (executeTool E name args w).
Proof.
  intros Hw.
  assert (Hnext : forall w1, w1 = snd (ensureSession E w) ->
                    I (snd (setChatId (VStr "") w1))).
  { intros w1 ->. apply I_chat.
    apply (ensureSession_frame E I (fun _ => true) (fun q w' _ => I_request q w')
             I_chat eq_refl w Hw). }
  assert (Hre : forall w1, w1 = snd (ensureSession E w) ->
                  ends_after_session E o (snd (setChatId (VStr "") w1))
                    (executeToolInternal E name args (snd (setChatId (VStr "") w1)))).
  { intros w1 H1. apply rerun_after_session, Hnext, H1. }
  rewrite executeTool_unfold, (run w Hw). clear Hnext. split.
  - intros chat w1 He. rewrite He in *. specialize (Hre w1 eq_refl).
    destruct o as [r | e]; [reflexivity |].
    destruct (str_includes (message e) SESSION_MARKER); [exact Hre | reflexivity].
  - intros e w1 He. rewrite He in *. specialize (Hre w1 eq_refl).
    destruct (str_includes (message e) SESSION_MARKER); [exact Hre | reflexivity].
Qed.

End AfterSession.

(* ===================================================================== *)
(** ** The checkout gate (C1) *)
(* ===================================================================== *)

Lemma ensureSession_extends (E : env) (allowed : string -> bool) (w : world) :
  allowed "createSession" = true ->
  extends allowed (requests w) (snd (ensureSession E w)).
Proof.
  intros Ha.
  apply (ensureSession_frame E _ allowed (extends_request _ _) (extends_setChatId _ _) Ha).
  apply extends_refl.
Qed.

(** With no token, a [submit_order] run is [ensureSession] and then the
    authentication prompt. *)
Lemma submit_order_gated (E : env) (args : value) (w : world) :
  truthy (authToken (state w)) = false ->
  executeToolInternal E "submit_order" args w
  = match ensureSession E w with
    | (Returns _, w1) => (Returns authResponse, w1)
    | (Throws e, w1) => (Throws e, w1)
    end.
Proof.
  intros Ht. pose proof (ensureSession_rest E w) as Hr.
  destruct (ensureSession E w) as [[chat | e] w1] eqn:He.
  - rewrite (executeToolInternal_dispatches _ _ _ _ _ _ He).
    change (dispatch E "submit_order" chat (authToken (state w1)) args)
      with (submit_order E chat (authToken (state w1)) args).
    unfold submit_order. destruct Hr as [Ha _]. simpl in Ha. rewrite Ha, Ht. reflexivity.
  - apply (executeToolInternal_no_session _ _ _ _ _ _ He).
Qed.

Lemma submit_order_gated_world (E : env) (args : value) (w : world) :
  truthy (authToken (state w)) = false ->
  snd (executeToolInternal E "submit_order" args w) = snd (ensureSession E w).
Proof.
  intros Ht. rewrite (submit_order_gated E args w Ht).
  destruct (ensureSession E w) as [[chat | e] w1]; reflexivity.
Qed.

(** With a token, a run at a backend that reports no success to any order
    throws, and keeps the token. *)
Lemma submit_order_refused_run (E : env) (args : value) (w : world) :
  refuses_orders E ->
  truthy (authToken (state w)) = true ->
  exists e, fst (executeToolInternal E "submit_order" args w) = Throws e.
Proof.
  intros Href Ht. unfold executeToolInternal.
  pose proof (ensureSession_rest E w) as [Ha _].
  destruct (ensureSession E w) as [[chat | e] w1] eqn:He; simpl in Ha.
  2: { rewrite (bind_throws _ _ _ _ _ He). eexists. reflexivity. }
  rewrite (bind_returns _ _ _ _ _ He). unfold bind at 1, getAuthToken.
  change (dispatch E "submit_order" ?c ?t ?a) with (submit_order E c t a).
  unfold submit_order. rewrite Ha, Ht. cbn [negb]. unfold parse.
  destruct (safeParse submitOrderSchema args) as [issues | p];
    [eexists; reflexivity |].
  unfold bind at 1, ret at 1.
  destruct (Flipdish.submitOrder E chat (authToken (state w))
              (prop p "paymentAccountId") w1) as [[result | e0] w2] eqn:Hcall.
  2: { rewrite (bind_throws _ _ _ _ _ Hcall). eexists. reflexivity. }
  rewrite (bind_returns _ _ _ _ _ Hcall).
  assert (Hs : truthy (prop result "success") = false).
  { unfold Flipdish.submitOrder in Hcall. rewrite callApi_spec in Hcall.
    destruct (backend E (requests w1) _) as [e0 | r] eqn:Hb; [discriminate Hcall |].
    unfold Flipdish.settle in Hcall.
    destruct (Flipdish.ok r) eqn:Hok; [| discriminate Hcall].
    destruct (json r) as [v | e0] eqn:Hj; [| discriminate Hcall].
    injection Hcall as <- _.
    eapply Href; [| exact Hb | exact Hok | exact Hj]. reflexivity. }
  destruct (nullish result) eqn:Hn.
  - destruct (read_throws result "success" w2 Hn) as [e1 He1].
    rewrite (bind_throws _ _ _ _ _ He1). eexists. reflexivity.
  - rewrite (bind_returns _ _ _ _ _ (read_defined _ _ _ Hn)), Hs.
    eexists. reflexivity.
Qed.

Lemma submit_order_keeps_token (E : env) (args : value) (w : world) :
  authToken (state (snd (executeToolInternal E "submit_order" args w)))
  = authToken (state w).
Proof.
  set (P := fun w' : world => authToken (state w') = authToken (state w)).
  assert (Pq : forall q w', (fun _ : string => true) (action q) = true ->
                            P w' -> P (add_request q w')).
  { intros q w' _ H. exact H. }
  apply (preserves_bind P); [| | reflexivity].
  - apply (ensureSession_frame E P (fun _ => true) Pq); [| reflexivity].
    intros c w' H. unfold P. rewrite setChatId_spec. exact H.
  - intros chat. apply preserves_bind; [apply preserves_getAuthToken | intros token].
    change (dispatch E "submit_order" chat token args)
      with (submit_order E chat token args).
    apply (submit_order_frame E P (fun _ => true) Pq). reflexivity.
Qed.

(** C1, as amended.  With no token in the Session Store, no [submit_order]
    call ever sends a [submitOrder] request, and every result the call
    returns is the authentication prompt: the result whose structured content
    has the error "authentication_required" and whose output template is the
    login widget.  The call returns it whenever [ensureSession] returns (a
    session id is stored, or the guest session is created).  When
    [ensureSession] throws an error without the session-expiry marker, the
    call throws that error; when it throws one with the marker, the session id
    is cleared and the run is repeated once, and the call returns the prompt
    if [ensureSession] returns this time and throws its error if it throws
    again.  With a token, a call at a backend that reports no success to the
    order throws; and a run with a session, valid arguments and a backend
    answer whose [success] is false throws
    [Error(result.error || "Order submission failed")], which the call
    rethrows unless its message carries the marker. *)
Theorem submit_order_gate (E : env) (args : value) (w : world) :
  (truthy (authToken (state w)) = false ->
   extends (fun a => negb (a =? "submitOrder")) (requests w)
           (snd (executeTool E "submit_order" args w))
   /\ (forall chat w1, ensureSession E w = (Returns chat, w1) ->
         executeTool E "submit_order" args w = (Returns authResponse, w1))
   /\ (forall e w1, ensureSession E w = (Throws e, w1) ->
         (str_includes (message e) SESSION_MARKER = false ->
          executeTool E "submit_order" args w = (Throws e, w1))
         /\ (str_includes (message e) SESSION_MARKER = true ->
             ends_after_session E (Returns authResponse)
               (snd (setChatId (VStr "") w1))
               (executeTool E "submit_order" args w)))
   /\ (forall r, fst (executeTool E "submit_order" args w) = Returns r ->
         r = authResponse)
   /\ prop (prop authResponse "structuredContent") "error" = VStr "authentication_required"
   /\ prop (prop authResponse "_meta") "openai/outputTemplate" = VStr LOGIN_WIDGET_URI)
  /\ (truthy (authToken (state w)) = true ->
      (refuses_orders E ->
       exists e, fst (executeTool E "submit_order" args w) = Throws e)
      /\ forall chat w1 p r result,
        ensureSession E w = (Returns chat, w1) ->
        safeParse submitOrderSchema args = inr p ->
        backend E (requests w1) (submit_request E chat (authToken (state w)) p)
        = Responds r ->
        Flipdish.ok r = true ->
        json r = Json result ->
        nullish result = false ->
        truthy (prop result "success") = false ->
        let e := Error (ToString (or_ (prop result "error")
                                      (VStr "Order submission failed"))) in
        let w' := add_request (submit_request E chat (authToken (state w)) p) w1 in
        executeToolInternal E "submit_order" args w = (Throws e, w')
        /\ (str_includes (message e) SESSION_MARKER = false ->
            executeTool E "submit_order" args w = (Throws e, w'))).
Proof.
  split.
  - intros Ht.
    assert (Hcall : call_after_session E (Returns authResponse) w
                      (executeTool E "submit_order" args w)).
    { apply (executeTool_after_session E "submit_order" args
               (fun w0 => truthy (authToken (state w0)) = false)).
      - intros q w0 H. exact H.
      - intros c w0 H. rewrite setChatId_spec. exact H.
      - intros w0 H0. apply submit_order_gated. exact H0.
      - exact Ht. }
    destruct Hcall as [Hret Hthr].
    split; [| split; [| split; [| split; [| split; reflexivity]]]].
    + set (allowed := fun a => negb (a =? "submitOrder")).
      assert (Hrun : forall w0, truthy (authToken (state w0)) = false ->
                extends allowed (requests w0)
                        (snd (executeToolInternal E "submit_order" args w0))).
      { intros w0 H0. rewrite (submit_order_gated_world E args w0 H0).
        apply ensureSession_extends. reflexivity. }
      pose proof (Hrun w Ht) as H1.
      assert (Hrest : rest_of_store (state w)
                        (snd (executeToolInternal E "submit_order" args w))).
      { rewrite (submit_order_gated_world E args w Ht). apply ensureSession_rest. }
      rewrite executeTool_unfold.
      destruct (executeToolInternal E "submit_order" args w) as [[r | e] w1];
        [exact H1 |].
      destruct (str_includes (message e) SESSION_MARKER); [| exact H1].
      apply (extends_trans allowed _ w1); [exact H1 |].
      rewrite <- (requests_setChatId (VStr "") w1). apply Hrun.
      rewrite setChatId_spec. simpl. destruct Hrest as [Ha _]. simpl in Ha.
      rewrite Ha. exact Ht.
    + intros chat w1 He. exact (Hret chat w1 He).
    + intros e w1 He. specialize (Hthr e w1 He).
      split; intros Hm; rewrite Hm in Hthr; exact Hthr.
    + intros r Hr.
      destruct (ensureSession E w) as [[chat | e] w1] eqn:He.
      * rewrite (Hret chat w1 eq_refl) in Hr. injection Hr as <-. reflexivity.
      * specialize (Hthr e w1 eq_refl).
        destruct (str_includes (message e) SESSION_MARKER).
        -- destruct Hthr as [H3 H4].
           destruct (ensureSession E (snd (setChatId (VStr "") w1)))
             as [[chat | e2] w3] eqn:He2.
           ++ rewrite (H3 chat w3 eq_refl) in Hr. injection Hr as <-. reflexivity.
           ++ rewrite (H4 e2 w3 eq_refl) in Hr. discriminate Hr.
        -- rewrite Hthr in Hr. discriminate Hr.
  - intros Ht. split.
    { intros Href. rewrite executeTool_unfold.
      destruct (submit_order_refused_run E args w Href Ht) as [e He].
      pose proof (submit_order_keeps_token E args w) as Hk.
      destruct (executeToolInternal E "submit_order" args w) as [[r | e1] w1];
        [discriminate He |]. simpl in Hk.
      destruct (str_includes (message e1) SESSION_MARKER);
        [| eexists; reflexivity].
      apply submit_order_refused_run; [exact Href |].
      rewrite setChatId_spec. simpl. rewrite Hk. exact Ht. }
    intros chat w1 p r result He Hp Hb Hok Hj Hn Hs e w'.
    pose proof (ensureSession_rest E w) as Hr. rewrite He in Hr.
    destruct Hr as [Ha _]. simpl in Ha.
    assert (Hi : executeToolInternal E "submit_order" args w = (Throws e, w')).
    { rewrite (executeToolInternal_dispatches _ _ _ _ _ _ He).
      change (dispatch E "submit_order" chat (authToken (state w1)) args)
        with (submit_order E chat (authToken (state w1)) args).
      unfold submit_order. rewrite Ha, Ht. cbn [negb].
      rewrite (bind_returns _ _ _ _ _ (parse_ok E _ _ _ _ Hp)).
      assert (Hcall : Flipdish.submitOrder E chat (authToken (state w))
                        (prop p "paymentAccountId") w1 = (Returns result, w')).
      { unfold Flipdish.submitOrder. rewrite callApi_spec.
        fold (submit_request E chat (authToken (state w)) p).
        rewrite Hb, (settle_json _ _ Hok Hj). reflexivity. }
      rewrite (bind_returns _ _ _ _ _ Hcall).
      rewrite (bind_returns _ _ _ _ _ (read_defined _ _ _ Hn)).
      rewrite Hs. reflexivity. }
    split; [exact Hi |].
    intros Hm. rewrite executeTool_unfold, Hi, Hm. reflexivity.
Qed.

(** The Basket widget's checkout on a signed-out session at a healthy
    backend; an order that the restaurant refuses; and a signed-out checkout
    whose session request is first answered "Call context not found" and
    then granted. *)
Lemma submit_order_gate_witness :
  fst (executeTool (Scenario.env_of Scenario.shop) "submit_order" (VObj []) Scenario.fresh)
  = Returns authResponse
  /\ fst (executeTool (Scenario.env_of Scenario.refusing) "submit_order" (VObj [])
            (mkWorld Scenario.ordering Absent true []))
     = Throws (Error "Restaurant closed")
  /\ fst (executeTool (Scenario.env_of hesitant) "submit_order" (VObj []) Scenario.fresh)
     = Returns authResponse.
Proof.
  split; [| split].
  - destruct (proj1 (submit_order_gate (Scenario.env_of Scenario.shop) (VObj [])
                       Scenario.fresh) eq_refl) as (_ & Hret & _).
    rewrite (Hret (VStr "chat-1") _ eq_refl). reflexivity.
  - destruct (proj2 (proj2 (submit_order_gate (Scenario.env_of Scenario.refusing) (VObj [])
                       (mkWorld Scenario.ordering Absent true [])) eq_refl)
                (VStr "chat-1") _ (VObj [("paymentAccountId", VUndef)]) _
                (VObj [("success", VBool false); ("error", VStr "Restaurant closed")])
                eq_refl eq_refl eq_refl eq_refl eq_refl eq_refl eq_refl) as [_ Hx].
    rewrite (Hx eq_refl). reflexivity.
  - destruct (proj1 (submit_order_gate (Scenario.env_of hesitant) (VObj [])
                       Scenario.fresh) eq_refl) as (_ & _ & Hthr & _).
    destruct (Hthr (Error "API Error (400): Call context not found")
                (add_request (guest_session_request (Scenario.env_of hesitant))
                   Scenario.fresh) eq_refl) as [_ Hre].
    destruct (Hre eq_refl) as [Hret _].
    rewrite (Hret (VStr "chat-1") _ eq_refl). reflexivity.
Defined.

(** C1 as stated fails, in both halves.  A first [submit_order] of a process
    with no token, while the backend is down, throws the error of the session
    creation (the run does, and so does the call); it does not return the
    authentication prompt.  And with a token, a call whose order the backend
    answers with [success: false] and the error "Call context not found" does
    not fail: the run throws that error, the call takes it for an expired
    session and runs again, and it returns the result of the second order. *)
Lemma submit_order_gate_counterexample :
  truthy (authToken (state Scenario.fresh)) = false
  /\ fst (executeToolInternal (Scenario.env_of Scenario.down) "submit_order" (VObj [])
            Scenario.fresh)
     = Throws (Error "API Error (503): Service Unavailable")
  /\ fst (executeTool (Scenario.env_of Scenario.down) "submit_order" (VObj [])
            Scenario.fresh)
     = Throws (Error "API Error (503): Service Unavailable")
  /\ ~ (exists r,
          fst (executeTool (Scenario.env_of Scenario.down) "submit_order" (VObj [])
                 Scenario.fresh) = Returns r
          /\ prop (prop r "structuredContent") "error" = VStr "authentication_required")
  /\ truthy (authToken (state (mkWorld Scenario.ordering Absent true []))) = true
  /\ wavering [] (submit_request (Scenario.env_of wavering) (VStr "chat-1")
                    (VStr "token-1") (VObj [("paymentAccountId", VUndef)]))
     = Scenario.ok_json (VObj [("success", VBool false);
                               ("error", VStr "Call context not found")])
  /\ fst (executeToolInternal (Scenario.env_of wavering) "submit_order" (VObj [])
            (mkWorld Scenario.ordering Absent true []))
     = Throws (Error "Call context not found")
  /\ map action
       (requests (snd (executeTool (Scenario.env_of wavering) "submit_order" (VObj [])
                         (mkWorld Scenario.ordering Absent true []))))
     = ["submitOrder"; "createSession"; "submitOrder"]
  /\ exists r,
       fst (executeTool (Scenario.env_of wavering) "submit_order" (VObj [])
              (mkWorld Scenario.ordering Absent true [])) = Returns r
       /\ prop (prop r "structuredContent") "success" = VBool true.
Proof.
  split; [reflexivity |]. split; [reflexivity |]. split; [reflexivity |].
  split; [intros [r [Hr _]]; discriminate Hr |].
  split; [reflexivity |]. split; [reflexivity |]. split; [reflexivity |].
  split; [reflexivity |].
  eexists. split; reflexivity.
Qed.

(* ===================================================================== *)
(** ** Validation of basket additions against the last search (C3) *)
(* ===================================================================== *)

Lemma map_read_ids (l ids : list value) (w : world) :
  item_ids l = Some ids -> map_read "menuItemId" l w = (Returns ids, w).
Proof.
  revert ids. induction l as [| item r IH]; simpl; intros ids H.
  - injection H as <-. reflexivity.
  - destruct (nullish item) eqn:Hn; [discriminate |].
    destruct (item_ids r) as [ids' |]; [| discriminate]. injection H as <-.
    rewrite (bind_returns _ _ _ _ _ (read_defined _ _ _ Hn)).
    rewrite (bind_returns _ _ _ _ _ (IH ids' eq_refl)). reflexivity.
Qed.

Lemma validate_rejects (E : env) (id : value) (l ids : list value) (w : world) :
  searchResults (state w) = VArr l -> l <> [] -> item_ids l = Some ids ->
  existsb (strict_eq id) ids = false ->
  validate_against_search E id w = (Throws (invalid_id ids), w).
Proof.
  intros Hs Hl Hi Hx. unfold validate_against_search.
  unfold bind at 1, getSearchResults. rewrite Hs.
  unfold bind at 1. simpl read. unfold ret at 1.
  assert (Hg : gt0 E (VNum (Z.of_nat (List.length l))) = true).
  { destruct l; [contradiction |]. simpl. reflexivity. }
  cbn [prop String.eqb Ascii.eqb Bool.eqb]. rewrite Hg.
  rewrite (bind_returns _ _ _ _ _ (map_read_ids _ _ _ Hi)). rewrite Hx. reflexivity.
Qed.

Lemma validate_empty (E : env) (id : value) (w : world) :
  searchResults (state w) = VArr [] ->
  validate_against_search E id w = (Returns tt, w).
Proof.
  intros Hs. unfold validate_against_search, bind, getSearchResults. rewrite Hs.
  reflexivity.
Qed.

Lemma callApi_extends (E : env) (allowed : string -> bool) (base : list request)
    (act : string) (arguments : list value) (auth : value) :
  allowed act = true ->
  preserves (extends allowed base) (Flipdish.callApi E act arguments auth).
Proof. apply (callApi_frame E _ allowed (extends_request _ _)). Qed.

(** What follows the [updateBasket] of [add_to_basket] only adds requests. *)
Lemma bind_extends {A B} (m : M A) (k : A -> M B) (w : world) (q : request) :
  (forall w0, snd (m w0) = add_request q w0) ->
  (forall a w0, exists l, requests (snd (k a w0)) = (requests w0 ++ l)%list) ->
  exists l, requests (snd (bind m k w)) = (requests w ++ q :: l)%list.
Proof.
  intros Hm Hk. unfold bind. specialize (Hm w).
  destruct (m w) as [[a | e] w']; simpl in Hm; subst w'.
  - destruct (Hk a (add_request q w)) as [l Hl]. exists l. rewrite Hl. simpl.
    rewrite <- app_assoc. reflexivity.
  - exists []. reflexivity.
Qed.

Lemma preserves_extends {A} (m : M A) :
  (forall base, preserves (extends (fun _ => true) base) m) ->
  forall w, exists l, requests (snd (m w)) = (requests w ++ l)%list.
Proof.
  intros H w. destruct (H (requests w) w (extends_refl _ w)) as [l [Hl _]].
  exists l. exact Hl.
Qed.

Lemma free_of_app (c : ascii) (a b : string) :
  free_of c (a ++ b) = free_of c a && free_of c b.
Proof.
  induction a as [| x a IH]; simpl; [reflexivity |].
  rewrite IH. apply andb_assoc.
Qed.

Lemma free_of_uint (d : Decimal.uint) : free_of "C" (NilEmpty.string_of_uint d) = true.
Proof. induction d; simpl; auto. Qed.

Lemma free_of_Z (n : Z) : free_of "C" (string_of_Z n) = true.
Proof.
  unfold string_of_Z, NilZero.string_of_int.
  destruct (Z.to_int n) as [d | d]; unfold NilZero.string_of_uint;
    destruct d; simpl; try reflexivity; apply free_of_uint.
Qed.

Lemma free_of_marker (hay : string) :
  free_of "C" hay = true -> str_includes hay SESSION_MARKER = false.
Proof.
  induction hay as [| a r IH]; intros H; [reflexivity |].
  cbn [free_of] in H. apply andb_true_iff in H. destruct H as [Ha Hr].
  change (str_includes (String a r) SESSION_MARKER)
    with (if prefix SESSION_MARKER (String a r) then true
          else str_includes r SESSION_MARKER).
  assert (Hp : prefix SESSION_MARKER (String a r) = false).
  { unfold SESSION_MARKER. cbn [prefix].
    destruct (ascii_dec "C" a) as [<- | _]; [discriminate Ha | reflexivity]. }
  rewrite Hp. apply IH. exact Hr.
Qed.

Lemma free_of_concat (c : ascii) (sep : string) (ls : list string) :
  free_of c sep = true -> forallb (free_of c) ls = true ->
  free_of c (String.concat sep ls) = true.
Proof.
  intros Hsep. induction ls as [| x r IH]; intros H; [reflexivity |].
  cbn [forallb] in H. apply andb_true_iff in H. destruct H as [Hx Hr].
  destruct r as [| y r'].
  - exact Hx.
  - change (String.concat sep (x :: y :: r'))
      with (x ++ sep ++ String.concat sep (y :: r')).
    rewrite !free_of_app, Hx, Hsep, (IH Hr). reflexivity.
Qed.

Lemma free_of_join (ids : list value) :
  forallb numeric ids = true -> free_of "C" (join ", " ids) = true.
Proof.
  intros H. unfold join. apply free_of_concat; [reflexivity |].
  induction ids as [| x r IH]; [reflexivity |].
  cbn [forallb] in H. apply andb_true_iff in H. destruct H as [Hx Hr].
  cbn [map forallb]. rewrite (IH Hr), andb_true_r.
  destruct x; try discriminate Hx. apply free_of_Z.
Qed.

Lemma invalid_id_unmarked (ids : list value) :
  forallb numeric ids = true ->
  str_includes (message (invalid_id ids)) SESSION_MARKER = false.
Proof.
  intros H. apply free_of_marker.
  change (message (invalid_id ids))
    with ("Invalid menuItemId. Valid IDs: " ++ join ", " ids).
  rewrite free_of_app, (free_of_join ids H). reflexivity.
Qed.

#[local] Hint Resolve callApi_extends : frame.

Lemma add_to_basket_forwards (E : env) (chat token args p : value) (w : world) :
  safeParse addToBasketSchema args = inr p ->
  searchResults (state w) = VArr [] ->
  exists l, requests (snd (add_to_basket E chat token args w))
            = (requests w ++ addition_request E chat token p :: l)%list.
Proof.
  intros Hp Hs. unfold add_to_basket.
  rewrite (bind_returns _ _ _ _ _ (parse_ok E _ _ _ _ Hp)). cbv zeta.
  rewrite (bind_returns _ _ _ _ _ (validate_empty E _ _ Hs)).
  apply bind_extends.
  - intros w0. reflexivity.
  - intros _. apply preserves_extends. intros base. unfold Flipdish.getBasket. frame.
Qed.

Lemma rejecting_request (l : list value) (base : list request) :
  forall q w, negb (action q =? "updateBasket") = true ->
              rejecting l base w -> rejecting l base (add_request q w).
Proof.
  intros q w Ha [He Hs]. split; [| exact Hs].
  apply (extends_request (fun a => negb (a =? "updateBasket"))); assumption.
Qed.

Lemma rejecting_setChatId (l : list value) (base : list request) :
  forall c, preserves (rejecting l base) (setChatId c).
Proof. intros c w H. rewrite setChatId_spec. exact H. Qed.

(** With an id that is not in a non-empty cache, a run is [ensureSession]
    and then the validation error. *)
Lemma add_to_basket_rejected_run (E : env) (args p : value) (l ids : list value)
    (w0 : world) :
  safeParse addToBasketSchema args = inr p ->
  l <> [] -> item_ids l = Some ids ->
  existsb (strict_eq (prop p "menuItemId")) ids = false ->
  searchResults (state w0) = VArr l ->
  executeToolInternal E "add_to_basket" args w0
  = match ensureSession E w0 with
    | (Returns _, w1) => (Throws (invalid_id ids), w1)
    | (Throws e, w1) => (Throws e, w1)
    end.
Proof.
  intros Hp Hl Hi Hx Hs.
  pose proof (ensureSession_rest E w0) as Hr.
  destruct (ensureSession E w0) as [[chat | e] w1] eqn:He.
  - destruct Hr as (_ & _ & Hsr). simpl in Hsr.
    rewrite (executeToolInternal_dispatches _ _ _ _ _ _ He).
    change (dispatch E "add_to_basket" chat (authToken (state w1)) args)
      with (add_to_basket E chat (authToken (state w1)) args).
    unfold add_to_basket.
    rewrite (bind_returns _ _ _ _ _ (parse_ok E _ _ _ _ Hp)). cbv zeta.
    apply bind_throws. apply (validate_rejects E _ l ids w1); try assumption.
    rewrite Hsr. exact Hs.
  - apply (executeToolInternal_no_session _ _ _ _ _ _ He).
Qed.

Lemma prefix_app (a b : string) : prefix a (a ++ b) = true.
Proof.
  induction a as [| c a IH]; simpl; [destruct b; reflexivity |].
  destruct (ascii_dec c c) as [_ | H]; [exact IH | contradiction].
Qed.

Lemma invalid_id_validation_error (ids : list value) :
  validation_error (invalid_id ids) = true.
Proof.
  unfold validation_error, invalid_id, Error. cbn [exn_name message].
  rewrite prefix_app. reflexivity.
Qed.

(** C3, as amended.  Let the arguments pass the schema, the search cache be a
    non-empty array whose items all have properties, and the requested id be
    none of their [menuItemId]s.  Then no request of the call is a basket
    update, and the call fails: it throws the validation error, or an error
    that [ensureSession] threw.  For cached ids that JavaScript prints in
    decimal (safe integers, and values that are no numbers) the error and the
    cases are exact: a run whose [ensureSession] returns throws
    [Error("Invalid menuItemId. Valid IDs: " + ids.join(", "))] (as in
    "1, 2, 3"), which the call rethrows unless that text carries the
    session-expiry marker (it never does when the ids are numbers); a first
    run that ends with an error with the marker, of [ensureSession] or the
    validation error itself, is followed by the one re-run, and the call
    throws the validation error if [ensureSession] returns in the re-run and
    the error of [ensureSession] if it throws; an error of [ensureSession]
    without the marker is the error of the call.  With an empty cache, a
    session and valid arguments, the membership test passes for every id and
    the basket update is the next request sent. *)
Theorem add_to_basket_validation (E : env) (args p : value) (w : world) :
  safeParse addToBasketSchema args = inr p ->
  (forall l ids,
     searchResults (state w) = VArr l -> l <> [] -> item_ids l = Some ids ->
     existsb (strict_eq (prop p "menuItemId")) ids = false ->
     extends (fun a => negb (a =? "updateBasket")) (requests w)
             (snd (executeTool E "add_to_basket" args w))
     /\ (exists e,
           fst (executeTool E "add_to_basket" args w) = Throws e
           /\ (validation_error e = true
               \/ exists w0, fst (ensureSession E w0) = Throws e))
     /\ (forallb safe ids = true ->
         message (invalid_id ids) = "Invalid menuItemId. Valid IDs: " ++ join ", " ids
         /\ call_after_session E (Throws (invalid_id ids)) w
              (executeTool E "add_to_basket" args w)
         /\ forall chat w1,
              ensureSession E w = (Returns chat, w1) ->
              executeToolInternal E "add_to_basket" args w
              = (Throws (invalid_id ids), w1)
              /\ (str_includes (message (invalid_id ids)) SESSION_MARKER = false ->
                  executeTool E "add_to_basket" args w = (Throws (invalid_id ids), w1))
              /\ (forallb numeric ids = true ->
                  executeTool E "add_to_basket" args w
                  = (Throws (invalid_id ids), w1))))
  /\ message (invalid_id [VNum 1; VNum 2; VNum 3])
     = "Invalid menuItemId. Valid IDs: 1, 2, 3"
  /\ (searchResults (state w) = VArr [] ->
      forall chat w1,
        ensureSession E w = (Returns chat, w1) ->
        validate_against_search E (prop p "menuItemId") w1 = (Returns tt, w1)
        /\ exists l',
             requests (snd (executeToolInternal E "add_to_basket" args w))
             = (requests w1 ++ addition_request E chat (authToken (state w1)) p :: l')%list).
Proof.
  intros Hp. split; [| split; [reflexivity |]].
  - intros l ids Hs Hl Hi Hx.
    assert (Hcall : call_after_session E (Throws (invalid_id ids)) w
                      (executeTool E "add_to_basket" args w)).
    { apply (executeTool_after_session E "add_to_basket" args
               (fun w0 => searchResults (state w0) = VArr l)).
      - intros q w0 H. exact H.
      - intros c w0 H. rewrite setChatId_spec. exact H.
      - intros w0 H0. apply (add_to_basket_rejected_run E args p l ids); assumption.
      - exact Hs. }
    split; [| split].
    + assert (Hrun : preserves (rejecting l (requests w))
                       (executeToolInternal E "add_to_basket" args)).
      { unfold executeToolInternal.
        apply preserves_bind; [| intros chat].
        { apply (ensureSession_frame E _ (fun a => negb (a =? "updateBasket"))
                   (rejecting_request l _) (rejecting_setChatId l _)).
          reflexivity. }
        apply preserves_bind; [apply preserves_getAuthToken | intros token].
        change (dispatch E "add_to_basket" chat token args)
          with (add_to_basket E chat token args).
        intros w0 [He0 Hs0]. unfold add_to_basket.
        rewrite (bind_returns _ _ _ _ _ (parse_ok E _ _ _ _ Hp)). cbv zeta.
        rewrite (bind_throws _ _ _ _ _ (validate_rejects E _ _ _ _ Hs0 Hl Hi Hx)).
        split; assumption. }
      apply (executeTool_frame E _ (rejecting_setChatId l _) _ _ Hrun w).
      split; [apply extends_refl | exact Hs].
    + destruct Hcall as [Hret Hthr].
      assert (Hre : forall w2,
                ends_after_session E (Throws (invalid_id ids)) w2
                  (executeTool E "add_to_basket" args w) ->
                exists e,
                  fst (executeTool E "add_to_basket" args w) = Throws e
                  /\ (validation_error e = true
                      \/ exists w0, fst (ensureSession E w0) = Throws e)).
      { intros w2 [H3 H4].
        destruct (ensureSession E w2) as [[chat | e2] w3] eqn:He2.
        - rewrite (H3 chat w3 eq_refl). exists (invalid_id ids).
          split; [reflexivity | left; apply invalid_id_validation_error].
        - rewrite (H4 e2 w3 eq_refl). exists e2. split; [reflexivity |].
          right. exists w2. rewrite He2. reflexivity. }
      destruct (ensureSession E w) as [[chat | e] w1] eqn:He.
      * specialize (Hret chat w1 eq_refl). cbv iota in Hret.
        destruct (str_includes (message (invalid_id ids)) SESSION_MARKER).
        -- apply (Hre _ Hret).
        -- rewrite Hret. exists (invalid_id ids).
           split; [reflexivity | left; apply invalid_id_validation_error].
      * specialize (Hthr e w1 eq_refl).
        destruct (str_includes (message e) SESSION_MARKER).
        -- apply (Hre _ Hthr).
        -- rewrite Hthr. exists e. split; [reflexivity |].
           right. exists w. rewrite He. reflexivity.
    + intros _. split; [reflexivity |]. split; [exact Hcall |].
      intros chat w1 He.
      assert (Hrun : executeToolInternal E "add_to_basket" args w
                     = (Throws (invalid_id ids), w1)).
      { rewrite (add_to_basket_rejected_run E args p l ids w Hp Hl Hi Hx Hs), He.
        reflexivity. }
      split; [exact Hrun |].
      assert (Hx' : str_includes (message (invalid_id ids)) SESSION_MARKER = false ->
                    executeTool E "add_to_basket" args w = (Throws (invalid_id ids), w1)).
      { intros Hm. rewrite executeTool_unfold, Hrun, Hm. reflexivity. }
      split; [exact Hx' |].
      intros Hnum. apply Hx'. apply invalid_id_unmarked. exact Hnum.
  - intros Hs chat w1 He.
    pose proof (ensureSession_rest E w) as Hr. rewrite He in Hr.
    destruct Hr as (_ & _ & Hsr). simpl in Hsr. rewrite Hs in Hsr.
    split; [apply validate_empty; exact Hsr |].
    rewrite (executeToolInternal_dispatches _ _ _ _ _ _ He).
    change (dispatch E "add_to_basket" chat (authToken (state w1)) args)
      with (add_to_basket E chat (authToken (state w1)) args).
    apply add_to_basket_forwards; assumption.
Qed.

(** After a search that found the items 1, 2 and 3, adding item 4 is refused
    with the three ids listed; before any search it is forwarded. *)
Lemma add_to_basket_validation_witness :
  fst (executeTool (Scenario.env_of Scenario.shop) "add_to_basket" Scenario.four
         Scenario.searched)
  = Throws (Error "Invalid menuItemId. Valid IDs: 1, 2, 3")
  /\ map action (requests (snd (executeToolInternal (Scenario.env_of Scenario.shop)
                                  "add_to_basket" Scenario.four Scenario.fresh)))
     = ["createSession"; "updateBasket"; "getBasket"].
Proof.
  pose (p := VObj [("menuItemId", VNum 4); ("quantity", VUndef);
                   ("menuItemOptionSetItems", VUndef)]).
  split.
  - destruct (add_to_basket_validation (Scenario.env_of Scenario.shop) Scenario.four p
                Scenario.searched eq_refl) as [Hrej _].
    destruct (Hrej [Scenario.item 1 "Margherita"; Scenario.item 2 "Funghi";
                    Scenario.item 3 "Diavola"]
                   [VNum 1; VNum 2; VNum 3] eq_refl
                   (fun H => eq_ind [] (fun l => match l with [] => True | _ => False end)
                                    I _ (eq_sym H))
                   eq_refl eq_refl) as (_ & _ & Hsafe).
    destruct (Hsafe eq_refl) as (_ & _ & Hthrow).
    destruct (Hthrow (VStr "chat-1") Scenario.searched eq_refl) as (_ & _ & Hx).
    rewrite (Hx eq_refl). reflexivity.
  - destruct (add_to_basket_validation (Scenario.env_of Scenario.shop) Scenario.four p
                Scenario.fresh eq_refl) as (_ & _ & Hfwd).
    destruct (Hfwd eq_refl (VStr "chat-1") _ eq_refl) as [_ [l' Hl']].
    reflexivity.
Defined.

(** C3 as stated fails, in three ways.  With the items 1, 2 and 3 in the
    cache and item 4 requested, a call made while the session is lost and the
    backend is down fails with the error of the session creation, not with
    the validation error that lists the valid ids.  With the same cache, a
    call that asks for the id "4", a string, fails with the error of zod,
    which lists no id.  And with a cache whose first item is [null], the
    call fails with the TypeError of reading the id of that item. *)
Lemma add_to_basket_validation_counterexample :
  searchResults (state Scenario.stranded)
  = VArr [Scenario.item 1 "Margherita"; Scenario.item 2 "Funghi"; Scenario.item 3 "Diavola"]
  /\ existsb (strict_eq (VNum 4)) [VNum 1; VNum 2; VNum 3] = false
  /\ fst (executeTool (Scenario.env_of Scenario.outage) "add_to_basket" Scenario.four
            Scenario.stranded)
     = Throws (Error "API Error (503): Service Unavailable")
  /\ fst (executeTool (Scenario.env_of Scenario.outage) "add_to_basket" Scenario.four
            Scenario.stranded)
     <> Throws (invalid_id [VNum 1; VNum 2; VNum 3])
  /\ fst (executeTool (Scenario.env_of Scenario.shop) "add_to_basket"
            (VObj [("menuItemId", VStr "4")]) Scenario.searched)
     = Throws (mkExn "ZodError" "Invalid input")
  /\ searchResults
       (state (snd (callTool (Scenario.env_of holey) "search_menu" Scenario.pizza
                      Scenario.fresh)))
     = VArr [VNull; Scenario.item 1 "Margherita"]
  /\ fst (executeTool (Scenario.env_of holey) "add_to_basket" Scenario.four
            (snd (callTool (Scenario.env_of holey) "search_menu" Scenario.pizza
                    Scenario.fresh)))
     = Throws (TypeError "Cannot read properties of null (reading 'menuItemId')").
Proof.
  split; [reflexivity |]. split; [reflexivity |]. split; [reflexivity |].
  split; [intros H; discriminate H |]. split; [reflexivity |].
  split; reflexivity.
Qed.

(* ===================================================================== *)
(** ** Removal does not consult the search cache (C9) *)
(* ===================================================================== *)

Lemma blind_ret {A} (a : A) : blind (ret a).
Proof. intros w w' R. split; [reflexivity | exact R]. Qed.

Lemma blind_throw {A} (e : exn) : blind (@throw A e).
Proof. intros w w' R. split; [reflexivity | exact R]. Qed.

Lemma blind_bind {A B} (m : M A) (k : A -> M B) :
  blind m -> (forall a, blind (k a)) -> blind (bind m k).
Proof.
  intros Hm Hk w w' R. unfold bind. destruct (Hm w w' R) as [Ho Hw].
  destruct (m w) as [[a | e] w1]; destruct (m w') as [[a' | e'] w1'];
    simpl in Ho, Hw; try discriminate.
  - injection Ho as <-. apply Hk. exact Hw.
  - injection Ho as <-. split; [reflexivity | exact Hw].
Qed.

Lemma blind_try_catch {A} (m : M A) (h : exn -> M A) :
  blind m -> (forall e, blind (h e)) -> blind (try_catch m h).
Proof.
  intros Hm Hh w w' R. unfold try_catch. destruct (Hm w w' R) as [Ho Hw].
  destruct (m w) as [[a | e] w1]; destruct (m w') as [[a' | e'] w1'];
    simpl in Ho, Hw; try discriminate.
  - split; [exact Ho | exact Hw].
  - injection Ho as <-. apply Hh. exact Hw.
Qed.

Lemma blind_read (o : value) (k : string) : blind (read o k).
Proof. intros w w' R. destruct o; (split; [reflexivity | exact R]). Qed.

Lemma blind_parse (E : env) (sch : zobject) (args : value) : blind (parse E sch args).
Proof.
  intros w w' R. unfold parse.
  destruct (safeParse sch args); (split; [reflexivity | exact R]).
Qed.

Lemma blind_getChatId : blind getChatId.
Proof.
  intros w w' R. split; [| exact R]. destruct R as (Hc & _). simpl. rewrite Hc.
  reflexivity.
Qed.

Lemma blind_getAuthToken : blind getAuthToken.
Proof.
  intros w w' R. split; [| exact R]. destruct R as (_ & Ha & _). simpl. rewrite Ha.
  reflexivity.
Qed.

Lemma blind_setChatId (c : value) : blind (setChatId c).
Proof.
  intros w w' (Hc & Ha & Hp & Hq). rewrite !setChatId_spec.
  split; [reflexivity | repeat split; simpl; auto].
Qed.

Lemma blind_callApi (E : env) (act : string) (arguments : list value) (auth : value) :
  blind (Flipdish.callApi E act arguments auth).
Proof.
  intros w w' (Hc & Ha & Hp & Hq). rewrite !callApi_spec. simpl. rewrite Hq.
  split; [reflexivity | repeat split; simpl; auto].
  rewrite Hq. reflexivity.
Qed.

Create HintDb blind.
#[local] Hint Resolve blind_ret blind_throw blind_read blind_parse blind_getChatId
  blind_getAuthToken blind_setChatId blind_callApi : blind.

Ltac blind_step :=
  match goal with
  | |- blind (let _ := _ in _) => cbv zeta
  | |- blind (bind _ _) => apply blind_bind; [| intro]
  | |- blind (try_catch _ _) => apply blind_try_catch; [| intro]
  | |- blind (if ?b then _ else _) => destruct b
  | |- blind _ => solve [auto with blind]
  end.

Lemma blind_ensureSession (E : env) : blind (ensureSession E).
Proof. unfold ensureSession, Flipdish.createSession. repeat blind_step. Qed.

Lemma blind_remove_from_basket (E : env) (chat token args : value) :
  blind (remove_from_basket E chat token args).
Proof.
  unfold remove_from_basket, Flipdish.updateBasket, Flipdish.getBasket.
  repeat blind_step.
Qed.

Lemma blind_removal (E : env) (args : value) :
  blind (executeTool E "remove_from_basket" args).
Proof.
  assert (Hi : blind (executeToolInternal E "remove_from_basket" args)).
  { unfold executeToolInternal.
    apply blind_bind; [apply blind_ensureSession | intros chat].
    apply blind_bind; [apply blind_getAuthToken | intros token].
    change (dispatch E "remove_from_basket" chat token args)
      with (remove_from_basket E chat token args).
    apply blind_remove_from_basket. }
  unfold executeTool. repeat blind_step.
Qed.

Lemma remove_from_basket_forwards (E : env) (chat token args p : value) (w : world) :
  safeParse removeFromBasketSchema args = inr p ->
  exists l, requests (snd (remove_from_basket E chat token args w))
            = (requests w ++ removal_request E chat token p :: l)%list.
Proof.
  intros Hp. unfold remove_from_basket.
  rewrite (bind_returns _ _ _ _ _ (parse_ok E _ _ _ _ Hp)). cbv zeta.
  apply bind_extends.
  - intros w0. reflexivity.
  - intros _. apply preserves_extends. intros base. unfold Flipdish.getBasket. frame.
Qed.

Lemma blind_setSearchResults (v : value) : blind (setSearchResults v).
Proof.
  intros w w' (Hc & Ha & Hp & Hq). rewrite !setSearchResults_spec.
  split; [reflexivity | repeat split; simpl; auto].
Qed.

Lemma blind_setAuthToken (t p : value) : blind (setAuthToken t p).
Proof.
  intros w w' (Hc & Ha & Hp & Hq). rewrite !setAuthToken_spec.
  split; [reflexivity | repeat split; simpl; auto].
Qed.

#[local] Hint Resolve blind_setSearchResults blind_setAuthToken : blind.

Ltac blind_case :=
  match goal with
  | |- blind (match ?x with _ => _ end) => destruct x
  | |- blind _ => blind_step
  end.

(** Every case of the [switch] but [add_to_basket] leaves the search cache
    unread. *)
Lemma blind_dispatch (E : env) (name : string) (chat token args : value) :
  name <> "add_to_basket" -> blind (dispatch E name chat token args).
Proof.
  intros Hn. apply String.eqb_neq in Hn.
  unfold dispatch. rewrite Hn.
  unfold search_menu, view_basket, remove_from_basket, clear_basket, submit_order,
    send_otp, verify_otp, Flipdish.searchMenu, Flipdish.updateBasket,
    Flipdish.getBasket, Flipdish.clearBasket, Flipdish.submitOrder, Flipdish.sendOTP,
    Flipdish.verifyOTP.
  repeat blind_case.
Qed.

Lemma blind_executeTool (E : env) (name : string) (args : value) :
  name <> "add_to_basket" -> blind (executeTool E name args).
Proof.
  intros Hn.
  assert (Hi : blind (executeToolInternal E name args)).
  { unfold executeToolInternal.
    apply blind_bind; [apply blind_ensureSession | intros chat].
    apply blind_bind; [apply blind_getAuthToken | intros token].
    apply blind_dispatch. exact Hn. }
  unfold executeTool. repeat blind_step.
Qed.

(** C9, as amended.  A [remove_from_basket] call does not depend on the
    search cache: in two worlds that differ only in the cache it ends the same
    way and sends the same requests.  So does a call of every tool but
    [add_to_basket], while a call of [add_to_basket] does depend on it.  For every
    cache and every arguments that pass the schema, a run whose
    [ensureSession] returns sends the basket update that removes the item as
    its next request, and nothing is rejected locally in between; this is the
    first run, or the one re-run after an [ensureSession] error with the
    session-expiry marker.  When [ensureSession] throws an error without the
    marker, or throws in the re-run, the call throws that error, and nothing
    but the session request has been sent by that run. *)
Theorem remove_from_basket_unvalidated (E : env) (args : value) :
  blind (executeTool E "remove_from_basket" args)
  /\ (forall name a, name <> "add_to_basket" -> blind (executeTool E name a))
  /\ ~ (forall E' a, blind (executeTool E' "add_to_basket" a))
  /\ (forall w p chat w1,
        safeParse removeFromBasketSchema args = inr p ->
        ensureSession E w = (Returns chat, w1) ->
        (exists l,
           requests (snd (executeToolInternal E "remove_from_basket" args w))
           = (requests w1 ++ removal_request E chat (authToken (state w1)) p :: l)%list)
        /\ exists l,
             requests (snd (executeTool E "remove_from_basket" args w))
             = (requests w1 ++ removal_request E chat (authToken (state w1)) p :: l)%list)
  /\ (forall w e w1,
        ensureSession E w = (Throws e, w1) ->
        w1 = add_request (guest_session_request E) w
        /\ (str_includes (message e) SESSION_MARKER = false ->
            executeTool E "remove_from_basket" args w = (Throws e, w1))
        /\ (str_includes (message e) SESSION_MARKER = true ->
            let w2 := snd (setChatId (VStr "") w1) in
            (forall p chat w3,
               safeParse removeFromBasketSchema args = inr p ->
               ensureSession E w2 = (Returns chat, w3) ->
               exists l,
                 requests (snd (executeTool E "remove_from_basket" args w))
                 = (requests w3
                    ++ removal_request E chat (authToken (state w3)) p :: l)%list)
            /\ (forall e2 w3,
                  ensureSession E w2 = (Throws e2, w3) ->
                  executeTool E "remove_from_basket" args w = (Throws e2, w3)
                  /\ w3 = add_request (guest_session_request E) w2))).
Proof.
  assert (Hrun : forall w p chat w1,
            safeParse removeFromBasketSchema args = inr p ->
            ensureSession E w = (Returns chat, w1) ->
            exists l,
              requests (snd (executeToolInternal E "remove_from_basket" args w))
              = (requests w1
                 ++ removal_request E chat (authToken (state w1)) p :: l)%list).
  { intros w p chat w1 Hp He.
    rewrite (executeToolInternal_dispatches _ _ _ _ _ _ He).
    change (dispatch E "remove_from_basket" chat (authToken (state w1)) args)
      with (remove_from_basket E chat (authToken (state w1)) args).
    apply remove_from_basket_forwards. exact Hp. }
  split; [apply blind_removal |].
  split; [intros name a Hn; apply blind_executeTool; exact Hn |].
  split.
  { intros H.
    destruct (H (Scenario.env_of Scenario.shop) Scenario.four Scenario.searched
                (snd (setSearchResults (VArr []) Scenario.searched))) as [Ho _].
    - repeat split.
    - discriminate Ho. }
  split.
  { intros w p chat w1 Hp He. split; [apply (Hrun w p chat w1 Hp He) |].
    apply executeTool_first_request. apply (Hrun w p chat w1 Hp He). }
  intros w e w1 He.
  split; [apply (ensureSession_throws E w w1 e He) |].
  pose proof (executeTool_no_session E "remove_from_basket" args w w1 e He) as Hx.
  split; intros Hm; rewrite Hm in Hx; [exact Hx |].
  cbv zeta. split.
  - intros p chat w3 Hp He2. rewrite Hx. apply (Hrun _ p chat w3 Hp He2).
  - intros e2 w3 He2. rewrite Hx.
    split; [apply (executeToolInternal_no_session _ _ _ _ _ _ He2) |].
    apply (ensureSession_throws E _ w3 e2 He2).
Qed.

(** With the items 1, 2 and 3 in the cache, the removal of item 4 is sent to
    the backend, and it ends as it does with an empty cache. *)
Lemma remove_from_basket_unvalidated_witness :
  fst (executeTool (Scenario.env_of Scenario.shop) "remove_from_basket" Scenario.four
         Scenario.searched)
  = fst (executeTool (Scenario.env_of Scenario.shop) "remove_from_basket" Scenario.four
           (snd (setSearchResults (VArr []) Scenario.searched)))
  /\ map action (requests (snd (executeToolInternal (Scenario.env_of Scenario.shop)
                                  "remove_from_basket" Scenario.four Scenario.searched)))
     = ["createSession"; "searchMenu"; "updateBasket"; "getBasket"].
Proof.
  split.
  - apply (proj1 (remove_from_basket_unvalidated (Scenario.env_of Scenario.shop)
                    Scenario.four)).
    repeat split.
  - destruct (proj1 (proj2 (proj2 (proj2
                (remove_from_basket_unvalidated (Scenario.env_of Scenario.shop)
                   Scenario.four))))
                Scenario.searched
                (VObj [("menuItemId", VNum 4); ("quantity", VUndef)])
                (VStr "chat-1") Scenario.searched eq_refl eq_refl) as [[l Hl] _].
    reflexivity.
Defined.

(** C9 as stated fails: a first removal of a process, with arguments that
    pass the schema, while the backend is down, is not forwarded to the basket
    update; the only request sent is the one for a session. *)
Lemma remove_from_basket_unvalidated_counterexample :
  safeParse removeFromBasketSchema Scenario.four
  = inr (VObj [("menuItemId", VNum 4); ("quantity", VUndef)])
  /\ map action (requests (snd (executeTool (Scenario.env_of Scenario.down)
                                  "remove_from_basket" Scenario.four Scenario.fresh)))
     = ["createSession"]
  /\ ~ (exists q, In q (requests (snd (executeTool (Scenario.env_of Scenario.down)
                                         "remove_from_basket" Scenario.four Scenario.fresh)))
                  /\ action q = "updateBasket").
Proof.
  split; [reflexivity |]. split; [reflexivity |].
  intros [q [Hin Hq]]. simpl in Hin. destruct Hin as [<- | []]. discriminate Hq.
Qed.

(* ===================================================================== *)
(** ** Further properties of the code *)
(* ===================================================================== *)

(** *** How many requests a call sends *)

Lemma sends_weaken {A} (a n : nat) (m : M A) :
  (a <= n)%nat -> sends_at_most a m -> sends_at_most n m.
Proof.
  intros Hle H w. destruct (H w) as [l [Hl Hn]]. exists l. split; [exact Hl | lia].
Qed.

Lemma sends_ret {A} (n : nat) (a : A) : sends_at_most n (ret a).
Proof. intros w. exists []. split; [symmetry; apply app_nil_r | simpl; lia]. Qed.

Lemma sends_throw {A} (n : nat) (e : exn) : sends_at_most n (@throw A e).
Proof. intros w. exists []. split; [symmetry; apply app_nil_r | simpl; lia]. Qed.

Lemma sends_bind {A B} (a b n : nat) (m : M A) (k : A -> M B) :
  (a + b <= n)%nat -> sends_at_most a m -> (forall x, sends_at_most b (k x)) ->
  sends_at_most n (bind m k).
Proof.
  intros Hle Hm Hk w. unfold bind. destruct (Hm w) as [l [Hl Hn]].
  destruct (m w) as [[x | e] w1]; simpl in Hl.
  - destruct (Hk x w1) as [l' [Hl' Hn']]. exists (l ++ l')%list. split.
    + rewrite Hl', Hl. symmetry. apply app_assoc.
    + rewrite length_app. lia.
  - exists l. split; [exact Hl | lia].
Qed.

Lemma sends_try_catch {A} (a b n : nat) (m : M A) (h : exn -> M A) :
  (a + b <= n)%nat -> sends_at_most a m -> (forall e, sends_at_most b (h e)) ->
  sends_at_most n (try_catch m h).
Proof.
  intros Hle Hm Hh w. unfold try_catch. destruct (Hm w) as [l [Hl Hn]].
  destruct (m w) as [[x | e] w1]; simpl in Hl.
  - exists l. split; [exact Hl | lia].
  - destruct (Hh e w1) as [l' [Hl' Hn']]. exists (l ++ l')%list. split.
    + rewrite Hl', Hl. symmetry. apply app_assoc.
    + rewrite length_app. lia.
Qed.

Lemma sends_callApi (E : env) (n : nat) (act : string) (arguments : list value)
    (auth : value) :
  (1 <= n)%nat -> sends_at_most n (Flipdish.callApi E act arguments auth).
Proof.
  intros Hn w. rewrite callApi_spec. eexists [_]. split; [reflexivity | simpl; lia].
Qed.

(** A computation that keeps every property of the request log sends
    nothing. *)
Lemma sends_nothing {A} (n : nat) (m : M A) :
  (forall base, preserves (extends (fun _ => false) base) m) -> sends_at_most n m.
Proof.
  intros H w. destruct (H (requests w) w (extends_refl _ w)) as [l [Hl Hf]].
  destruct l as [| q l']; [| discriminate Hf].
  exists []. split; [exact Hl | simpl; lia].
Qed.

Lemma setSearchResults_quiet (n : nat) (v : value) : sends_at_most n (setSearchResults v).
Proof. apply sends_nothing. intros base. apply extends_setSearchResults. Qed.

Lemma setChatId_quiet (n : nat) (c : value) : sends_at_most n (setChatId c).
Proof. apply sends_nothing. intros base. apply extends_setChatId. Qed.

Lemma setAuthToken_quiet (n : nat) (t p : value) : sends_at_most n (setAuthToken t p).
Proof. apply sends_nothing. intros base. apply extends_setAuthToken. Qed.

Lemma read_quiet (n : nat) (o : value) (k : string) : sends_at_most n (read o k).
Proof. apply sends_nothing. intros base. apply preserves_read. Qed.

Lemma parse_quiet (E : env) (n : nat) (sch : zobject) (args : value) :
  sends_at_most n (parse E sch args).
Proof. apply sends_nothing. intros base. apply preserves_parse. Qed.

Lemma find_item_quiet (n : nat) (id : value) (l : list value) :
  sends_at_most n (find_item id l).
Proof. apply sends_nothing. intros base. apply preserves_find_item. Qed.

Lemma getChatId_quiet (n : nat) : sends_at_most n getChatId.
Proof. apply sends_nothing. intros base. apply preserves_getChatId. Qed.

Lemma getAuthToken_quiet (n : nat) : sends_at_most n getAuthToken.
Proof. apply sends_nothing. intros base. apply preserves_getAuthToken. Qed.

Lemma validate_quiet (E : env) (n : nat) (id : value) :
  sends_at_most n (validate_against_search E id).
Proof.
  apply sends_nothing. intros base.
  apply (validate_against_search_frame E).
Qed.

Create HintDb quiet.
#[local] Hint Resolve sends_ret sends_throw setSearchResults_quiet setChatId_quiet
  setAuthToken_quiet read_quiet parse_quiet find_item_quiet getChatId_quiet
  getAuthToken_quiet validate_quiet : quiet.

(** One step of a count: a request is counted where [callApi] stands. *)
Ltac sends_step :=
  match goal with
  | |- sends_at_most _ (let _ := _ in _) => cbv zeta
  | |- sends_at_most (S ?n) (bind (Flipdish.callApi _ _ _ _) _) =>
      apply (sends_bind 1 n (S n)); [lia | apply sends_callApi; lia | intro]
  | |- sends_at_most _ (bind (match ?x with _ => _ end) _) => destruct x
  | |- sends_at_most ?n (bind _ _) =>
      first [ apply (sends_bind 0 n n); [lia | solve [auto with quiet] | intro]
            | match n with
              | S ?n' => apply (sends_bind 1 n' n); [lia | | intro]
              end ]
  | |- sends_at_most _ (Flipdish.callApi _ _ _ _) => apply sends_callApi; lia
  | |- sends_at_most _ (if ?b then _ else _) => destruct b
  | |- sends_at_most _ (match ?x with _ => _ end) => destruct x
  | |- sends_at_most _ _ => solve [auto with quiet]
  end.

Lemma ensureSession_sends (E : env) : sends_at_most 1 (ensureSession E).
Proof. unfold ensureSession, Flipdish.createSession. repeat sends_step. Qed.

Lemma dispatch_sends (E : env) (name : string) (chat token args : value) :
  sends_at_most 2 (dispatch E name chat token args).
Proof.
  unfold dispatch, search_menu, add_to_basket, view_basket, remove_from_basket,
    clear_basket, submit_order, send_otp, verify_otp,
    Flipdish.searchMenu, Flipdish.updateBasket, Flipdish.getBasket,
    Flipdish.clearBasket, Flipdish.submitOrder, Flipdish.sendOTP, Flipdish.verifyOTP.
  repeat sends_step.
Qed.

Lemma executeToolInternal_sends (E : env) (name : string) (args : value) :
  sends_at_most 3 (executeToolInternal E name args).
Proof.
  unfold executeToolInternal.
  apply (sends_bind 1 2 3); [lia | apply ensureSession_sends | intros chat].
  apply (sends_bind 0 2 2); [lia | apply getAuthToken_quiet | intros token].
  apply dispatch_sends.
Qed.

(** X1.  A tool call sends at most six requests to the backend, whatever the
    tool, the arguments and the replies: at most three in a run of the
    dispatch (one for the session and two of the tool), and at most one more
    run. *)
Theorem callTool_sends_at_most_six (E : env) (name : string) (arguments : value) :
  sends_at_most 6 (callTool E name arguments)
  /\ forall args, sends_at_most 3 (executeToolInternal E name args).
Proof.
  split; [| intros args; apply executeToolInternal_sends].
  unfold callTool.
  apply (sends_try_catch 6 0 6); [lia | | intros e; apply sends_ret].
  unfold executeTool.
  apply (sends_try_catch 3 3 6); [lia | apply executeToolInternal_sends | intros e].
  destruct (session_expired e); [| apply sends_throw].
  apply (sends_bind 0 3 3); [lia | apply setChatId_quiet | intros _].
  apply executeToolInternal_sends.
Qed.

(** The bound is reached: an addition whose basket read finds the session
    lost is run again, three requests each time. *)
Lemma callTool_sends_at_most_six_witness :
  map action (requests (snd (callTool (Scenario.env_of lapsing) "add_to_basket"
                               Scenario.four Scenario.fresh)))
  = ["createSession"; "updateBasket"; "getBasket";
     "createSession"; "updateBasket"; "getBasket"]
  /\ exists l,
       requests (snd (callTool (Scenario.env_of lapsing) "add_to_basket"
                        Scenario.four Scenario.fresh))
       = (requests Scenario.fresh ++ l)%list /\ (List.length l <= 6)%nat.
Proof.
  split; [reflexivity |].
  apply (proj1 (callTool_sends_at_most_six (Scenario.env_of lapsing) "add_to_basket"
                  Scenario.four)).
Defined.

(** *** What each tool may change *)

(** The frame rule of the dispatch with its side conditions by tool: only
    [search_menu] needs [P] to survive a new search cache, only [verify_otp]
    a sign-in, and the requests are those of the tool's own actions. *)
Section FrameTools.
Variable E : env.
Variable P : world -> Prop.
Variable allowed : string -> bool.
Variable name : string.
Hypothesis P_request :
  forall q w, allowed (action q) = true -> P w -> P (add_request q w).
Hypothesis P_search :
  name = "search_menu" -> forall v, preserves P (setSearchResults v).
Hypothesis P_auth :
  name = "verify_otp" ->
  forall t p, truthy t = true -> (exists s, p = VStr s) -> preserves P (setAuthToken t p).
Hypothesis allowed_actions : forallb allowed (actions_of name) = true.

Lemma verify_otp_frame_tools (chat args : value) :
  name = "verify_otp" -> preserves P (verify_otp E chat args).
Proof.
  intros Hn. unfold verify_otp, parse.
  destruct (safeParse verifyOtpSchema args) as [issues | p] eqn:Hp;
    [apply preserves_throw |].
  destruct (safeParse_phone _ _ Hp) as [s Hs].
  apply preserves_bind_ret. cbv zeta. rewrite Hs.
  apply preserves_bind; [| intros result].
  { apply (callApi_frame E P allowed P_request).
    pose proof allowed_actions as Ha. rewrite Hn in Ha. simpl in Ha.
    apply andb_true_iff in Ha. apply Ha. }
  apply preserves_bind; [apply preserves_read | intros success].
  destruct (negb (truthy success) || negb (truthy (prop result "token"))) eqn:Hc;
    [apply preserves_throw |].
  apply orb_false_iff in Hc. destruct Hc as [_ Ht]. apply negb_false_iff in Ht.
  apply preserves_bind; [| intros _; apply preserves_ret].
  apply (P_auth Hn); [exact Ht | eauto].
Qed.

Lemma dispatch_frame_tools (chat token args : value) :
  preserves P (dispatch E name chat token args).
Proof.
  pose proof allowed_actions as Ha. unfold dispatch. unfold actions_of in Ha.
  destruct (name =? "search_menu") eqn:Hsm.
  { apply String.eqb_eq in Hsm.
    apply (search_menu_frame E P allowed P_request (P_search Hsm)).
    simpl in Ha. apply andb_true_iff in Ha. apply Ha. }
  destruct (name =? "add_to_basket").
  { simpl in Ha. apply andb_true_iff in Ha. destruct Ha as [Hu Ha].
    apply andb_true_iff in Ha.
    apply (add_to_basket_frame E P allowed P_request); [exact Hu | apply Ha]. }
  destruct (name =? "view_basket").
  { simpl in Ha. apply andb_true_iff in Ha.
    apply (view_basket_frame E P allowed P_request). apply Ha. }
  destruct (name =? "remove_from_basket").
  { simpl in Ha. apply andb_true_iff in Ha. destruct Ha as [Hu Ha].
    apply andb_true_iff in Ha.
    apply (remove_from_basket_frame E P allowed P_request); [exact Hu | apply Ha]. }
  destruct (name =? "clear_basket").
  { simpl in Ha. apply andb_true_iff in Ha.
    apply (clear_basket_frame E P allowed P_request). apply Ha. }
  destruct (name =? "submit_order").
  { simpl in Ha. apply andb_true_iff in Ha.
    apply (submit_order_frame E P allowed P_request). apply Ha. }
  destruct (name =? "send_otp").
  { simpl in Ha. apply andb_true_iff in Ha.
    apply (send_otp_frame E P allowed P_request). apply Ha. }
  destruct (name =? "verify_otp") eqn:Hvo.
  { apply String.eqb_eq in Hvo. apply verify_otp_frame_tools. exact Hvo. }
  apply preserves_throw.
Qed.

End FrameTools.

(** No tool has the session request among its own actions. *)
Lemma actions_not_session (name : string) :
  forallb (fun a => negb (a =? "createSession")) (actions_of name) = true.
Proof. unfold actions_of. repeat destruct (name =? _); reflexivity. Qed.

Lemma actions_unrestricted (name : string) :
  forallb (fun _ : string => true) (actions_of name) = true.
Proof. apply forallb_forall. reflexivity. Qed.

Lemma actions_may_send (name : string) :
  forallb (may_send name) (actions_of name) = true.
Proof.
  apply forallb_forall. intros a Ha. unfold may_send. apply orb_true_iff. right.
  apply existsb_exists. exists a. split; [exact Ha | apply String.eqb_refl].
Qed.

Lemma callTool_frame_tools (E : env) (P : world -> Prop) (name : string)
    (arguments : value) :
  (forall q w, P w -> P (add_request q w)) ->
  (forall c, preserves P (setChatId c)) ->
  (name = "search_menu" -> forall v, preserves P (setSearchResults v)) ->
  (name = "verify_otp" ->
   forall t p, truthy t = true -> (exists s, p = VStr s) ->
               preserves P (setAuthToken t p)) ->
  preserves P (callTool E name arguments).
Proof.
  intros Hq Hc Hs Ha. apply (callTool_frame E P Hc). intros args.
  unfold executeToolInternal.
  apply preserves_bind; [| intros chat].
  { apply (ensureSession_frame E P (fun _ => true) (fun q w _ => Hq q w) Hc). reflexivity. }
  apply preserves_bind; [apply preserves_getAuthToken | intros token].
  apply (dispatch_frame_tools E P (fun _ => true) name (fun q w _ => Hq q w) Hs Ha).
  apply actions_unrestricted.
Qed.

(** X2.  Only [search_menu] writes the search cache and only [verify_otp]
    writes the token and the phone number: a call of any other tool, however
    it ends, leaves them as they were. *)
Theorem tools_keep_the_store (E : env) (name : string) (arguments : value) (w : world) :
  (name <> "search_menu" ->
   searchResults (state (snd (callTool E name arguments w))) = searchResults (state w))
  /\ (name <> "verify_otp" ->
      authToken (state (snd (callTool E name arguments w))) = authToken (state w)
      /\ phoneNumber (state (snd (callTool E name arguments w))) = phoneNumber (state w)).
Proof.
  split.
  - intros Hn.
    apply (callTool_frame_tools E
             (fun w' => searchResults (state w') = searchResults (state w))).
    + intros q w' H. exact H.
    + intros c w' H. rewrite setChatId_spec. exact H.
    + intros Heq. contradiction.
    + intros _ t p _ _ w' H. rewrite setAuthToken_spec. exact H.
    + reflexivity.
  - intros Hn.
    apply (callTool_frame_tools E
             (fun w' => authToken (state w') = authToken (state w)
                        /\ phoneNumber (state w') = phoneNumber (state w))).
    + intros q w' H. exact H.
    + intros c w' H. rewrite setChatId_spec. exact H.
    + intros _ v w' H. rewrite setSearchResults_spec. exact H.
    + intros Heq. contradiction.
    + split; reflexivity.
Qed.

(** A basket read after a search keeps the cache; a search keeps the
    sign-in. *)
Lemma tools_keep_the_store_witness :
  searchResults (state (snd (callTool (Scenario.env_of Scenario.shop) "view_basket" VUndef
                               Scenario.searched)))
  = searchResults (state Scenario.searched)
  /\ authToken (state (snd (callTool (Scenario.env_of Scenario.shop) "search_menu"
                              Scenario.pizza
                              (mkWorld Scenario.ordering Absent true []))))
     = VStr "token-1".
Proof.
  split.
  - apply (proj1 (tools_keep_the_store (Scenario.env_of Scenario.shop) "view_basket"
                    VUndef Scenario.searched)).
    discriminate.
  - apply (proj2 (tools_keep_the_store (Scenario.env_of Scenario.shop) "search_menu"
                    Scenario.pizza (mkWorld Scenario.ordering Absent true []))).
    discriminate.
Defined.

(** X3.  No tool call signs the user out: once a token is held, it is held
    after every call, whatever the tool and the replies. *)
Theorem tools_never_sign_out (E : env) (name : string) (arguments : value) (w : world) :
  isAuthenticated (state w) = true ->
  isAuthenticated (state (snd (callTool E name arguments w))) = true.
Proof.
  apply (callTool_frame_all E (fun w' => isAuthenticated (state w') = true)).
  - intros q w' H. exact H.
  - intros c w' H. rewrite setChatId_spec. exact H.
  - intros v w' H. rewrite setSearchResults_spec. exact H.
  - intros t p Ht _ w' _. rewrite setAuthToken_spec. exact Ht.
Qed.

Lemma tools_never_sign_out_witness :
  isAuthenticated
    (state (snd (callTool (Scenario.env_of Scenario.refusing) "verify_otp"
                   (VObj [("phoneNumber", VStr "+353861234567"); ("code", VStr "0000")])
                   (mkWorld Scenario.ordering Absent true []))))
  = true.
Proof.
  apply (tools_never_sign_out (Scenario.env_of Scenario.refusing) "verify_otp").
  reflexivity.
Defined.

(** *** The cache file follows the state *)

Lemma kept_setter (w0 w : world) (s : SessionState) :
  kept w0 w ->
  kept w0 (mkWorld s (saved (set_state s w)) (writable w) (requests w)).
Proof.
  intros [Hw H]. split; [exact Hw |]. right. unfold saved. simpl. rewrite Hw.
  destruct (writable w0); [reflexivity |].
  destruct H as [[_ Hf] | Hf]; exact Hf.
Qed.

Lemma callTool_kept (E : env) (name : string) (arguments : value) (w : world) :
  kept w (snd (callTool E name arguments w)).
Proof.
  apply (callTool_frame_all E (kept w)).
  - intros q w' H. exact H.
  - intros c w' H. rewrite setChatId_spec. apply kept_setter. exact H.
  - intros v w' H. rewrite setSearchResults_spec. apply kept_setter. exact H.
  - intros t p _ _ w' H. rewrite setAuthToken_spec. apply kept_setter. exact H.
  - split; [reflexivity | left; split; reflexivity].
Qed.

(** X4.  After a tool call, the cache file follows the state.  Whether the
    file can be written is not changed by the call.  When it cannot, the
    failed writes are swallowed and the file is as it was.  When it can,
    either the call changed neither the state nor the file, or the file holds
    JSON from which a start restores the session fields of the state the call
    left, as the snapshot keeps them. *)
Theorem cache_file_follows_state (E : env) (name : string) (arguments : value)
    (w : world) :
  writable (snd (callTool E name arguments w)) = writable w
  /\ (writable w = false ->
      cache_file (snd (callTool E name arguments w)) = cache_file w)
  /\ (writable w = true ->
      (state (snd (callTool E name arguments w)) = state w
       /\ cache_file (snd (callTool E name arguments w)) = cache_file w)
      \/ ((exists v, cache_file (snd (callTool E name arguments w)) = Holds (Json v))
          /\ startup (cache_file (snd (callTool E name arguments w)))
             = Returns (restored (state (snd (callTool E name arguments w)))))).
Proof.
  destruct (callTool_kept E name arguments w) as [Hw H].
  split; [exact Hw |]. split; intros Hc; rewrite Hc in H.
  - destruct H as [[_ Hf] | Hf]; exact Hf.
  - destruct H as [H | Hf]; [left; exact H | right].
    rewrite Hf. split; [eexists; reflexivity | apply startup_snapshot].
Qed.

(** A failed sign-in on a disk that cannot be written: the session id is in
    memory and the absent file stays absent. *)
Lemma cache_file_follows_state_witness :
  cache_file (snd (callTool (Scenario.env_of Scenario.refusing) "verify_otp"
                     (VObj [("phoneNumber", VStr "+353861234567"); ("code", VStr "0000")])
                     (boot Absent false)))
  = Absent.
Proof.
  apply (proj1 (proj2 (cache_file_follows_state (Scenario.env_of Scenario.refusing)
                         "verify_otp"
                         (VObj [("phoneNumber", VStr "+353861234567");
                                ("code", VStr "0000")])
                         (boot Absent false)))).
  reflexivity.
Defined.


(** *** The stored session *)

Lemma ensureSession_returns_stored (E : env) (w w1 : world) (chat : value) :
  ensureSession E w = (Returns chat, w1) -> chatId (state w1) = chat.
Proof.
  intros H. destruct (truthy (chatId (state w))) eqn:Ht.
  - rewrite (ensureSession_stored E w Ht) in H. injection H as <- <-. reflexivity.
  - rewrite (ensureSession_create E w Ht) in H. unfold bind in H.
    rewrite createSession_spec in H.
    destruct (Flipdish.settle _) as [result | e]; [| discriminate].
    destruct (read result "chatId" _) as [[c | e] w2]; [| discriminate].
    rewrite setChatId_spec in H. unfold ret in H. injection H as <- <-. reflexivity.
Qed.

Lemma executeToolInternal_stored (E : env) (name : string) (args : value) (w : world) :
  truthy (chatId (state w)) = true ->
  executeToolInternal E name args w
  = dispatch E name (chatId (state w)) (authToken (state w)) args w.
Proof.
  intros Hc. unfold executeToolInternal.
  rewrite (bind_returns _ _ _ _ _ (ensureSession_stored E w Hc)). reflexivity.
Qed.

(** X5.  A run that finds a session id in the store dispatches with that id
    without asking the backend for a session: none of its requests is a
    [createSession], and the stored id is left as it is.  And the id that
    [ensureSession] returns is the one in the store afterwards, so the next
    run reuses it. *)
Theorem stored_session_is_reused (E : env) (name : string) (args : value) :
  (forall w, truthy (chatId (state w)) = true ->
     executeToolInternal E name args w
     = dispatch E name (chatId (state w)) (authToken (state w)) args w
     /\ chatId (state (snd (executeToolInternal E name args w))) = chatId (state w)
     /\ extends (fun a => negb (a =? "createSession")) (requests w)
                (snd (executeToolInternal E name args w)))
  /\ (forall w chat w1, ensureSession E w = (Returns chat, w1) ->
        chatId (state w1) = chat
        /\ (truthy chat = true -> ensureSession E w1 = (Returns chat, w1))).
Proof.
  split.
  - intros w Hc. split; [apply executeToolInternal_stored; exact Hc |].
    rewrite (executeToolInternal_stored E name args w Hc).
    apply (dispatch_frame_tools E
             (fun w' => chatId (state w') = chatId (state w)
                        /\ extends (fun a => negb (a =? "createSession")) (requests w) w')
             (fun a => negb (a =? "createSession")) name).
    + intros q w' Ha [H1 H2]. split; [exact H1 |].
      apply (extends_request (fun a => negb (a =? "createSession"))); assumption.
    + intros _ v w' [H1 H2]. rewrite setSearchResults_spec. split; assumption.
    + intros _ t p _ _ w' [H1 H2]. rewrite setAuthToken_spec. split; assumption.
    + apply actions_not_session.
    + split; [reflexivity | apply extends_refl].
  - intros w chat w1 H. pose proof (ensureSession_returns_stored E w w1 chat H) as Hs.
    split; [exact Hs |]. intros Ht. rewrite <- Hs in Ht.
    rewrite (ensureSession_stored E w1 Ht), Hs. reflexivity.
Qed.

(** A basket read in a stored session sends one request, the read; and the
    session a fresh process creates is the one its next run finds. *)
Lemma stored_session_is_reused_witness :
  requests (snd (executeToolInternal (Scenario.env_of Scenario.shop) "view_basket"
                   (VObj []) Scenario.searched))
  = (requests Scenario.searched
     ++ [Flipdish.request_of (Scenario.env_of Scenario.shop) "getBasket"
           [VStr "chat-1"] VUndef])%list
  /\ extends (fun a => negb (a =? "createSession")) (requests Scenario.searched)
             (snd (executeToolInternal (Scenario.env_of Scenario.shop) "view_basket"
                     (VObj []) Scenario.searched))
  /\ ensureSession (Scenario.env_of Scenario.shop)
       (snd (ensureSession (Scenario.env_of Scenario.shop) Scenario.fresh))
     = (Returns (VStr "chat-1"),
        snd (ensureSession (Scenario.env_of Scenario.shop) Scenario.fresh)).
Proof.
  split; [reflexivity |]. split.
  - apply (proj1 (stored_session_is_reused (Scenario.env_of Scenario.shop) "view_basket"
                    (VObj [])) Scenario.searched).
    reflexivity.
  - apply (proj2 (stored_session_is_reused (Scenario.env_of Scenario.shop) "view_basket"
                    (VObj [])) Scenario.fresh (VStr "chat-1")
                 (snd (ensureSession (Scenario.env_of Scenario.shop) Scenario.fresh))).
    + reflexivity.
    + reflexivity.
Defined.

(** *** The search cache *)

Lemma search_menu_cache (E : env) (chat token args : value) (w : world) :
  match search_menu E chat token args w with
  | (Returns r, w') =>
      prop r "isError" = VUndef
      /\ searchResults (state w') = prop (prop r "structuredContent") "items"
  | (Throws _, w') => state w' = state w
  end.
Proof.
  unfold search_menu, parse.
  destruct (safeParse searchMenuSchema args) as [issues | p]; [reflexivity |].
  unfold bind at 1, ret at 1. unfold bind at 1.
  unfold Flipdish.searchMenu. unfold bind at 1. rewrite callApi_spec.
  destruct (Flipdish.settle _) as [result | e]; [| reflexivity].
  assert (Hset : forall items w0,
            state w0 = state w ->
            match (setSearchResults items ;;
                   ret (VObj [("content",
                               text_content (VStr ("Found " ++ ToString (prop items "length")
                                                   ++ " menu items")));
                              ("structuredContent", VObj [("items", items)]);
                              ("_meta",
                               VObj [("openai/outputTemplate", VStr WIDGET_URI);
                                     ("openai/toolInvocation/invoking",
                                      VStr "Searching menu...");
                                     ("openai/toolInvocation/invoked",
                                      VStr ("Found " ++ ToString (prop items "length")
                                            ++ " items"))])])) w0 with
            | (Returns r, w') =>
                prop r "isError" = VUndef
                /\ searchResults (state w') = prop (prop r "structuredContent") "items"
            | (Throws _, w') => state w' = state w
            end).
  { intros items w0 _. unfold bind. rewrite setSearchResults_spec. unfold ret.
    split; reflexivity. }
  destruct result; try (apply Hset; reflexivity);
    try (unfold bind at 1; simpl read; unfold throw; reflexivity);
    unfold bind at 1; simpl read; unfold ret at 1; unfold bind at 1; unfold ret at 1;
    apply Hset; reflexivity.
Qed.

Lemma executeToolInternal_search_cache (E : env) (args : value) (w : world) :
  cache_after_search w (executeToolInternal E "search_menu" args w).
Proof.
  unfold executeToolInternal, bind at 1.
  pose proof (ensureSession_rest E w) as [_ [_ Hr]].
  destruct (ensureSession E w) as [[chat | e] w1]; simpl in Hr; [| exact Hr].
  unfold bind, getAuthToken.
  change (dispatch E "search_menu" chat (authToken (state w1)) args)
    with (search_menu E chat (authToken (state w1)) args).
  pose proof (search_menu_cache E chat (authToken (state w1)) args w1) as H.
  destruct (search_menu E chat (authToken (state w1)) args w1) as [[r | e] w2]; simpl.
  - exact H.
  - rewrite H. exact Hr.
Qed.

Lemma cache_after_search_from (w0 w : world) (x : outcome value * world) :
  searchResults (state w) = searchResults (state w0) ->
  cache_after_search w x -> cache_after_search w0 x.
Proof.
  intros H. destruct x as [[r | e] w']; simpl; [tauto |]. intros ->. exact H.
Qed.

Lemma executeTool_search_cache (E : env) (args : value) (w : world) :
  cache_after_search w (executeTool E "search_menu" args w).
Proof.
  rewrite executeTool_unfold.
  pose proof (executeToolInternal_search_cache E args w) as H1.
  destruct (executeToolInternal E "search_menu" args w) as [[r | e] w1]; [exact H1 |].
  destruct (str_includes (message e) SESSION_MARKER); [| exact H1].
  simpl in H1.
  apply (cache_after_search_from w (snd (setChatId (VStr "") w1))).
  - rewrite setChatId_spec. exact H1.
  - apply executeToolInternal_search_cache.
Qed.

Lemma callTool_search_cache (E : env) (arguments : value) (w : world) :
  exists r,
    fst (callTool E "search_menu" arguments w) = Returns r
    /\ ((prop r "isError" = VUndef
         /\ searchResults (state (snd (callTool E "search_menu" arguments w)))
            = prop (prop r "structuredContent") "items")
        \/ (r = error_result
                  match fst (executeTool E "search_menu"
                               (if nullish arguments then VObj [] else arguments) w) with
                  | Throws e => e
                  | Returns _ => Error ""
                  end
            /\ searchResults (state (snd (callTool E "search_menu" arguments w)))
               = searchResults (state w))).
Proof.
  unfold callTool, try_catch.
  pose proof (executeTool_search_cache E
                (if nullish arguments then VObj [] else arguments) w) as H.
  destruct (executeTool E "search_menu" _ w) as [[r | e] w1]; simpl in H.
  - exists r. split; [reflexivity |]. left. exact H.
  - exists (error_result e). split; [reflexivity |]. right. split; [reflexivity | exact H].
Qed.

(** X6.  A search fills the cache with the items it returns, and a search
    that fails leaves the cache as it was: the result of a [search_menu] call
    either is no error and its [structuredContent.items] is the new cache, or
    has [isError] set and the cache is the old one. *)
Theorem search_fills_the_cache (E : env) (arguments : value) (w : world) :
  exists r,
    fst (callTool E "search_menu" arguments w) = Returns r
    /\ ((prop r "isError" = VUndef
         /\ searchResults (state (snd (callTool E "search_menu" arguments w)))
            = prop (prop r "structuredContent") "items")
        \/ (prop r "isError" = VBool true
            /\ searchResults (state (snd (callTool E "search_menu" arguments w)))
               = searchResults (state w))).
Proof.
  destruct (callTool_search_cache E arguments w) as [r [Hr [H | [He H]]]];
    exists r; (split; [exact Hr |]).
  - left. exact H.
  - right. split; [rewrite He; reflexivity | exact H].
Qed.

(** *** Which tool talks to which part of the backend *)

(** X7.  Every request of a tool call is the session request or one of the
    tool's own actions: a search only searches, a basket read only reads, the
    two basket updates update and read, and so on; a call with an unknown
    name asks for nothing but a session. *)
Theorem tools_send_their_own_requests (E : env) (name : string) (arguments : value)
    (w : world) :
  extends (may_send name) (requests w) (snd (callTool E name arguments w)).
Proof.
  apply (callTool_frame E (extends (may_send name) (requests w))
           (extends_setChatId _ _)); [| apply extends_refl].
  intros args. unfold executeToolInternal.
  apply preserves_bind; [| intros chat].
  { apply (ensureSession_frame E _ (may_send name) (extends_request _ _)
             (extends_setChatId _ _)).
    reflexivity. }
  apply preserves_bind; [apply preserves_getAuthToken | intros token].
  apply (dispatch_frame_tools E _ (may_send name) name (extends_request _ _)
           (fun _ => extends_setSearchResults _ _)
           (fun _ t p _ _ => extends_setAuthToken _ _ t p)
           (actions_may_send name)).
Qed.

(** *** An id of the cache is accepted *)

Lemma validate_accepts (E : env) (id : value) (l ids : list value) (w : world) :
  searchResults (state w) = VArr l -> item_ids l = Some ids ->
  existsb (strict_eq id) ids = true ->
  validate_against_search E id w = (Returns tt, w).
Proof.
  intros Hs Hi Hx. unfold validate_against_search.
  unfold bind at 1, getSearchResults. rewrite Hs.
  unfold bind at 1. simpl read. unfold ret at 1.
  assert (Hg : gt0 E (VNum (Z.of_nat (List.length l))) = true).
  { destruct l; [| reflexivity]. simpl in Hi. injection Hi as <-. discriminate. }
  cbn [prop String.eqb Ascii.eqb Bool.eqb]. rewrite Hg.
  rewrite (bind_returns _ _ _ _ _ (map_read_ids _ _ _ Hi)). rewrite Hx. reflexivity.
Qed.

Lemma add_to_basket_sends (E : env) (chat token args p : value) (w : world) :
  safeParse addToBasketSchema args = inr p ->
  validate_against_search E (prop p "menuItemId") w = (Returns tt, w) ->
  exists l, requests (snd (add_to_basket E chat token args w))
            = (requests w ++ addition_request E chat token p :: l)%list.
Proof.
  intros Hp Hv. unfold add_to_basket.
  rewrite (bind_returns _ _ _ _ _ (parse_ok E _ _ _ _ Hp)). cbv zeta.
  rewrite (bind_returns _ _ _ _ _ Hv).
  apply bind_extends.
  - intros w0. reflexivity.
  - intros _. apply preserves_extends. intros base. unfold Flipdish.getBasket. frame.
Qed.

Lemma executeTool_sends_first (E : env) (name : string) (args : value) (w : world)
    (q : request) :
  (exists l, requests (snd (executeToolInternal E name args w))
             = (requests w ++ q :: l)%list) ->
  exists l, requests (snd (executeTool E name args w)) = (requests w ++ q :: l)%list.
Proof.
  intros [l Hl]. rewrite executeTool_unfold.
  destruct (executeToolInternal E name args w) as [[r | e] w1]; simpl in Hl.
  - exists l. exact Hl.
  - destruct (str_includes (message e) SESSION_MARKER); [| exists l; exact Hl].
    destruct (executeToolInternal_sends E name args (snd (setChatId (VStr "") w1)))
      as [l' [Hl' _]].
    exists (l ++ l')%list. rewrite Hl', requests_setChatId, Hl.
    rewrite <- app_assoc. reflexivity.
Qed.

Lemma callTool_world (E : env) (name : string) (arguments : value) (w : world) :
  snd (callTool E name arguments w)
  = snd (executeTool E name (if nullish arguments then VObj [] else arguments) w).
Proof.
  unfold callTool, try_catch.
  destruct (executeTool E name _ w) as [[r | e] w1]; reflexivity.
Qed.

Lemma callTool_forwards_addition (E : env) (arguments p : value) (l ids : list value)
    (w : world) :
  truthy (chatId (state w)) = true ->
  safeParse addToBasketSchema arguments = inr p ->
  searchResults (state w) = VArr l ->
  item_ids l = Some ids ->
  existsb (strict_eq (prop p "menuItemId")) ids = true ->
  exists rest,
    requests (snd (callTool E "add_to_basket" arguments w))
    = (requests w
       ++ addition_request E (chatId (state w)) (authToken (state w)) p :: rest)%list.
Proof.
  intros Hc Hp Hs Hi Hx.
  pose proof (validate_accepts E _ l ids w Hs Hi Hx) as Hv.
  rewrite callTool_world.
  assert (Hn : nullish arguments = false).
  { destruct arguments; try reflexivity; discriminate. }
  rewrite Hn. apply executeTool_sends_first.
  rewrite (executeToolInternal_stored E _ _ w Hc).
  change (dispatch E "add_to_basket" ?c ?t ?a) with (add_to_basket E c t a).
  apply add_to_basket_sends; assumption.
Qed.

(** X8.  In a stored session, an [add_to_basket] call whose arguments pass the
    schema and whose [menuItemId] is the id of a cached item passes the
    membership test: the first request of the call is the basket update that
    adds the item, with the quantity given (1 when none is given). *)
Theorem add_to_basket_accepts_cached_id (E : env) (arguments p : value)
    (l ids : list value) (w : world) :
  truthy (chatId (state w)) = true ->
  safeParse addToBasketSchema arguments = inr p ->
  searchResults (state w) = VArr l ->
  item_ids l = Some ids ->
  existsb (strict_eq (prop p "menuItemId")) ids = true ->
  validate_against_search E (prop p "menuItemId") w = (Returns tt, w)
  /\ exists rest,
       requests (snd (callTool E "add_to_basket" arguments w))
       = (requests w
          ++ addition_request E (chatId (state w)) (authToken (state w)) p :: rest)%list.
Proof.
  intros Hc Hp Hs Hi Hx. split.
  - apply (validate_accepts E _ l ids w Hs Hi Hx).
  - apply (callTool_forwards_addition E arguments p l ids w); assumption.
Qed.

(** Two Funghi, item 2 of the cache, are added. *)
Lemma add_to_basket_accepts_cached_id_witness :
  exists rest,
    requests (snd (callTool (Scenario.env_of Scenario.shop) "add_to_basket"
                     (VObj [("menuItemId", VNum 2); ("quantity", VNum 2)])
                     Scenario.searched))
    = (requests Scenario.searched
       ++ Flipdish.request_of (Scenario.env_of Scenario.shop) "updateBasket"
            [VStr "chat-1";
             VObj [("addMenuItems",
                    VArr [VObj [("menuItemId", VNum 2); ("quantity", VNum 2);
                                ("menuItemOptionSetItems", VUndef)]])]]
            VUndef
       :: rest)%list.
Proof.
  apply (proj2 (add_to_basket_accepts_cached_id (Scenario.env_of Scenario.shop)
                  (VObj [("menuItemId", VNum 2); ("quantity", VNum 2)])
                  (VObj [("menuItemId", VNum 2); ("quantity", VNum 2);
                         ("menuItemOptionSetItems", VUndef)])
                  [Scenario.item 1 "Margherita"; Scenario.item 2 "Funghi";
                   Scenario.item 3 "Diavola"]
                  [VNum 1; VNum 2; VNum 3] Scenario.searched
                  eq_refl eq_refl eq_refl eq_refl eq_refl)).
Defined.

(** *** What a tool returns *)

Lemma yields_ret {A} (Q : A -> Prop) (a : A) : Q a -> yields Q (ret a).
Proof. intros H w a' Ha. injection Ha as <-. exact H. Qed.

Lemma yields_throw {A} (Q : A -> Prop) (e : exn) : yields Q (@throw A e).
Proof. intros w a Ha. discriminate. Qed.

Lemma yields_bind {A B} (Q : B -> Prop) (m : M A) (k : A -> M B) :
  (forall a, yields Q (k a)) -> yields Q (bind m k).
Proof.
  intros Hk w b. unfold bind. destruct (m w) as [[a | e] w'].
  - apply Hk.
  - discriminate.
Qed.

Lemma yields_try_catch {A} (Q : A -> Prop) (m : M A) (h : exn -> M A) :
  yields Q m -> (forall e, yields Q (h e)) -> yields Q (try_catch m h).
Proof.
  intros Hm Hh w a. unfold try_catch. specialize (Hm w).
  destruct (m w) as [[a' | e] w'].
  - exact (Hm a).
  - apply Hh.
Qed.

Ltac yields_step :=
  match goal with
  | |- yields _ (let _ := _ in _) => cbv zeta
  | |- yields _ (bind _ _) => apply yields_bind; intro
  | |- yields _ (if ?b then _ else _) => destruct b
  | |- yields _ (match ?x with _ => _ end) => destruct x
  | |- yields _ (throw _) => apply yields_throw
  | |- yields _ (ret _) => apply yields_ret
  end.

(** A result of the executor: one block of text, no error flag, and the
    directive the registry has for the tool. *)
Lemma dispatch_yields (E : env) (name : string) (chat token args : value) :
  yields (fun r => one_text_block r /\ prop r "isError" = VUndef /\ template_agrees name r)
         (dispatch E name chat token args).
Proof.
  unfold dispatch.
  repeat match goal with
         | |- yields _ (if name =? ?s then _ else _) =>
             let H := fresh "H" in
             destruct (name =? s) eqn:H; [apply String.eqb_eq in H; subst name |]
         end;
    [unfold search_menu | unfold add_to_basket | unfold view_basket
     | unfold remove_from_basket | unfold clear_basket | unfold submit_order
     | unfold send_otp | unfold verify_otp | ];
    repeat yields_step;
    (split; [eexists; reflexivity | split; [reflexivity |]]);
    unfold template_agrees;
    first [left; reflexivity | right; left; reflexivity
           | right; right; split; reflexivity].
Qed.

Lemma executeToolInternal_yields (E : env) (name : string) (args : value) :
  yields (fun r => one_text_block r /\ prop r "isError" = VUndef /\ template_agrees name r)
         (executeToolInternal E name args).
Proof.
  unfold executeToolInternal. do 2 (apply yields_bind; intro). apply dispatch_yields.
Qed.

Lemma executeTool_yields (E : env) (name : string) (args : value) :
  yields (fun r => one_text_block r /\ prop r "isError" = VUndef /\ template_agrees name r)
         (executeTool E name args).
Proof.
  unfold executeTool. apply yields_try_catch; [apply executeToolInternal_yields |].
  intros e. destruct (session_expired e); [| apply yields_throw].
  apply yields_bind. intros _. apply executeToolInternal_yields.
Qed.

(** X9.  Every result of a tool call carries one block of text, and its
    [isError] flag tells how the executor ended: it is set when the executor
    threw, and absent (not false) when it returned. *)
Theorem results_are_well_formed (E : env) (name : string) (arguments : value) (w : world) :
  exists r,
    fst (callTool E name arguments w) = Returns r
    /\ one_text_block r
    /\ match fst (executeTool E name (if nullish arguments then VObj [] else arguments) w)
       with
       | Returns r' => r = r' /\ prop r "isError" = VUndef
       | Throws _ => prop r "isError" = VBool true
       end.
Proof.
  unfold callTool, try_catch.
  pose proof (executeTool_yields E name (if nullish arguments then VObj [] else arguments) w)
    as H.
  destruct (executeTool E name _ w) as [[r | e] w1]; simpl in *.
  - destruct (H r eq_refl) as [Hb [He _]]. exists r. repeat split; assumption.
  - exists (error_result e). repeat split. eexists. reflexivity.
Qed.

(** *** The registry, the resources and the results agree *)

Lemma registered_cases (name : string) (Q : value -> Prop) :
  Q VUndef -> (forall t, In t Registry.tools -> Q t) -> Q (registered name).
Proof.
  intros Hu Ht. unfold registered.
  destruct (find _ Registry.tools) as [t |] eqn:Hf; [| exact Hu].
  apply find_some in Hf. apply Ht, Hf.
Qed.

Lemma registered_templates_served (A : Registry.assets) (name u : string) :
  template (registered name) = VStr u ->
  exists page, Registry.readResource A u = Returns page.
Proof.
  apply (registered_cases name
           (fun t => template t = VStr u ->
                     exists page, Registry.readResource A u = Returns page)).
  - discriminate.
  - intros t Hin. unfold Registry.tools in Hin. simpl in Hin.
    repeat (destruct Hin as [<- | Hin];
            [intros H; compute in H; try discriminate H; injection H as <-;
             eexists; reflexivity |]).
    contradiction.
Qed.

Lemma registered_template_among (name : string) :
  template_among [WIDGET_URI; LOGIN_WIDGET_URI; BASKET_WIDGET_URI] (registered name) = true.
Proof.
  apply (registered_cases name
           (fun t => template_among [WIDGET_URI; LOGIN_WIDGET_URI; BASKET_WIDGET_URI] t
                     = true)).
  - reflexivity.
  - intros t Hin. unfold Registry.tools in Hin. simpl in Hin.
    repeat (destruct Hin as [<- | Hin]; [reflexivity |]).
    contradiction.
Qed.

(** X10.  The UI directive of a result agrees with the registry and with the
    resources: a result names no output template, or the one the registry
    advertises for the tool, or (the prompt of [submit_order]) the login
    widget; and every template a result names is a resource that
    [readResource] serves. *)
Theorem result_templates_are_served (E : env) (A : Registry.assets) (name : string)
    (arguments : value) (w : world) :
  exists r,
    fst (callTool E name arguments w) = Returns r
    /\ template_agrees name r
    /\ template_among [WIDGET_URI; LOGIN_WIDGET_URI; BASKET_WIDGET_URI] r = true
    /\ forall u, template r = VStr u ->
                 exists page, Registry.readResource A u = Returns page.
Proof.
  assert (Hserved : forall r, template_agrees name r ->
            template_among [WIDGET_URI; LOGIN_WIDGET_URI; BASKET_WIDGET_URI] r = true
            /\ forall u, template r = VStr u ->
                         exists page, Registry.readResource A u = Returns page).
  { intros r [H | [H | [_ H]]].
    - unfold template_among. rewrite H. split; [reflexivity | discriminate].
    - split.
      + unfold template_among. rewrite H. apply registered_template_among.
      + intros u Hu. rewrite H in Hu. apply (registered_templates_served A name u Hu).
    - split.
      + unfold template_among. rewrite H. reflexivity.
      + intros u Hu. rewrite H in Hu. injection Hu as <-. eexists. reflexivity. }
  unfold callTool, try_catch.
  pose proof (executeTool_yields E name (if nullish arguments then VObj [] else arguments) w)
    as H.
  destruct (executeTool E name _ w) as [[r | e] w1]; simpl in *.
  - destruct (H r eq_refl) as [_ [_ Ht]]. exists r.
    split; [reflexivity |]. split; [exact Ht |]. apply Hserved. exact Ht.
  - exists (error_result e). split; [reflexivity |].
    assert (Ht : template_agrees name (error_result e)) by (left; reflexivity).
    split; [exact Ht |]. apply Hserved. exact Ht.
Qed.

(** X11.  [readResource] serves the listed resources and nothing else: for
    the URI of a listed resource it returns one content entry that echoes the
    URI and carries the MIME type and the metadata of the listing; for any
    other URI it throws "Unknown resource: " followed by the URI. *)
Theorem resources_are_served (A : Registry.assets) (uri : string) :
  (In (VStr uri) listed_uris ->
   exists html res,
     Registry.readResource A uri
     = Returns (Registry.served uri html (prop res "_meta"))
     /\ In res Registry.resources
     /\ prop res "uri" = VStr uri
     /\ prop res "mimeType" = VStr "text/html+skybridge")
  /\ (~ In (VStr uri) listed_uris ->
      Registry.readResource A uri = Throws (Error ("Unknown resource: " ++ uri))).
Proof.
  split.
  - intros [H | [H | [H | []]]]; injection H as <-.
    + exists (Registry.MENU_CAROUSEL_HTML A), (nth 0 Registry.resources VUndef).
      split; [reflexivity |]. split; [left; reflexivity | split; reflexivity].
    + exists (Registry.LOGIN_HTML A), (nth 1 Registry.resources VUndef).
      split; [reflexivity |]. split; [right; left; reflexivity | split; reflexivity].
    + exists (Registry.BASKET_HTML A), (nth 2 Registry.resources VUndef).
      split; [reflexivity |].
      split; [right; right; left; reflexivity | split; reflexivity].
  - intros H. unfold Registry.readResource.
    destruct (uri =? WIDGET_URI) eqn:H1.
    { apply String.eqb_eq in H1. subst. exfalso. apply H. left. reflexivity. }
    destruct (uri =? LOGIN_WIDGET_URI) eqn:H2.
    { apply String.eqb_eq in H2. subst. exfalso. apply H. right. left. reflexivity. }
    destruct (uri =? BASKET_WIDGET_URI) eqn:H3.
    { apply String.eqb_eq in H3. subst. exfalso. apply H. right. right. left. reflexivity. }
    reflexivity.
Qed.

Lemma resources_are_served_witness :
  (exists html res,
     Registry.readResource pages "ui://widgets/basket"
     = Returns (Registry.served "ui://widgets/basket" html (prop res "_meta"))
     /\ In res Registry.resources
     /\ prop res "uri" = VStr "ui://widgets/basket"
     /\ prop res "mimeType" = VStr "text/html+skybridge")
  /\ Registry.readResource pages "ui://widgets/checkout"
     = Throws (Error "Unknown resource: ui://widgets/checkout").
Proof.
  split.
  - apply (proj1 (resources_are_served pages "ui://widgets/basket")).
    right. right. left. reflexivity.
  - apply (proj2 (resources_are_served pages "ui://widgets/checkout")).
    intros [H | [H | [H | []]]]; discriminate.
Defined.

(** *** The cache file is only written *)

Lemma oblivious_ret {A} (a : A) : oblivious (ret a).
Proof. intros w w' R. split; [reflexivity | exact R]. Qed.

Lemma oblivious_throw {A} (e : exn) : oblivious (@throw A e).
Proof. intros w w' R. split; [reflexivity | exact R]. Qed.

Lemma oblivious_bind {A B} (m : M A) (k : A -> M B) :
  oblivious m -> (forall a, oblivious (k a)) -> oblivious (bind m k).
Proof.
  intros Hm Hk w w' R. unfold bind. destruct (Hm w w' R) as [Ho Hw].
  destruct (m w) as [[a | e] w1]; destruct (m w') as [[a' | e'] w1'];
    simpl in Ho, Hw; try discriminate.
  - injection Ho as <-. apply Hk. exact Hw.
  - injection Ho as <-. split; [reflexivity | exact Hw].
Qed.

Lemma oblivious_try_catch {A} (m : M A) (h : exn -> M A) :
  oblivious m -> (forall e, oblivious (h e)) -> oblivious (try_catch m h).
Proof.
  intros Hm Hh w w' R. unfold try_catch. destruct (Hm w w' R) as [Ho Hw].
  destruct (m w) as [[a | e] w1]; destruct (m w') as [[a' | e'] w1'];
    simpl in Ho, Hw; try discriminate.
  - split; [exact Ho | exact Hw].
  - injection Ho as <-. apply Hh. exact Hw.
Qed.

Lemma oblivious_read (o : value) (k : string) : oblivious (read o k).
Proof. intros w w' R. destruct o; (split; [reflexivity | exact R]). Qed.

Lemma oblivious_parse (E : env) (sch : zobject) (args : value) :
  oblivious (parse E sch args).
Proof.
  intros w w' R. unfold parse.
  destruct (safeParse sch args); (split; [reflexivity | exact R]).
Qed.

Lemma oblivious_getChatId : oblivious getChatId.
Proof.
  intros w w' R. split; [| exact R]. destruct R as [Hs _]. simpl. rewrite Hs.
  reflexivity.
Qed.

Lemma oblivious_getAuthToken : oblivious getAuthToken.
Proof.
  intros w w' R. split; [| exact R]. destruct R as [Hs _]. simpl. rewrite Hs.
  reflexivity.
Qed.

Lemma oblivious_getSearchResults : oblivious getSearchResults.
Proof.
  intros w w' R. split; [| exact R]. destruct R as [Hs _]. simpl. rewrite Hs.
  reflexivity.
Qed.

Lemma oblivious_setChatId (c : value) : oblivious (setChatId c).
Proof.
  intros w w' [Hs Hq]. rewrite !setChatId_spec.
  split; [reflexivity | split; simpl; [rewrite Hs; reflexivity | exact Hq]].
Qed.

Lemma oblivious_setSearchResults (v : value) : oblivious (setSearchResults v).
Proof.
  intros w w' [Hs Hq]. rewrite !setSearchResults_spec.
  split; [reflexivity | split; simpl; [rewrite Hs; reflexivity | exact Hq]].
Qed.

Lemma oblivious_setAuthToken (t p : value) : oblivious (setAuthToken t p).
Proof.
  intros w w' [Hs Hq]. rewrite !setAuthToken_spec.
  split; [reflexivity | split; simpl; [rewrite Hs; reflexivity | exact Hq]].
Qed.

Lemma oblivious_callApi (E : env) (act : string) (arguments : list value) (auth : value) :
  oblivious (Flipdish.callApi E act arguments auth).
Proof.
  intros w w' [Hs Hq]. rewrite !callApi_spec. simpl. rewrite Hq.
  split; [reflexivity | split; simpl; [exact Hs | rewrite Hq; reflexivity]].
Qed.

Lemma oblivious_map_read (k : string) (l : list value) : oblivious (map_read k l).
Proof.
  induction l as [| item r IH]; simpl; [apply oblivious_ret |].
  apply oblivious_bind; [apply oblivious_read | intros v].
  apply oblivious_bind; [exact IH | intros vs]. apply oblivious_ret.
Qed.

Lemma oblivious_find_item (id : value) (l : list value) : oblivious (find_item id l).
Proof.
  induction l as [| item r IH]; simpl; [apply oblivious_ret |].
  apply oblivious_bind; [apply oblivious_read | intros v].
  destruct (strict_eq v id); [apply oblivious_ret | exact IH].
Qed.

Create HintDb oblivious.
#[local] Hint Resolve oblivious_ret oblivious_throw oblivious_read oblivious_parse
  oblivious_getChatId oblivious_getAuthToken oblivious_getSearchResults
  oblivious_setChatId oblivious_setSearchResults oblivious_setAuthToken
  oblivious_callApi oblivious_map_read oblivious_find_item : oblivious.

Ltac oblivious_step :=
  match goal with
  | |- oblivious (let _ := _ in _) => cbv zeta
  | |- oblivious (bind _ _) => apply oblivious_bind; [| intro]
  | |- oblivious (try_catch _ _) => apply oblivious_try_catch; [| intro]
  | |- oblivious (if ?b then _ else _) => destruct b
  | |- oblivious (match ?x with _ => _ end) => destruct x
  | |- oblivious _ => solve [auto with oblivious]
  end.

Lemma oblivious_ensureSession (E : env) : oblivious (ensureSession E).
Proof. unfold ensureSession, Flipdish.createSession. repeat oblivious_step. Qed.

Lemma oblivious_dispatch (E : env) (name : string) (chat token args : value) :
  oblivious (dispatch E name chat token args).
Proof.
  unfold dispatch, search_menu, add_to_basket, view_basket, remove_from_basket,
    clear_basket, submit_order, send_otp, verify_otp, validate_against_search,
    Flipdish.searchMenu, Flipdish.updateBasket, Flipdish.getBasket,
    Flipdish.clearBasket, Flipdish.submitOrder, Flipdish.sendOTP, Flipdish.verifyOTP.
  repeat oblivious_step.
Qed.

Lemma oblivious_executeToolInternal (E : env) (name : string) (args : value) :
  oblivious (executeToolInternal E name args).
Proof.
  unfold executeToolInternal.
  apply oblivious_bind; [apply oblivious_ensureSession | intros chat].
  apply oblivious_bind; [apply oblivious_getAuthToken | intros token].
  apply oblivious_dispatch.
Qed.

Lemma oblivious_callTool (E : env) (name : string) (arguments : value) :
  oblivious (callTool E name arguments).
Proof.
  unfold callTool, executeTool.
  apply oblivious_try_catch; [| intros e; apply oblivious_ret].
  apply oblivious_try_catch; [apply oblivious_executeToolInternal | intros e].
  destruct (session_expired e); [| apply oblivious_throw].
  apply oblivious_bind; [apply oblivious_setChatId | intros _].
  apply oblivious_executeToolInternal.
Qed.

(** X12.  After the start the cache file is only written, never read: a tool
    call ends the same way, leaves the same state and sends the same requests
    whatever the file holds and whether or not it can be written, so a disk
    that fails changes no result. *)
Theorem cache_file_is_write_only (E : env) (name : string) (arguments : value)
    (w w' : world) :
  state w = state w' -> requests w = requests w' ->
  fst (callTool E name arguments w) = fst (callTool E name arguments w')
  /\ state (snd (callTool E name arguments w)) = state (snd (callTool E name arguments w'))
  /\ requests (snd (callTool E name arguments w))
     = requests (snd (callTool E name arguments w')).
Proof.
  intros Hs Hq.
  destruct (oblivious_callTool E name arguments w w' (conj Hs Hq)) as [Ho [Hs' Hq']].
  repeat split; assumption.
Qed.

(** A search with a file that cannot be written, and holds no JSON, gives
    what it gives with no file at all. *)
Lemma cache_file_is_write_only_witness :
  fst (callTool (Scenario.env_of Scenario.shop) "search_menu" Scenario.pizza
         Scenario.fresh)
  = fst (callTool (Scenario.env_of Scenario.shop) "search_menu" Scenario.pizza
           (mkWorld default_state
                    (Holds (Malformed (mkExn "SyntaxError" "Unexpected end of JSON input")))
                    false [])).
Proof.
  apply (cache_file_is_write_only (Scenario.env_of Scenario.shop) "search_menu"
           Scenario.pizza Scenario.fresh
           (mkWorld default_state
                    (Holds (Malformed (mkExn "SyntaxError" "Unexpected end of JSON input")))
                    false [])).
  - reflexivity.
  - reflexivity.
Defined.

(** *** Restarts *)

Lemma is_json_restored (x d : value) : is_json d = true -> is_json (restored_field x d) = true.
Proof.
  intros Hd. induction x using value_nested_ind; simpl; try reflexivity; try exact Hd.
  - induction H as [| x r Hx _ IH]; [reflexivity |].
    apply andb_true_iff. split; [| exact IH].
    destruct x; try exact Hx; reflexivity.
  - induction H as [| [k x] r Hx _ IH]; [reflexivity |]. simpl in Hx.
    destruct x; try exact IH;
      (apply andb_true_iff; split; [exact Hx | exact IH]).
Qed.

Lemma truthy_restored (x : value) : truthy (restored_field x VNull) = truthy x.
Proof. destruct x; reflexivity. Qed.

Lemma load_snapshot_json (s : SessionState) :
  json_state (load (Holds (Json (snapshot s)))) = true.
Proof.
  rewrite load_snapshot_fields. unfold json_state.
  cbn [chatId authToken phoneNumber searchResults].
  rewrite !is_json_restored by reflexivity. reflexivity.
Qed.

Lemma load_snapshot_fixed (s : SessionState) :
  json_state s = true -> load (Holds (Json (snapshot s))) = s.
Proof. intros H. unfold load. rewrite (load_snapshot s H). reflexivity. Qed.

Lemma restart_is_stable_aux (s : SessionState) :
  isAuthenticated (load (Holds (Json (snapshot s)))) = isAuthenticated s
  /\ truthy (chatId (load (Holds (Json (snapshot s))))) = truthy (chatId s).
Proof.
  rewrite load_snapshot_fields. unfold isAuthenticated. cbn [authToken chatId].
  split; apply truthy_restored.
Qed.

(** X13.  What a restart restores is stable: for every state, also one with
    [undefined] fields that the snapshot drops, the state restored from its
    snapshot holds JSON data, is restored unchanged from its own snapshot, and
    gives the same answers to [isAuthenticated] and to the test of
    [ensureSession] as the state that was saved. *)
Theorem restart_is_stable (s : SessionState) :
  json_state (load (Holds (Json (snapshot s)))) = true
  /\ load (Holds (Json (snapshot (load (Holds (Json (snapshot s)))))))
     = load (Holds (Json (snapshot s)))
  /\ isAuthenticated (load (Holds (Json (snapshot s)))) = isAuthenticated s
  /\ truthy (chatId (load (Holds (Json (snapshot s))))) = truthy (chatId s).
Proof.
  split; [apply load_snapshot_json |].
  split; [apply load_snapshot_fixed, load_snapshot_json |].
  apply restart_is_stable_aux.
Qed.

(** X14.  With a file that can be written and is in step with the state, a
    tool call leaves the file in step; so a process restarted after the call
    is signed in exactly when the old one was, reuses the session exactly when
    the old one would, and has the very state of the old one when that state
    holds JSON data. *)
Theorem restart_after_a_call (E : env) (name : string) (arguments : value) (w : world)
    (can_write : bool) :
  writable w = true -> in_step w ->
  let w' := snd (callTool E name arguments w) in
  let s := state (boot (cache_file w') can_write) in
  in_step w'
  /\ isAuthenticated s = isAuthenticated (state w')
  /\ truthy (chatId s) = truthy (chatId (state w'))
  /\ (json_state (state w') = true -> s = state w').
Proof.
  intros Hw Hi. cbv zeta.
  assert (Hstep : in_step (snd (callTool E name arguments w))).
  { destruct (callTool_kept E name arguments w) as [_ [[Hs Hf] | Hf]].
    - unfold in_step. rewrite Hs, Hf. exact Hi.
    - rewrite Hw in Hf. unfold in_step. rewrite Hf. reflexivity. }
  split; [exact Hstep |].
  unfold boot. cbn [state]. rewrite Hstep.
  destruct (restart_is_stable_aux (state (snd (callTool E name arguments w))))
    as [Ha Hc].
  split; [exact Ha |]. split; [exact Hc |]. apply load_snapshot_fixed.
Qed.

(** A sign-in at a healthy backend, then a restart: the new process has the
    state of the old one, token and phone number included. *)
Lemma restart_after_a_call_witness :
  state (boot (cache_file
                 (snd (callTool (Scenario.env_of Scenario.shop) "verify_otp"
                         (VObj [("phoneNumber", VStr "+353861234567");
                                ("code", VStr "1234")])
                         Scenario.fresh)))
              true)
  = state (snd (callTool (Scenario.env_of Scenario.shop) "verify_otp"
                  (VObj [("phoneNumber", VStr "+353861234567"); ("code", VStr "1234")])
                  Scenario.fresh)).
Proof.
  pose proof (restart_after_a_call (Scenario.env_of Scenario.shop) "verify_otp"
                (VObj [("phoneNumber", VStr "+353861234567"); ("code", VStr "1234")])
                Scenario.fresh true eq_refl eq_refl) as H.
  cbv zeta in H. apply H. reflexivity.
Defined.

(** *** Session expiry is read off the body of the reply *)

Lemma marker_skip (a b : string) :
  free_of "C" a = true ->
  str_includes (a ++ b) SESSION_MARKER = str_includes b SESSION_MARKER.
Proof.
  induction a as [| x a IH]; intros H; [reflexivity |].
  cbn [free_of] in H. apply andb_true_iff in H. destruct H as [Hx Ha].
  change (str_includes (String x a ++ b) SESSION_MARKER)
    with (if prefix SESSION_MARKER (String x (a ++ b)) then true
          else str_includes (a ++ b) SESSION_MARKER).
  assert (Hp : prefix SESSION_MARKER (String x (a ++ b)) = false).
  { unfold SESSION_MARKER. cbn [prefix].
    destruct (ascii_dec "C" x) as [<- | _]; [discriminate Hx | reflexivity]. }
  rewrite Hp. apply IH. exact Ha.
Qed.

Lemma api_error_expired (st : Z) (body : string) :
  str_includes ("API Error (" ++ string_of_Z st ++ "): " ++ body) SESSION_MARKER
  = str_includes body SESSION_MARKER.
Proof.
  rewrite (marker_skip "API Error (") by reflexivity.
  rewrite (marker_skip (string_of_Z st)) by apply free_of_Z.
  apply (marker_skip "): "). reflexivity.
Qed.

Lemma callApi_rejected (E : env) (act : string) (arguments : list value) (auth : value)
    (w : world) (r : response) :
  backend E (requests w) (Flipdish.request_of E act arguments auth) = Responds r ->
  Flipdish.ok r = false ->
  Flipdish.callApi E act arguments auth w
  = (Throws (Error ("API Error (" ++ string_of_Z (status r) ++ "): " ++ text r)),
     add_request (Flipdish.request_of E act arguments auth) w).
Proof.
  intros Hb Hok. rewrite callApi_spec, Hb. unfold Flipdish.settle. rewrite Hok.
  reflexivity.
Qed.

(** X15.  Whether a reply that is not 2xx counts as an expired session is
    read off its body alone: the error of [callApi] is "API Error (status):
    body", and it has the marker exactly when the body has it, whatever the
    status.  So a basket read in a stored session that the backend answers
    with such a reply is run again with a new session when the body has the
    marker, and fails with that error when it has not. *)
Theorem expiry_is_read_off_the_body (E : env) :
  (forall act arguments auth w r,
     backend E (requests w) (Flipdish.request_of E act arguments auth) = Responds r ->
     Flipdish.ok r = false ->
     exists e,
       Flipdish.callApi E act arguments auth w
       = (Throws e, add_request (Flipdish.request_of E act arguments auth) w)
       /\ message e = "API Error (" ++ string_of_Z (status r) ++ "): " ++ text r
       /\ session_expired e = str_includes (text r) SESSION_MARKER)
  /\ (forall args w r,
        truthy (chatId (state w)) = true ->
        let q := Flipdish.request_of E "getBasket" [chatId (state w)]
                   (or_ (authToken (state w)) VUndef) in
        backend E (requests w) q = Responds r ->
        Flipdish.ok r = false ->
        executeTool E "view_basket" args w
        = if str_includes (text r) SESSION_MARKER
          then executeToolInternal E "view_basket" args
                 (snd (setChatId (VStr "") (add_request q w)))
          else (Throws (Error ("API Error (" ++ string_of_Z (status r) ++ "): "
                               ++ text r)),
                add_request q w)).
Proof.
  split.
  - intros act arguments auth w r Hb Hok. eexists.
    split; [apply (callApi_rejected E act arguments auth w r Hb Hok) |].
    split; [reflexivity |].
    rewrite session_expired_includes. apply api_error_expired.
  - intros args w r Hc q Hb Hok.
    rewrite executeTool_unfold, (executeToolInternal_stored E _ _ w Hc).
    change (dispatch E "view_basket" ?c ?t ?a) with (view_basket E c t).
    unfold view_basket, Flipdish.getBasket.
    rewrite (bind_throws _ _ _ _ _ (callApi_rejected E _ _ _ w r Hb Hok)).
    change (message (Error ?m)) with m. rewrite api_error_expired. reflexivity.
Qed.

(** A basket read answered 400 "Call context not found" is run again; one
    answered 503 "Service Unavailable" is not. *)
Lemma expiry_is_read_off_the_body_witness :
  executeTool (Scenario.env_of Scenario.forgetful) "view_basket" (VObj [])
    Scenario.searched
  = executeToolInternal (Scenario.env_of Scenario.forgetful) "view_basket" (VObj [])
      (snd (setChatId (VStr "")
              (add_request
                 (Flipdish.request_of (Scenario.env_of Scenario.forgetful) "getBasket"
                    [VStr "chat-1"] VUndef)
                 Scenario.searched)))
  /\ exists e,
       Flipdish.callApi (Scenario.env_of Scenario.down) "getBasket" [VStr "chat-1"] VUndef
         Scenario.searched
       = (Throws e,
          add_request (Flipdish.request_of (Scenario.env_of Scenario.down) "getBasket"
                         [VStr "chat-1"] VUndef) Scenario.searched)
       /\ message e = "API Error (503): Service Unavailable"
       /\ session_expired e = false.
Proof.
  split.
  - apply (proj2 (expiry_is_read_off_the_body (Scenario.env_of Scenario.forgetful))
             (VObj []) Scenario.searched
             (mkResponse 400 "Call context not found"
                (Malformed (mkExn "SyntaxError" "Unexpected token C in JSON")))).
    + reflexivity.
    + reflexivity.
    + reflexivity.
  - apply (proj1 (expiry_is_read_off_the_body (Scenario.env_of Scenario.down))
             "getBasket" [VStr "chat-1"] VUndef Scenario.searched
             (mkResponse 503 "Service Unavailable"
                (Malformed (mkExn "SyntaxError" "Unexpected token S in JSON")))).
    + reflexivity.
    + reflexivity.
Defined.


(** *** A cache that is no array *)

(** X16.  The start takes the search cache of the file as it is, and
    [add_to_basket] reads its [length] before anything else: when the cache
    is [null] (or [undefined]), every [add_to_basket] call with valid
    arguments in a stored session ends as an error result for a TypeError,
    with no request sent and the state untouched. *)
Theorem add_to_basket_needs_a_cache (E : env) (arguments p : value) (w : world) :
  truthy (chatId (state w)) = true ->
  safeParse addToBasketSchema arguments = inr p ->
  nullish (searchResults (state w)) = true ->
  exists e,
    callTool E "add_to_basket" arguments w = (Returns (error_result e), w)
    /\ e = TypeError ("Cannot read properties of "
                      ++ ToString (searchResults (state w)) ++ " (reading 'length')").
Proof.
  intros Hc Hp Hn. eexists. split; [| reflexivity].
  assert (Ha : nullish arguments = false).
  { destruct arguments; try reflexivity; discriminate. }
  unfold callTool, try_catch. rewrite Ha, executeTool_unfold.
  rewrite (executeToolInternal_stored E _ _ w Hc).
  change (dispatch E "add_to_basket" ?c ?t ?a) with (add_to_basket E c t a).
  unfold add_to_basket.
  rewrite (bind_returns _ _ _ _ _ (parse_ok E _ _ _ _ Hp)). cbv zeta.
  unfold validate_against_search, getSearchResults, bind.
  destruct (searchResults (state w)); try discriminate Hn; reflexivity.
Qed.

(** A process started over a file whose search cache is [null]. *)
Lemma add_to_basket_needs_a_cache_witness :
  exists e,
    callTool (Scenario.env_of Scenario.shop) "add_to_basket" Scenario.four
      (boot (Holds (Json (VObj [("chatId", VStr "chat-1"); ("searchResults", VNull)])))
            true)
    = (Returns (error_result e),
       boot (Holds (Json (VObj [("chatId", VStr "chat-1"); ("searchResults", VNull)])))
            true)
    /\ e = TypeError "Cannot read properties of null (reading 'length')".
Proof.
  apply (add_to_basket_needs_a_cache (Scenario.env_of Scenario.shop) Scenario.four
           (VObj [("menuItemId", VNum 4); ("quantity", VUndef);
                  ("menuItemOptionSetItems", VUndef)])
           (boot (Holds (Json (VObj [("chatId", VStr "chat-1");
                                     ("searchResults", VNull)])))
                 true)).
  - reflexivity.
  - reflexivity.
  - reflexivity.
Defined.

(** *** The widgets and the server *)

(** The case of a tool that takes arguments is: parse them with the schema of
    the tool, then a body that sees the parsed object only.  ([submit_order]
    parses once it has found a token.) *)
Lemma dispatch_parses (E : env) (name : string) (sch : zobject) (chat token : value) :
  schema_of name = Some sch ->
  (name = "submit_order" -> truthy token = true) ->
  exists k, forall args w,
    dispatch E name chat token args w = bind (parse E sch args) k w.
Proof.
  unfold schema_of. intros Hs Hg.
  destruct (name =? "search_menu") eqn:H1.
  { apply String.eqb_eq in H1. subst name. injection Hs as <-.
    eexists. intros args w.
    change (dispatch E "search_menu" chat token args)
      with (search_menu E chat token args).
    unfold search_menu. reflexivity. }
  destruct (name =? "add_to_basket") eqn:H2.
  { apply String.eqb_eq in H2. subst name. injection Hs as <-.
    eexists. intros args w.
    change (dispatch E "add_to_basket" chat token args)
      with (add_to_basket E chat token args).
    unfold add_to_basket. reflexivity. }
  destruct (name =? "remove_from_basket") eqn:H3.
  { apply String.eqb_eq in H3. subst name. injection Hs as <-.
    eexists. intros args w.
    change (dispatch E "remove_from_basket" chat token args)
      with (remove_from_basket E chat token args).
    unfold remove_from_basket. reflexivity. }
  destruct (name =? "submit_order") eqn:H4.
  { apply String.eqb_eq in H4. subst name. injection Hs as <-.
    specialize (Hg eq_refl).
    eexists. intros args w.
    change (dispatch E "submit_order" chat token args)
      with (submit_order E chat token args).
    unfold submit_order. rewrite Hg. cbn [negb]. reflexivity. }
  destruct (name =? "send_otp") eqn:H5.
  { apply String.eqb_eq in H5. subst name. injection Hs as <-.
    eexists. intros args w.
    change (dispatch E "send_otp" chat token args) with (send_otp E args).
    unfold send_otp. reflexivity. }
  destruct (name =? "verify_otp") eqn:H6.
  { apply String.eqb_eq in H6. subst name. injection Hs as <-.
    eexists. intros args w.
    change (dispatch E "verify_otp" chat token args) with (verify_otp E chat args).
    unfold verify_otp. reflexivity. }
  discriminate Hs.
Qed.

Lemma parse_fails (E : env) (sch : zobject) (args : value) (issues : list ZodIssue)
    (w : world) :
  safeParse sch args = inl issues ->
  parse E sch args w = (Throws (mkExn "ZodError" (zodMessage E issues)), w).
Proof. intros H. unfold parse. rewrite H. reflexivity. Qed.

(** What a case that starts with the parse does with given arguments. *)
Lemma parsed_then (E : env) (sch : zobject) (k : value -> M value)
    (d : value -> M value) (a : value) :
  (forall args w, d args w = bind (parse E sch args) k w) ->
  (forall p, safeParse sch a = inr p -> forall w, d a w = k p w)
  /\ (forall issues, safeParse sch a = inl issues ->
        forall w, d a w = (Throws (mkExn "ZodError" (zodMessage E issues)), w)).
Proof.
  intros Hd. split.
  - intros p Hp w. rewrite Hd. apply bind_returns. apply parse_ok. exact Hp.
  - intros issues Hi w. rewrite Hd. apply bind_throws. apply parse_fails. exact Hi.
Qed.

Lemma check_numbers (p : list value) (l : list value) :
  check (ZOptional (ZArray ZNumber)) p (VArr l) = [] <-> forallb numeric l = true.
Proof.
  simpl. generalize 0%Z. induction l as [| x r IH]; intros n; simpl; [tauto |].
  destruct x; simpl; try (split; intros H; discriminate H). apply IH.
Qed.

(** The arguments of a card: they pass the schema when the ids are numbers,
    and only then. *)
Lemma safeParse_add (id : value) (opts : list value) :
  let a := VObj [("menuItemId", id); ("quantity", VNum 1);
                 ("menuItemOptionSetItems", VArr opts)] in
  (numeric id && forallb numeric opts = true -> safeParse addToBasketSchema a = inr a)
  /\ (numeric id && forallb numeric opts = false ->
      exists issues, safeParse addToBasketSchema a = inl issues).
Proof.
  cbv zeta. unfold safeParse, addToBasketSchema. cbn [flat_map map fst snd].
  change (lookup "menuItemId" _) with id.
  change (lookup "quantity" _) with (VNum 1).
  change (lookup "menuItemOptionSetItems" _) with (VArr opts).
  pose proof (check_numbers [VStr "menuItemOptionSetItems"] opts) as Hc.
  destruct (check (ZOptional (ZArray ZNumber)) [VStr "menuItemOptionSetItems"]
                  (VArr opts)) as [| i rest].
  - rewrite (proj1 Hc eq_refl), andb_true_r.
    destruct id; simpl; split; intros H; try discriminate H;
      try reflexivity; eexists; reflexivity.
  - assert (Hf : forallb numeric opts = false).
    { destruct (forallb numeric opts); [| reflexivity].
      discriminate (proj2 Hc eq_refl). }
    rewrite Hf, andb_false_r. split; [intros H; discriminate H | intros _].
    destruct id; simpl; eexists; reflexivity.
Qed.

Lemma safeParse_remove (id : value) :
  let a := VObj [("menuItemId", id); ("quantity", VNum 1)] in
  (numeric id = true -> safeParse removeFromBasketSchema a = inr a)
  /\ (numeric id = false ->
      exists issues, safeParse removeFromBasketSchema a = inl issues).
Proof.
  cbv zeta. destruct id; simpl; split; intros H; try discriminate H;
    try reflexivity; eexists; reflexivity.
Qed.

(** X17.  Every tool call that a widget makes names a tool of the server,
    and the case of the server for that tool parses the arguments with the
    schema of the tool before anything else ([submit_order] once it has found
    a token; with no token it returns the authentication prompt and parses
    nothing).  The calls of the login form and the checkout of the basket
    always pass the parse, and the body of the case runs on the parsed
    arguments.  A menu card and the basket send the ids as the backend gave
    them: their calls pass the parse when the [menuItemId] and the option ids
    are numbers, and otherwise the case throws the error of zod in the world
    it started in, before any request. *)
Theorem widget_calls_pass_the_schemas (E : env) (chat token : value) (c : tool_call) :
  widget_call c ->
  known (call_name c) = true
  /\ exists sch,
       schema_of (call_name c) = Some sch
       /\ (call_name c = "submit_order" -> truthy token = false ->
           forall w, dispatch E (call_name c) chat token (call_args c) w
                     = (Returns authResponse, w))
       /\ ((call_name c = "submit_order" -> truthy token = true) ->
           exists k,
             (forall args w,
                dispatch E (call_name c) chat token args w = bind (parse E sch args) k w)
             /\ (ids_are_numbers c = true ->
                 exists p,
                   safeParse sch (call_args c) = inr p
                   /\ forall w, dispatch E (call_name c) chat token (call_args c) w
                                = k p w)
             /\ (ids_are_numbers c = false ->
                 exists issues,
                   safeParse sch (call_args c) = inl issues
                   /\ forall w, dispatch E (call_name c) chat token (call_args c) w
                                = (Throws (mkExn "ZodError" (zodMessage E issues)), w))).
Proof.
  assert (Hmain : forall name a sch,
            schema_of name = Some sch ->
            (ids_are_numbers (mkCall name a) = true ->
             exists p, safeParse sch a = inr p) ->
            (ids_are_numbers (mkCall name a) = false ->
             exists issues, safeParse sch a = inl issues) ->
            (name = "submit_order" -> truthy token = true) ->
            exists k,
              (forall args w, dispatch E name chat token args w
                              = bind (parse E sch args) k w)
              /\ (ids_are_numbers (mkCall name a) = true ->
                  exists p, safeParse sch a = inr p
                            /\ forall w, dispatch E name chat token a w = k p w)
              /\ (ids_are_numbers (mkCall name a) = false ->
                  exists issues,
                    safeParse sch a = inl issues
                    /\ forall w, dispatch E name chat token a w
                                 = (Throws (mkExn "ZodError" (zodMessage E issues)), w))).
  { intros name a sch Hs Hpass Hfail Hg.
    destruct (dispatch_parses E name sch chat token Hs Hg) as [k Hk].
    destruct (parsed_then E sch k (dispatch E name chat token) a Hk) as [H1 H2].
    exists k. split; [exact Hk |]. split.
    - intros Hn. destruct (Hpass Hn) as [p Hp]. exists p. split; [exact Hp | apply H1, Hp].
    - intros Hn. destruct (Hfail Hn) as [issues Hi]. exists issues.
      split; [exact Hi | apply H2, Hi]. }
  assert (Hprompt : truthy token = false ->
            forall a w, dispatch E "submit_order" chat token a w
                        = (Returns authResponse, w)).
  { intros Ht a w.
    change (dispatch E "submit_order" chat token a) with (submit_order E chat token a).
    unfold submit_order. rewrite Ht. reflexivity. }
  intros [host phone c' H | host phone raw c' H | | host id opts c' H | host id c' H | ].
  - unfold Login.handleSendOtp in H.
    destruct (phone =? ""); [discriminate |]. destruct host; [| discriminate].
    injection H as <-. split; [reflexivity |].
    exists sendOtpSchema. split; [reflexivity |]. split; [intros Hn; discriminate Hn |].
    apply Hmain; [reflexivity | intros _; eexists; reflexivity
                  | intros Hn; discriminate Hn].
  - unfold Login.otp_change in H. cbn [snd] in H.
    destruct (String.length (Login.otp_value raw) =? 4)%nat; [| discriminate].
    destruct host; [| discriminate].
    injection H as <-. split; [reflexivity |].
    exists verifyOtpSchema. split; [reflexivity |]. split; [intros Hn; discriminate Hn |].
    apply Hmain; [reflexivity | intros _; eexists; reflexivity
                  | intros Hn; discriminate Hn].
  - split; [reflexivity |].
    exists submitOrderSchema. split; [reflexivity |].
    split; [intros _ Ht w; apply Hprompt, Ht |].
    apply Hmain; [reflexivity | intros _; eexists; reflexivity
                  | intros Hn; discriminate Hn].
  - unfold Menu.submitOrder in H. destruct host; [| discriminate].
    injection H as <-. split; [reflexivity |].
    exists addToBasketSchema. split; [reflexivity |]. split; [intros Hn; discriminate Hn |].
    destruct (safeParse_add id (Menu.allSelectedIds opts)) as [Hp Hf].
    apply Hmain; [reflexivity | intros Hn; eexists; apply Hp, Hn | intros Hn; apply Hf, Hn].
  - unfold Basket.handleRemoveItem in H. destruct host; [| discriminate].
    injection H as <-. split; [reflexivity |].
    exists removeFromBasketSchema. split; [reflexivity |].
    split; [intros Hn; discriminate Hn |].
    destruct (safeParse_remove id) as [Hp Hf].
    apply Hmain; [reflexivity | intros Hn; eexists; apply Hp
                  | intros Hn; apply Hf].
    + unfold ids_are_numbers in Hn. cbn in Hn. rewrite andb_true_r in Hn. exact Hn.
    + unfold ids_are_numbers in Hn. cbn in Hn. rewrite andb_true_r in Hn. exact Hn.
  - split; [reflexivity |].
    exists submitOrderSchema. split; [reflexivity |].
    split; [intros _ Ht w; apply Hprompt, Ht |].
    apply Hmain; [reflexivity | intros _; eexists; reflexivity
                  | intros Hn; discriminate Hn].
Qed.

(** A card with two option sets chosen adds its item with the three ids; a
    card of an item whose id the backend gave as a string is refused. *)
Lemma widget_calls_pass_the_schemas_witness :
  known "add_to_basket" = true
  /\ exists sch,
       schema_of "add_to_basket" = Some sch
       /\ exists issues,
            safeParse sch
              (VObj [("menuItemId", VStr "2"); ("quantity", VNum 1);
                     ("menuItemOptionSetItems", VArr [VNum 11; VNum 21; VNum 22])])
            = inl issues
            /\ forall w,
                 dispatch (Scenario.env_of Scenario.shop) "add_to_basket"
                   (VStr "chat-1") VNull
                   (VObj [("menuItemId", VStr "2"); ("quantity", VNum 1);
                          ("menuItemOptionSetItems", VArr [VNum 11; VNum 21; VNum 22])])
                   w
                 = (Throws (mkExn "ZodError" "Invalid input"), w).
Proof.
  destruct (widget_calls_pass_the_schemas (Scenario.env_of Scenario.shop)
              (VStr "chat-1") VNull
              (mkCall "add_to_basket"
                 (VObj [("menuItemId", VStr "2"); ("quantity", VNum 1);
                        ("menuItemOptionSetItems", VArr [VNum 11; VNum 21; VNum 22])]))
              (menu_add true (VStr "2")
                 [("10", [VNum 11]); ("20", [VNum 21; VNum 22])] _ eq_refl))
    as [Hk [sch [Hs [_ Hg]]]].
  split; [exact Hk |]. exists sch. split; [exact Hs |].
  destruct Hg as [k [_ [_ Hf]]]; [intros Hn; discriminate Hn |].
  destruct (Hf eq_refl) as [issues [Hi Hd]].
  exists issues. split; [exact Hi |]. exact Hd.
Defined.


(** *** The code of the login form *)

Lemma all_digits_strip (s : string) : all_digits (Login.strip_non_digits s) = true.
Proof.
  induction s as [| c r IH]; [reflexivity |]. simpl.
  destruct (Login.is_digit c) eqn:Hc; [| exact IH]. simpl. rewrite Hc. exact IH.
Qed.

Lemma strip_all_digits (s : string) :
  all_digits s = true -> Login.strip_non_digits s = s.
Proof.
  induction s as [| c r IH]; [reflexivity |]. simpl. intros H.
  apply andb_true_iff in H. destruct H as [Hc Hr]. rewrite Hc, (IH Hr). reflexivity.
Qed.

Lemma all_digits_slice (m : nat) (s : string) :
  all_digits s = true -> all_digits (substring 0 m s) = true.
Proof.
  revert s. induction m as [| m IH]; intros [| c r]; simpl; try reflexivity.
  intros H. apply andb_true_iff in H. destruct H as [Hc Hr].
  rewrite Hc. apply IH. exact Hr.
Qed.

Lemma length_slice (m : nat) (s : string) : (String.length (substring 0 m s) <= m)%nat.
Proof.
  revert s. induction m as [| m IH]; intros [| c r]; simpl; try lia.
  specialize (IH r). lia.
Qed.

Lemma slice_short (m : nat) (s : string) :
  (String.length s <= m)%nat -> substring 0 m s = s.
Proof.
  revert s. induction m as [| m IH]; intros [| c r]; simpl; intros H;
    try reflexivity; try lia.
  rewrite IH by lia. reflexivity.
Qed.

(** X18.  The code that the login form keeps, and sends, is made of digits
    only and has at most four of them, whatever is typed or pasted; cleaning
    it again changes nothing; and [verify_otp] is called only with a code of
    exactly four digits, for the phone number of the form, and [send_otp] only
    with a phone number that is not empty. *)
Theorem otp_code_is_four_digits (host : bool) (phoneNumber raw : string) :
  all_digits (Login.otp_value raw) = true
  /\ (String.length (Login.otp_value raw) <= 4)%nat
  /\ Login.otp_value (Login.otp_value raw) = Login.otp_value raw
  /\ fst (Login.otp_change host phoneNumber raw) = Login.otp_value raw
  /\ (forall c, snd (Login.otp_change host phoneNumber raw) = Some c ->
        host = true
        /\ String.length (Login.otp_value raw) = 4%nat
        /\ c = mkCall "verify_otp"
                 (VObj [("phoneNumber", VStr phoneNumber);
                        ("code", VStr (Login.otp_value raw))]))
  /\ (forall c, Login.handleSendOtp host phoneNumber = Some c ->
        host = true /\ phoneNumber <> ""
        /\ c = mkCall "send_otp" (VObj [("phoneNumber", VStr phoneNumber)])).
Proof.
  assert (Hd : all_digits (Login.otp_value raw) = true).
  { apply all_digits_slice, all_digits_strip. }
  assert (Hl : (String.length (Login.otp_value raw) <= 4)%nat) by apply length_slice.
  split; [exact Hd |]. split; [exact Hl |]. split.
  { unfold Login.otp_value at 1. rewrite (strip_all_digits _ Hd).
    apply slice_short. exact Hl. }
  split; [reflexivity |]. split.
  - intros c H. unfold Login.otp_change in H. cbn [snd] in H.
    destruct (String.length (Login.otp_value raw) =? 4)%nat eqn:H4; [| discriminate].
    destruct host; [| discriminate]. injection H as <-.
    apply Nat.eqb_eq in H4. repeat split. exact H4.
  - intros c H. unfold Login.handleSendOtp in H.
    destruct (phoneNumber =? "") eqn:Hp; [discriminate |].
    destruct host; [| discriminate]. injection H as <-.
    apply String.eqb_neq in Hp. repeat split. exact Hp.
Qed.

(** A code pasted with a dash and a letter: the four digits are sent. *)
Lemma otp_code_is_four_digits_witness :
  Login.otp_value "12-3a45" = "1234"
  /\ mkCall "verify_otp" (VObj [("phoneNumber", VStr "+353861234567"); ("code", VStr "1234")])
     = mkCall "verify_otp"
         (VObj [("phoneNumber", VStr "+353861234567");
                ("code", VStr (Login.otp_value "12-3a45"))]).
Proof.
  split; [reflexivity |].
  apply (proj1 (proj2 (proj2 (proj2 (proj2
           (otp_code_is_four_digits true "+353861234567" "12-3a45")))))).
  reflexivity.
Defined.

(** *** The options of a menu card *)

Lemma includes_filter (current : list Z) (optionId j : Z) :
  Menu.includes (filter (fun id => negb (id =? optionId)%Z) current) j
  = Menu.includes current j && negb (j =? optionId)%Z.
Proof.
  unfold Menu.includes. induction current as [| x r IH]; [reflexivity |]. simpl.
  destruct (x =? optionId)%Z eqn:Hx; simpl; rewrite IH.
  - apply Z.eqb_eq in Hx. subst x.
    destruct (j =? optionId)%Z; simpl; [rewrite andb_false_r | ]; reflexivity.
  - destruct (j =? x)%Z eqn:Hj; [| reflexivity]. simpl.
    apply Z.eqb_eq in Hj. subst j. rewrite Hx. reflexivity.
Qed.

Lemma includes_app (a b : list Z) (j : Z) :
  Menu.includes (a ++ b)%list j = Menu.includes a j || Menu.includes b j.
Proof. unfold Menu.includes. apply existsb_app. Qed.

Lemma includes_In (current : list Z) (j : Z) :
  Menu.includes current j = true <-> In j current.
Proof.
  unfold Menu.includes. rewrite existsb_exists. split.
  - intros [x [Hx He]]. apply Z.eqb_eq in He. subst. exact Hx.
  - intros H. exists j. split; [exact H | apply Z.eqb_refl].
Qed.

Lemma filter_absent (current : list Z) (optionId : Z) :
  Menu.includes current optionId = false ->
  filter (fun id => negb (id =? optionId)%Z) current = current.
Proof.
  unfold Menu.includes. induction current as [| x r IH]; [reflexivity |]. simpl.
  intros H. apply orb_false_iff in H. destruct H as [Hx Hr].
  rewrite Z.eqb_sym, Hx. simpl. rewrite (IH Hr). reflexivity.
Qed.

(** X19.  Choosing options on a menu card: in a set where one option is to
    be chosen the selection is the option clicked; in any other set a click
    selects an option that was not selected and unselects one that was,
    leaves every other option as it was, never lists an option twice, and a
    second click on the same option gives back the selection there was. *)
Theorem option_toggle (current : list Z) (optionId : Z) :
  Menu.toggle true current optionId = [optionId]
  /\ Menu.includes (Menu.toggle false current optionId) optionId
     = negb (Menu.includes current optionId)
  /\ (forall j, j <> optionId ->
        Menu.includes (Menu.toggle false current optionId) j = Menu.includes current j)
  /\ (NoDup current -> NoDup (Menu.toggle false current optionId))
  /\ (Menu.includes current optionId = false ->
      Menu.toggle false (Menu.toggle false current optionId) optionId = current).
Proof.
  split; [reflexivity |]. unfold Menu.toggle.
  destruct (Menu.includes current optionId) eqn:Hi; cbn [negb].
  - split.
    { rewrite includes_filter, Z.eqb_refl. apply andb_false_r. }
    split.
    { intros j Hj. rewrite includes_filter.
      apply Z.eqb_neq in Hj. rewrite Hj. apply andb_true_r. }
    split; [intros Hn; apply NoDup_filter; exact Hn | discriminate].
  - split.
    { rewrite includes_app, Hi. unfold Menu.includes. simpl.
      rewrite Z.eqb_refl. reflexivity. }
    split.
    { intros j Hj. rewrite includes_app. unfold Menu.includes at 2. simpl.
      apply Z.eqb_neq in Hj. rewrite Hj. rewrite !orb_false_r. reflexivity. }
    split.
    { intros Hn. apply NoDup_app; [exact Hn | repeat constructor; intros [] |].
      intros x Hx [<- | []]. apply includes_In in Hx. congruence. }
    intros _.
    assert (Hin : Menu.includes (current ++ [optionId])%list optionId = true).
    { rewrite includes_app. unfold Menu.includes at 2. simpl. rewrite Z.eqb_refl.
      apply orb_true_r. }
    rewrite Hin, filter_app, (filter_absent _ _ Hi). simpl. rewrite Z.eqb_refl.
    simpl. apply app_nil_r.
Qed.

(** Two clicks on option 12 of a set where 11 is selected. *)
Lemma option_toggle_witness :
  NoDup (Menu.toggle false [11%Z] 12%Z)
  /\ Menu.toggle false (Menu.toggle false [11%Z] 12%Z) 12%Z = [11%Z].
Proof.
  split.
  - apply (proj1 (proj2 (proj2 (proj2 (option_toggle [11%Z] 12%Z))))).
    repeat constructor. intros [].
  - apply (proj2 (proj2 (proj2 (proj2 (option_toggle [11%Z] 12%Z))))).
    reflexivity.
Defined.

(** *** What the basket shows after an order *)

Lemma executeToolInternal_frame_tools (E : env) (P : world -> Prop) (name : string)
    (args : value) :
  (forall q w, P w -> P (add_request q w)) ->
  (forall c, preserves P (setChatId c)) ->
  (name = "search_menu" -> forall v, preserves P (setSearchResults v)) ->
  (name = "verify_otp" ->
   forall t p, truthy t = true -> (exists s, p = VStr s) ->
               preserves P (setAuthToken t p)) ->
  preserves P (executeToolInternal E name args).
Proof.
  intros Hq Hc Hs Ha. unfold executeToolInternal.
  apply preserves_bind; [| intros chat].
  { apply (ensureSession_frame E P (fun _ => true) (fun q w _ => Hq q w) Hc). reflexivity. }
  apply preserves_bind; [apply preserves_getAuthToken | intros token].
  apply (dispatch_frame_tools E P (fun _ => true) name (fun q w _ => Hq q w) Hs Ha).
  apply actions_unrestricted.
Qed.

(** The two results of [submit_order]: the prompt when no token is held, the
    record of the order when one is. *)
Lemma submit_order_shapes (E : env) (chat token args : value) :
  yields (fun r => (truthy token = false /\ r = authResponse)
                   \/ (truthy token = true
                       /\ prop r "isError" = VUndef
                       /\ prop (prop r "structuredContent") "success" = VBool true))
         (submit_order E chat token args).
Proof.
  unfold submit_order. destruct (truthy token) eqn:Ht; cbn [negb].
  - repeat yields_step. right. repeat split.
  - apply yields_ret. left. split; reflexivity.
Qed.

Lemma executeToolInternal_order (E : env) (args : value) (w : world) (r : value) :
  fst (executeToolInternal E "submit_order" args w) = Returns r ->
  (truthy (authToken (state w)) = false /\ r = authResponse)
  \/ (truthy (authToken (state w)) = true
      /\ prop r "isError" = VUndef
      /\ prop (prop r "structuredContent") "success" = VBool true).
Proof.
  unfold executeToolInternal.
  pose proof (ensureSession_rest E w) as [Ht _].
  destruct (ensureSession E w) as [[chat | e] w1] eqn:He; simpl in Ht.
  - rewrite (bind_returns _ _ _ _ _ He). unfold bind, getAuthToken.
    change (dispatch E "submit_order" ?c ?t ?a) with (submit_order E c t a).
    rewrite Ht. apply submit_order_shapes.
  - rewrite (bind_throws _ _ _ _ _ He). discriminate.
Qed.

Lemma executeTool_order (E : env) (args : value) (w : world) (r : value) :
  fst (executeTool E "submit_order" args w) = Returns r ->
  (truthy (authToken (state w)) = false /\ r = authResponse)
  \/ (truthy (authToken (state w)) = true
      /\ prop r "isError" = VUndef
      /\ prop (prop r "structuredContent") "success" = VBool true).
Proof.
  rewrite executeTool_unfold.
  assert (Hk : authToken (state (snd (executeToolInternal E "submit_order" args w)))
               = authToken (state w)).
  { apply (executeToolInternal_frame_tools E
             (fun w' => authToken (state w') = authToken (state w)) "submit_order" args).
    - intros q w' H. exact H.
    - intros c w' H. rewrite setChatId_spec. exact H.
    - discriminate.
    - discriminate.
    - reflexivity. }
  destruct (executeToolInternal E "submit_order" args w) as [[r1 | e] w1] eqn:H1.
  - intros H. apply (executeToolInternal_order E args w). rewrite H1. exact H.
  - destruct (str_includes (message e) SESSION_MARKER); [| discriminate].
    intros H. simpl in Hk.
    assert (Ht : authToken (state (snd (setChatId (VStr "") w1))) = authToken (state w)).
    { rewrite setChatId_spec. exact Hk. }
    rewrite <- Ht. apply (executeToolInternal_order E args _ r H).
Qed.

(** X20.  What the basket widget tells the user after "buy" follows the
    result of [submit_order]: it says the order is placed only when a token
    was held and the executor returned the record of the order; with no token
    the result is the authentication prompt and it asks for the login; and
    for an error result (an order the backend refused, a backend that is
    down) it shows no message at all. *)
Theorem order_results_reach_the_basket (E : env) (arguments : value) (w : world) :
  exists r,
    fst (callTool E (call_name Basket.buy) arguments w) = Returns r
    /\ ((prop r "isError" = VBool true /\ Basket.handleBuy r = "")
        \/ (truthy (authToken (state w)) = false
            /\ r = authResponse
            /\ Basket.handleBuy r = "Please login to complete your order")
        \/ (truthy (authToken (state w)) = true
            /\ prop r "isError" = VUndef
            /\ Basket.handleBuy r = "Order placed successfully!")).
Proof.
  cbn [call_name Basket.buy]. unfold callTool, try_catch.
  pose proof (executeTool_order E (if nullish arguments then VObj [] else arguments) w)
    as H.
  destruct (executeTool E "submit_order" _ w) as [[r | e] w1]; simpl in H.
  - exists r. split; [reflexivity |]. right.
    destruct (H r eq_refl) as [[Ht ->] | [Ht [He Hs]]].
    + left. repeat split. exact Ht.
    + right. split; [exact Ht |]. split; [exact He |].
      unfold Basket.handleBuy. rewrite Hs. reflexivity.
  - exists (error_result e). split; [reflexivity |]. left. split; reflexivity.
Qed.

(** *** The registry and the executor *)

Lemma registered_known (name : string) :
  known name = true -> prop (registered name) "name" = VStr name.
Proof.
  unfold known, tool_names. simpl. intros H.
  repeat (apply orb_true_iff in H; destruct H as [H | H]);
    try discriminate H; apply String.eqb_eq in H; subst name; reflexivity.
Qed.

Lemma registered_unknown (name : string) :
  known name = false -> registered name = VUndef.
Proof.
  intros H. unfold registered.
  destruct (find _ Registry.tools) as [t |] eqn:Hf; [| reflexivity].
  apply find_some in Hf. destruct Hf as [Hin He].
  unfold Registry.tools in Hin. simpl in Hin.
  repeat (destruct Hin as [<- | Hin];
          [match type of He with
           | strict_eq (prop ?t "name") _ = _ =>
               let v := eval vm_compute in (prop t "name") in
               change (prop t "name") with v in He
           end;
           match type of He with
           | strict_eq (VStr ?s) (VStr name) = true =>
               change ((s =? name) = true) in He
           end;
           apply String.eqb_eq in He; subst name; vm_compute in H; discriminate H |]).
  destruct Hin.
Qed.

Lemma view_basket_requests (E : env) (chat token : value) (w : world) :
  requests (snd (view_basket E chat token w))
  = (requests w ++ [Flipdish.request_of E "getBasket" [chat] (or_ token VUndef)])%list.
Proof.
  unfold view_basket, Flipdish.getBasket. unfold bind at 1. rewrite callApi_spec.
  destruct (Flipdish.settle _) as [basket | e]; [| reflexivity].
  unfold bind. pose proof (read_world basket "basketMenuItems"
                             (add_request (Flipdish.request_of E "getBasket" [chat]
                                             (or_ token VUndef)) w)) as Hr.
  destruct (read basket "basketMenuItems" _) as [[lines | e] w1]; simpl in Hr; subst w1.
  - cbv zeta. destruct (or_ (prop basket "totalPrice") (VNum 0)); reflexivity.
  - reflexivity.
Qed.

Lemma clear_basket_requests (E : env) (chat token : value) (w : world) :
  requests (snd (clear_basket E chat token w))
  = (requests w
     ++ [Flipdish.request_of E "clearBasket" [chat; or_ (or_ token VUndef) VNull] VUndef])%list.
Proof.
  unfold clear_basket, Flipdish.clearBasket, bind. rewrite callApi_spec.
  destruct (Flipdish.settle _); reflexivity.
Qed.

Lemma not_one_more {A} (l : list A) (x : A) : l <> (l ++ [x])%list.
Proof.
  intros H. apply (f_equal (@List.length A)) in H. rewrite length_app in H. simpl in H.
  lia.
Qed.

(** A name of the switch reaches its case: run without token and without
    arguments, it does not end as the default case does. *)
Lemma dispatch_known (E : env) (name : string) (chat : value) (w : world) :
  known name = true ->
  dispatch E name chat VUndef VUndef w <> throw (Error ("Unknown tool: " ++ name)) w.
Proof.
  unfold known, tool_names. simpl. intros H.
  repeat (apply orb_true_iff in H; destruct H as [H | H]);
    try discriminate H; apply String.eqb_eq in H; subst name.
  - discriminate.
  - discriminate.
  - change (dispatch E "view_basket" ?c ?t ?a) with (view_basket E c t).
    intros Heq. apply (f_equal (fun x => requests (snd x))) in Heq.
    rewrite view_basket_requests in Heq. symmetry in Heq.
    exact (not_one_more _ _ Heq).
  - discriminate.
  - change (dispatch E "clear_basket" ?c ?t ?a) with (clear_basket E c t).
    intros Heq. apply (f_equal (fun x => requests (snd x))) in Heq.
    rewrite clear_basket_requests in Heq. symmetry in Heq.
    exact (not_one_more _ _ Heq).
  - discriminate.
  - discriminate.
  - discriminate.
Qed.

(** The cases of [view_basket] and [clear_basket] do not look at the
    arguments. *)
Lemma dispatch_ignores_arguments (E : env) (name : string) (chat token : value) :
  known name = true -> schema_of name = None ->
  forall args args' w,
    dispatch E name chat token args w = dispatch E name chat token args' w.
Proof.
  unfold known, tool_names. simpl. intros H.
  repeat (apply orb_true_iff in H; destruct H as [H | H]);
    try discriminate H; apply String.eqb_eq in H; subst name;
    intros Hs; try discriminate Hs; reflexivity.
Qed.

(** X21.  The registry and the executor agree.  The tools that [listTools]
    advertises are the names the [switch] has a case for, and any other name
    is refused as an unknown tool.  The case of a tool that takes arguments
    starts by parsing them with the zod schema of the tool ([submit_order]
    once it has found a token), and the input schema that the registry
    advertises for the tool has the arguments of that zod schema, by name, by
    type and by which of them are required.  The cases of the two tools that
    take no arguments do not look at the arguments, and the registry
    advertises none for them. *)
Theorem registry_agrees_with_executor (name : string) :
  prop Registry.listTools "tools" = VArr Registry.tools
  /\ (registered name <> VUndef <-> known name = true)
  /\ (forall E chat token args,
        registered name = VUndef ->
        dispatch E name chat token args = throw (Error ("Unknown tool: " ++ name)))
  /\ (forall E chat w,
        registered name <> VUndef ->
        dispatch E name chat VUndef VUndef w
        <> throw (Error ("Unknown tool: " ++ name)) w)
  /\ (forall sch, schema_of name = Some sch ->
        advertises (registered name) sch = true
        /\ forall E chat token,
             (name = "submit_order" -> truthy token = true) ->
             exists k, forall args w,
               dispatch E name chat token args w = bind (parse E sch args) k w)
  /\ (known name = true -> schema_of name = None ->
      advertises (registered name) [] = true
      /\ forall E chat token args args' w,
           dispatch E name chat token args w = dispatch E name chat token args' w).
Proof.
  assert (Hiff : registered name <> VUndef <-> known name = true).
  { split.
    - intros H. destruct (known name) eqn:Hk; [reflexivity |].
      contradiction (H (registered_unknown name Hk)).
    - intros Hk Hr. pose proof (registered_known name Hk) as Hn.
      rewrite Hr in Hn. discriminate Hn. }
  split; [reflexivity |]. split; [exact Hiff |]. split.
  - intros E chat token args Hr. apply dispatch_unknown.
    destruct (known name) eqn:Hk; [| reflexivity].
    contradiction (proj2 Hiff eq_refl Hr).
  - split; [intros E chat w Hr; apply dispatch_known, Hiff, Hr |].
    split.
    + intros sch Hs. split.
      * revert Hs. unfold schema_of.
        repeat match goal with
               | |- (if name =? ?s then _ else _) = _ -> _ =>
                   let H := fresh "H" in
                   destruct (name =? s) eqn:H;
                   [apply String.eqb_eq in H; subst name; intros Hs; injection Hs as <-;
                    reflexivity |]
               end.
        discriminate.
      * intros E chat token Hg. apply (dispatch_parses E name sch chat token Hs Hg).
    + intros Hk Hs. split.
      * revert Hs. revert Hk. unfold known, tool_names. simpl. intros H.
        repeat (apply orb_true_iff in H; destruct H as [H | H]);
          try discriminate H; apply String.eqb_eq in H; subst name;
          intros Hs; try discriminate Hs; reflexivity.
      * intros E chat token. apply dispatch_ignores_arguments; assumption.
Qed.

Lemma registry_agrees_with_executor_witness :
  advertises (registered "add_to_basket") addToBasketSchema = true
  /\ dispatch (Scenario.env_of Scenario.shop) "checkout" (VStr "chat-1") VNull (VObj [])
     = throw (Error "Unknown tool: checkout").
Proof.
  split.
  - apply (proj1 (proj2 (proj2 (proj2 (proj2
             (registry_agrees_with_executor "add_to_basket")))))).
    reflexivity.
  - apply (proj1 (proj2 (proj2 (registry_agrees_with_executor "checkout")))).
    reflexivity.
Defined.


(** *** From the carousel to the basket *)

Lemma item_ids_In (l ids : list value) (item : value) :
  item_ids l = Some ids -> In item l -> In (prop item "menuItemId") ids.
Proof.
  revert ids. induction l as [| x r IH]; intros ids H Hin; [contradiction |].
  simpl in H. destruct (nullish x); [discriminate |].
  destruct (item_ids r) as [ids' |]; [| discriminate]. injection H as <-.
  destruct Hin as [<- | Hin]; [left; reflexivity | right; apply (IH ids' eq_refl Hin)].
Qed.

Lemma existsb_number (n : Z) (ids : list value) :
  In (VNum n) ids -> existsb (strict_eq (VNum n)) ids = true.
Proof.
  intros H. apply existsb_exists. exists (VNum n). split; [exact H |].
  simpl. apply Z.eqb_refl.
Qed.

(** A run whose arguments fail the schema sends no basket update. *)
Lemma add_to_basket_unparsed (E : env) (args : value) (issues : list ZodIssue)
    (w : world) :
  safeParse addToBasketSchema args = inl issues ->
  extends (fun a => negb (a =? "updateBasket")) (requests w)
          (snd (executeTool E "add_to_basket" args w)).
Proof.
  intros Hi.
  apply (executeTool_frame E (extends (fun a => negb (a =? "updateBasket")) (requests w))
           (extends_setChatId _ _)); [| apply extends_refl].
  unfold executeToolInternal.
  apply preserves_bind; [| intros chat].
  { apply (ensureSession_frame E _ (fun a => negb (a =? "updateBasket"))
             (extends_request _ _) (extends_setChatId _ _)).
    reflexivity. }
  apply preserves_bind; [apply preserves_getAuthToken | intros token].
  change (dispatch E "add_to_basket" chat token args)
    with (add_to_basket E chat token args).
  intros w0 H0. unfold add_to_basket.
  rewrite (bind_throws _ _ _ _ _ (parse_fails E _ _ _ w0 Hi)). exact H0.
Qed.

(** X22.  What the carousel shows can be added when the backend gave numbers
    for the ids.  After a search whose result lists the items [l], none
    of them [null] or [undefined], in a stored session, take the call that the card of one of these items makes,
    with the [menuItemId] of the item and the chosen option ids as the
    backend gave them.  When these ids are numbers, the call passes the
    schema and the membership test: its first request is the basket update
    that adds one of the item with the chosen option ids.  When the id of the
    item or a chosen option id is not a number, the run throws the error of
    zod in the world it started in, and no request of the call is a basket
    update. *)
Theorem shown_items_can_be_added (E : env) (arguments : value) (w w1 : world)
    (r item : value) (l ids : list value)
    (finalOptions : list (string * list value)) (c : tool_call) :
  callTool E "search_menu" arguments w = (Returns r, w1) ->
  prop (prop r "structuredContent") "items" = VArr l ->
  item_ids l = Some ids ->
  In item l ->
  truthy (chatId (state w1)) = true ->
  Menu.submitOrder true (prop item "menuItemId") finalOptions = Some c ->
  (ids_are_numbers c = true ->
   exists p rest,
     safeParse addToBasketSchema (call_args c) = inr p
     /\ prop p "menuItemId" = prop item "menuItemId"
     /\ prop p "quantity" = VNum 1
     /\ prop p "menuItemOptionSetItems" = VArr (Menu.allSelectedIds finalOptions)
     /\ requests (snd (callTool E (call_name c) (call_args c) w1))
        = (requests w1
           ++ addition_request E (chatId (state w1)) (authToken (state w1)) p
           :: rest)%list)
  /\ (ids_are_numbers c = false ->
      exists issues,
        safeParse addToBasketSchema (call_args c) = inl issues
        /\ executeToolInternal E (call_name c) (call_args c) w1
           = (Throws (mkExn "ZodError" (zodMessage E issues)), w1)
        /\ extends (fun a => negb (a =? "updateBasket")) (requests w1)
                   (snd (callTool E (call_name c) (call_args c) w1))).
Proof.
  intros Hcall Hitems Hids Hin Hc Hcard.
  unfold Menu.submitOrder in Hcard. injection Hcard as <-. cbn [call_name call_args].
  destruct (safeParse_add (prop item "menuItemId") (Menu.allSelectedIds finalOptions))
    as [Hpass Hfail].
  split.
  - intros Hn. specialize (Hpass Hn).
    assert (Hs : searchResults (state w1) = VArr l).
    { destruct (callTool_search_cache E arguments w) as [r' [Hr [[_ H] | [He _]]]];
        rewrite Hcall in *; simpl in *; injection Hr as <-.
      - rewrite H. exact Hitems.
      - rewrite He in Hitems. discriminate Hitems. }
    assert (Hnum : exists n, prop item "menuItemId" = VNum n).
    { apply andb_true_iff in Hn. destruct Hn as [Hn _].
      change (prop (VObj _) "menuItemId") with (prop item "menuItemId") in Hn.
      destruct (prop item "menuItemId"); try discriminate Hn. eexists. reflexivity. }
    destruct Hnum as [n Hid].
    eexists.
    destruct (callTool_forwards_addition E _ _ l ids w1 Hc Hpass Hs Hids) as [rest Hrest].
    { change (prop (VObj _) "menuItemId") with (prop item "menuItemId").
      rewrite Hid. apply existsb_number. rewrite <- Hid.
      apply (item_ids_In l ids item Hids Hin). }
    exists rest. split; [exact Hpass |]. repeat split. exact Hrest.
  - intros Hn. destruct (Hfail Hn) as [issues Hi]. exists issues.
    split; [exact Hi |]. split.
    + rewrite (executeToolInternal_stored E _ _ w1 Hc).
      change (dispatch E "add_to_basket" ?ch ?t ?a) with (add_to_basket E ch t a).
      unfold add_to_basket. apply bind_throws. apply parse_fails. exact Hi.
    + rewrite callTool_world. cbn [nullish].
      apply (add_to_basket_unparsed E _ issues w1 Hi).
Qed.

(** The Funghi card of a search for pizza, with one option chosen. *)
Lemma shown_items_can_be_added_witness :
  exists p rest,
    safeParse addToBasketSchema
      (VObj [("menuItemId", VNum 2); ("quantity", VNum 1);
             ("menuItemOptionSetItems", VArr [VNum 11])])
    = inr p
    /\ prop p "menuItemId" = VNum 2
    /\ prop p "quantity" = VNum 1
    /\ prop p "menuItemOptionSetItems" = VArr [VNum 11]
    /\ requests (snd (callTool (Scenario.env_of Scenario.shop) "add_to_basket"
                        (VObj [("menuItemId", VNum 2); ("quantity", VNum 1);
                               ("menuItemOptionSetItems", VArr [VNum 11])])
                        Scenario.searched))
       = (requests Scenario.searched
          ++ addition_request (Scenario.env_of Scenario.shop) (VStr "chat-1") VNull p
          :: rest)%list.
Proof.
  apply (proj1 (shown_items_can_be_added (Scenario.env_of Scenario.shop) Scenario.pizza
           Scenario.fresh Scenario.searched
           match fst (callTool (Scenario.env_of Scenario.shop) "search_menu" Scenario.pizza
                        Scenario.fresh) with
           | Returns r => r
           | Throws _ => VUndef
           end
           (Scenario.item 2 "Funghi")
           [Scenario.item 1 "Margherita"; Scenario.item 2 "Funghi";
            Scenario.item 3 "Diavola"]
           [VNum 1; VNum 2; VNum 3] [("10", [VNum 11])]
           (mkCall "add_to_basket"
              (VObj [("menuItemId", VNum 2); ("quantity", VNum 1);
                     ("menuItemOptionSetItems", VArr [VNum 11])]))
           eq_refl eq_refl eq_refl (or_intror (or_introl eq_refl)) eq_refl eq_refl)).
  reflexivity.
Defined.

(** *** A session reply without an id *)


(** X23.  The id of a new session is taken from the reply unchecked.  When
    no session is stored and the backend answers the session request with a
    JSON object that has no [chatId], the run goes on: a basket read is sent
    for the session [undefined], which travels as [null], and the stored id
    is left [undefined], so that the next call asks for a session again. *)
Theorem session_reply_without_id (E : env) (arguments : value) (w : world) (r : response)
    (result : value) :
  truthy (chatId (state w)) = false ->
  backend E (requests w) (guest_session_request E) = Responds r ->
  Flipdish.ok r = true ->
  json r = Json result ->
  nullish result = false ->
  prop result "chatId" = VUndef ->
  let w' := snd (executeToolInternal E "view_basket" arguments w) in
  let q := Flipdish.request_of E "getBasket" [VUndef] (or_ (authToken (state w)) VUndef) in
  requests w' = (requests w ++ [guest_session_request E; q])%list
  /\ args q = [VNull]
  /\ chatId (state w') = VUndef
  /\ truthy (chatId (state w')) = false.
Proof.
  intros Hc Hb Hok Hj Hn Hid. cbv zeta.
  unfold executeToolInternal.
  rewrite (bind_returns _ _ _ _ _ (ensureSession_created E w r result Hc Hb Hok Hj Hn)).
  rewrite Hid. unfold bind, getAuthToken.
  change (dispatch E "view_basket" ?c ?t ?a) with (view_basket E c t).
  assert (Hk : chatId (state (snd (view_basket E VUndef
                                     (authToken (state (snd (setChatId VUndef
                                        (add_request (guest_session_request E) w)))))
                                     (snd (setChatId VUndef
                                        (add_request (guest_session_request E) w))))))
               = VUndef).
  { apply (view_basket_frame E (fun w' => chatId (state w') = VUndef) (fun _ => true)
             (fun q w' _ H => H)); [reflexivity |].
    rewrite setChatId_spec. reflexivity. }
  rewrite view_basket_requests, requests_setChatId.
  split; [| split; [reflexivity | split; [exact Hk | rewrite Hk; reflexivity]]].
  rewrite setChatId_spec. cbn [authToken state requests add_request].
  rewrite <- app_assoc. reflexivity.
Qed.

(** A backend that answers every request with [{ success: true }], the
    session request too. *)
Lemma session_reply_without_id_witness :
  requests (snd (executeToolInternal
                   (Scenario.env_of (fun _ _ => Scenario.ok_json (VObj [("success", VBool true)])))
                   "view_basket" (VObj []) Scenario.fresh))
  = [guest_session_request
       (Scenario.env_of (fun _ _ => Scenario.ok_json (VObj [("success", VBool true)])));
     Flipdish.request_of
       (Scenario.env_of (fun _ _ => Scenario.ok_json (VObj [("success", VBool true)])))
       "getBasket" [VUndef] VUndef]
  /\ chatId (state (snd (executeToolInternal
                           (Scenario.env_of
                              (fun _ _ => Scenario.ok_json (VObj [("success", VBool true)])))
                           "view_basket" (VObj []) Scenario.fresh)))
     = VUndef.
Proof.
  pose proof (session_reply_without_id
                (Scenario.env_of (fun _ _ => Scenario.ok_json (VObj [("success", VBool true)])))
                (VObj []) Scenario.fresh
                (mkResponse 200 "" (Json (VObj [("success", VBool true)])))
                (VObj [("success", VBool true)])
                eq_refl eq_refl eq_refl eq_refl eq_refl eq_refl) as H.
  cbv zeta in H. destruct H as [Hq [_ [Hc _]]]. split; [exact Hq | exact Hc].
Defined.
